(** * The neural memory manager of vectoros_v2: pools, tracker, metrics

    A shallow embedding of
      src/vectoros_v2/kernel/neural_memory_manager.h
      src/vectoros_v2/kernel/neural_memory_manager.cpp
    The C++ objects become records, every member function becomes a
    function in a small state-and-outcome monad, and the machine the code
    runs on (raw memory and the system allocator) is an explicit value that
    is threaded through the calls. *)

From stdpp Require Import gmap strings list fin_maps.
From Stdlib Require Import ZArith Lia.

Local Open Scope Z_scope.

(** ** Outcomes of a call

    A member function either returns, lets [std::bad_alloc] escape, blocks
    for ever because it locks a [std::mutex] its own thread already holds,
    or leaves the defined behaviour of the language. *)

Inductive Outcome (S A : Type) : Type :=
| Returns (a : A) (s : S)
| Throws (s : S)
| Deadlocks
| Undefined.

Arguments Returns {S A} a s.
Arguments Throws {S A} s.
Arguments Deadlocks {S A}.
Arguments Undefined {S A}.

Definition M (S A : Type) : Type := S -> Outcome S A.

Definition ret {S A} (a : A) : M S A := fun s => Returns a s.

Definition bind {S A B} (c : M S A) (k : A -> M S B) : M S B :=
  fun s =>
    match c s with
    | Returns a s' => k a s'
    | Throws s' => Throws s'
    | Deadlocks => Deadlocks
    | Undefined => Undefined
    end.

Notation "'call' x <- c ; k" := (bind c (fun x => k))
  (at level 10, x name, c at level 100, k at level 200).
Notation "'exec' c ; k" := (bind c (fun _ => k))
  (at level 10, c at level 100, k at level 200).

Definition get {S} : M S S := fun s => Returns s s.
Definition modify {S} (f : S -> S) : M S unit := fun s => Returns tt (f s).
Definition when {S} (b : bool) (c : M S unit) : M S unit :=
  if b then c else ret tt.

(** [std::lock_guard<std::mutex> lock(m)]: the constructor locks [m], the
    destructor unlocks it on every way out of the scope, exceptions
    included.  Locking a mutex the thread already owns never comes back. *)
Definition lock_guard {S A} (held : S -> bool) (set_held : bool -> S -> S)
    (body : M S A) : M S A :=
  fun s =>
    if held s then Deadlocks
    else match body (set_held true s) with
         | Returns a s' => Returns a (set_held false s')
         | Throws s' => Throws (set_held false s')
         | Deadlocks => Deadlocks
         | Undefined => Undefined
         end.

(** ** The machine: unsigned 64-bit arithmetic, raw memory, malloc *)

Module Machine.

Definition SIZE_MAX : Z := 2 ^ 64 - 1.

(** [size_t] and [uint64_t] arithmetic wraps around. *)
Definition wrap64 (z : Z) : Z := z mod 2 ^ 64.

Definition nullptr : Z := 0.

(** Memory as the allocator uses it: the [next] word of every
    [PoolBlock] header that has been written, keyed by the address of
    the header; the payload bytes; and the state of the system
    allocator (its live objects with their sizes, and the arena it
    hands out addresses from). *)
Record Mem : Type := mkMem {
  links : gmap Z Z;
  bytes : gmap Z Z;
  sys_blocks : gmap Z Z;
  sys_brk : Z;
  sys_limit : Z
}.

Definition set_links (f : gmap Z Z -> gmap Z Z) (m : Mem) : Mem :=
  mkMem (f (links m)) (bytes m) (sys_blocks m) (sys_brk m) (sys_limit m).
Definition set_bytes (f : gmap Z Z -> gmap Z Z) (m : Mem) : Mem :=
  mkMem (links m) (f (bytes m)) (sys_blocks m) (sys_brk m) (sys_limit m).
Definition set_sys_blocks (f : gmap Z Z -> gmap Z Z) (m : Mem) : Mem :=
  mkMem (links m) (bytes m) (f (sys_blocks m)) (sys_brk m) (sys_limit m).
Definition set_sys_brk (b : Z) (m : Mem) : Mem :=
  mkMem (links m) (bytes m) (sys_blocks m) b (sys_limit m).

(** [block->next = v] and the read of [block->next]; reading a header
    that was never written reads an indeterminate value. *)
Definition store_next (block v : Z) (m : Mem) : Mem :=
  set_links (fun l => <[block := v]> l) m.
Definition load_next (block : Z) (m : Mem) : option Z := links m !! block.

Definition load_byte (m : Mem) (a : Z) : Z := default 0 (bytes m !! a).

Definition load_bytes (src : Z) (n : nat) (m : Mem) : list Z :=
  (fun i => load_byte m (src + Z.of_nat i)) <$> seq 0 n.

Fixpoint store_bytes (dst : Z) (data : list Z) (bm : gmap Z Z) : gmap Z Z :=
  match data with
  | [] => bm
  | b :: rest => <[dst := b]> (store_bytes (dst + 1) rest bm)
  end.

(** The bytes [src, src+n) as they are, written to [dst, dst+n). *)
Definition copy_bytes (dst src n : Z) (m : Mem) : Mem :=
  set_bytes (store_bytes dst (load_bytes src (Z.to_nat n) m)) m.

(** The bytes [a, a+n) lie inside one live object of the system
    allocator. *)
Definition in_object (a n : Z) (m : Mem) : bool :=
  existsb (fun o => (fst o <=? a) && (a + n <=? fst o + snd o))
          (map_to_list (sys_blocks m)).

(** The bytes [a, a+n) hold no [next] word (eight bytes) of a block
    header. *)
Definition off_headers (a n : Z) (m : Mem) : bool :=
  forallb (fun h => (fst h + 8 <=? a) || (a + n <=? fst h))
          (map_to_list (links m)).

(** [std::memcpy(dst, src, n)]: [None] when the behaviour is undefined,
    because the two ranges overlap or one of them is not inside a live
    object.  It is [None] as well when a range holds the [next] word of a
    block header: the byte map does not hold these words, and what the
    copy does with them is not described here. *)
Definition memcpy (dst src n : Z) (m : Mem) : option Mem :=
  if ((dst + n <=? src) || (src + n <=? dst))
     && in_object dst n m && in_object src n m
     && off_headers dst n m && off_headers src n m
  then Some (copy_bytes dst src n m)
  else None.

Definition align16 (n : Z) : Z := (n + 15) / 16 * 16.

(** [std::malloc(n)]: a fresh object at the break of the arena, or the
    null pointer when the arena cannot hold it. *)
Definition malloc (n : Z) (m : Mem) : Z * Mem :=
  let a := sys_brk m in
  if a + n <=? sys_limit m
  then (a, set_sys_brk (a + align16 (Z.max n 1))
             (set_sys_blocks (fun b => <[a := n]> b) m))
  else (nullptr, m).

(** [std::free(p)] *)
Definition free (p : Z) (m : Mem) : Mem :=
  set_sys_blocks (fun b => delete p b) m.

(** [std::realloc(p, n)]: [None] when [p] is neither null nor a live
    object of the system allocator (undefined behaviour).  On success
    the new object holds the old contents up to the lesser of the two
    sizes and the old object is gone; on failure the old object stays. *)
Definition realloc (p n : Z) (m : Mem) : option (Z * Mem) :=
  if p =? nullptr then Some (malloc n m)
  else match sys_blocks m !! p with
       | None => None
       | Some old =>
           let '(q, m1) := malloc n m in
           if q =? nullptr then Some (nullptr, m)
           else Some (q, free p (copy_bytes q p (Z.min old n) m1))
       end.

(** The memory of a fresh process. *)
Definition boot : Mem := mkMem ∅ ∅ ∅ 4096 (2 ^ 47).

End Machine.

Import Machine.

(** ** MemoryPoolConfig *)

Record MemoryPoolConfig : Type := mkConfig {
  block_size : Z;
  initial_capacity : Z;
  max_capacity : Z;
  enable_leak_detection : bool;
  enable_corruption_detection : bool;
  enable_performance_monitoring : bool
}.

(** The defaults of the constructor's arguments. *)
Definition default_MemoryPoolConfig : MemoryPoolConfig :=
  mkConfig 4096 1024 65536 true true true.

(** ** MemoryPool *)

Module MemoryPool.

(** [struct PoolBlock { PoolBlock* next; char data[1]; }] on LP64. *)
Definition sizeof_PoolBlock : Z := 16.
Definition offsetof_data : Z := 8.

Record t : Type := mk {
  pool_mutex : bool;
  free_list : Z;
  allocated_blocks : list Z;
  config : MemoryPoolConfig;
  allocated_count : Z;
  total_allocated : Z
}.

Definition St : Type := t * Mem.

Definition set_pool_mutex (b : bool) (s : St) : St :=
  let p := fst s in
  (mk b (free_list p) (allocated_blocks p) (config p)
      (allocated_count p) (total_allocated p), snd s).

Definition locked {A} (body : M St A) : M St A :=
  lock_guard (fun s => pool_mutex (fst s)) set_pool_mutex body.

Definition expand_pool : M St unit :=
  locked (fun s =>
    let p := fst s in
    let block_size_with_header :=
      wrap64 (block_size (config p) + sizeof_PoolBlock) in
    let '(new_block, m1) := malloc block_size_with_header (snd s) in
    if new_block =? nullptr then Throws (p, m1)
    else
      Returns tt
        (mk (pool_mutex p) new_block (allocated_blocks p ++ [new_block])
            (config p) (allocated_count p) (total_allocated p),
         store_next new_block (free_list p) m1)).

(** [MemoryPool::MemoryPool(cfg)] *)
Definition construct (cfg : MemoryPoolConfig) : M Mem t :=
  fun m =>
    match expand_pool (mk false nullptr [] cfg 0 0, m) with
    | Returns _ (p, m') => Returns p m'
    | Throws (_, m') => Throws m'
    | Deadlocks => Deadlocks
    | Undefined => Undefined
    end.

Definition allocate : M St Z :=
  locked (
    exec (fun s => if free_list (fst s) =? nullptr then expand_pool s
                  else Returns tt s);
    (fun s =>
       let p := fst s in
       let block := free_list p in
       match load_next block (snd s) with
       | None => Undefined
       | Some next =>
           Returns (block + offsetof_data)
             (mk (pool_mutex p) next (allocated_blocks p) (config p)
                 (wrap64 (allocated_count p + 1))
                 (wrap64 (total_allocated p + block_size (config p))),
              snd s)
       end)).

Definition deallocate (ptr : Z) : M St unit :=
  if ptr =? nullptr then ret tt
  else
    locked (fun s =>
      let p := fst s in
      let block := ptr - offsetof_data in
      Returns tt
        (mk (pool_mutex p) block (allocated_blocks p) (config p)
            (wrap64 (allocated_count p - 1)) (total_allocated p),
         store_next block (free_list p) (snd s))).

(** [~MemoryPool()]: every slab the pool ever obtained goes back to the
    system allocator. *)
Definition destroy (p : t) (m : Mem) : Mem :=
  fold_left (fun acc block => free block acc) (allocated_blocks p) m.

Definition get_allocated_count (p : t) : Z := allocated_count p.
Definition get_total_allocated (p : t) : Z := total_allocated p.
Definition get_pool_size (p : t) : Z := initial_capacity (config p).

End MemoryPool.

(** ** MemoryBlock: the tracking record of one allocation

    [allocation_time] and [stack_trace] are written once and read by no
    function of the manager; they are left out. *)

Module MemoryBlock.

Record t : Type := mk {
  ptr : Z;
  size : Z;
  file : string;
  line : Z;
  is_freed : bool
}.

Definition mark_freed (b : t) : t :=
  mk (ptr b) (size b) (file b) (line b) true.

End MemoryBlock.

(** ** NeuralMemoryManager *)

Module NeuralMemoryManager.

Record PerformanceMetrics : Type := mkMetrics {
  total_allocations : Z;
  total_deallocations : Z;
  total_bytes_allocated : Z;
  total_bytes_deallocated : Z;
  peak_memory_usage : Z;
  current_memory_usage : Z
}.

(** [pool_index_map] is a [std::unordered_map<size_t, size_t>]: a list
    of pairs with distinct keys, in the order the iteration visits
    them.  [memory_pools] is a vector; its indices are naturals. *)
Record t : Type := mk {
  default_config : MemoryPoolConfig;
  memory_pools : list MemoryPool.t;
  pool_index_map : list (Z * nat);
  allocated_blocks : gmap Z MemoryBlock.t;
  tracking_mutex : bool;
  metrics : PerformanceMetrics;
  corruption_detector_enabled : bool
}.

Definition St : Type := t * Mem.

Definition on_mgr (f : t -> t) (s : St) : St := (f (fst s), snd s).

Definition set_memory_pools (v : list MemoryPool.t) (g : t) : t :=
  mk (default_config g) v (pool_index_map g) (allocated_blocks g)
     (tracking_mutex g) (metrics g) (corruption_detector_enabled g).
Definition set_pool_index_map (v : list (Z * nat)) (g : t) : t :=
  mk (default_config g) (memory_pools g) v (allocated_blocks g)
     (tracking_mutex g) (metrics g) (corruption_detector_enabled g).
Definition set_allocated_blocks (v : gmap Z MemoryBlock.t) (g : t) : t :=
  mk (default_config g) (memory_pools g) (pool_index_map g) v
     (tracking_mutex g) (metrics g) (corruption_detector_enabled g).
Definition set_tracking_mutex (v : bool) (g : t) : t :=
  mk (default_config g) (memory_pools g) (pool_index_map g)
     (allocated_blocks g) v (metrics g) (corruption_detector_enabled g).
Definition set_metrics (v : PerformanceMetrics) (g : t) : t :=
  mk (default_config g) (memory_pools g) (pool_index_map g)
     (allocated_blocks g) (tracking_mutex g) v
     (corruption_detector_enabled g).
Definition set_corruption_detector_enabled (v : bool) (g : t) : t :=
  mk (default_config g) (memory_pools g) (pool_index_map g)
     (allocated_blocks g) (tracking_mutex g) (metrics g) v.

Definition tracking_locked {A} (body : M St A) : M St A :=
  lock_guard (fun s => tracking_mutex (fst s))
             (fun b => on_mgr (set_tracking_mutex b)) body.

(** [pool_index_map.find(k)] *)
Fixpoint umap_find (k : Z) (l : list (Z * nat)) : option nat :=
  match l with
  | [] => None
  | (k', v) :: rest => if k' =? k then Some v else umap_find k rest
  end.

(** [pool_index_map[k] = v]; where a new key lands in the iteration
    order is the library's choice, here at the end. *)
Fixpoint umap_assign (k : Z) (v : nat) (l : list (Z * nat))
    : list (Z * nat) :=
  match l with
  | [] => [(k, v)]
  | (k', v') :: rest =>
      if k' =? k then (k, v) :: rest else (k', v') :: umap_assign k v rest
  end.

(** Run a member function of [memory_pools[idx]]. *)
Definition at_pool {A} (idx : nat) (op : M MemoryPool.St A) : M St A :=
  fun s =>
    let g := fst s in
    match memory_pools g !! idx with
    | None => Undefined
    | Some p =>
        match op (p, snd s) with
        | Returns a (p', m') =>
            Returns a (set_memory_pools (<[idx := p']> (memory_pools g)) g, m')
        | Throws (p', m') =>
            Throws (set_memory_pools (<[idx := p']> (memory_pools g)) g, m')
        | Deadlocks => Deadlocks
        | Undefined => Undefined
        end
    end.

Definition abs_diff (size k : Z) : Z :=
  if size >? k then size - k else k - size.

(** One turn of the nearest-class loop: the pair is
    [(min_diff, best_index)]. *)
Definition closer (size : Z) (acc : Z * nat) (entry : Z * nat) : Z * nat :=
  let diff := abs_diff size (fst entry) in
  if diff <? fst acc then (diff, snd entry) else acc.

Definition get_pool_index (size : Z) (g : t) : nat :=
  match umap_find size (pool_index_map g) with
  | Some idx => idx
  | None => snd (fold_left (closer size) (pool_index_map g) (SIZE_MAX, 0%nat))
  end.

(** The pool is a [MemoryPool*] into the vector in the source; here it
    is the index of that pool. *)
Definition push_pool (size : Z) (p : MemoryPool.t) (g : t) : t :=
  let pools := memory_pools g ++ [p] in
  set_pool_index_map
    (umap_assign size (length pools - 1)%nat (pool_index_map g))
    (set_memory_pools pools g).

Definition create_pool (size : Z) (flags : MemoryPoolConfig) : M St nat :=
  fun s =>
    let config :=
      mkConfig size 1024 65536 (enable_leak_detection flags)
               (enable_corruption_detection flags)
               (enable_performance_monitoring flags) in
    match MemoryPool.construct config (snd s) with
    | Returns p m' =>
        Returns (length (memory_pools (fst s))) (push_pool size p (fst s), m')
    | Throws m' => Throws (fst s, m')
    | Deadlocks => Deadlocks
    | Undefined => Undefined
    end.

Definition get_or_create_pool (size : Z) : M St nat :=
  fun s =>
    let pool_idx := get_pool_index size (fst s) in
    if (pool_idx <? length (memory_pools (fst s)))%nat
    then Returns pool_idx s
    else create_pool size (default_config (fst s)) s.

Definition common_sizes : list Z := [64; 128; 256; 512; 1024; 2048; 4096; 8192].

Fixpoint construct_pools (config : MemoryPoolConfig) (sizes : list Z)
    : M St unit :=
  match sizes with
  | [] => ret tt
  | size :: rest =>
      exec create_pool size config;
      construct_pools config rest
  end.

Definition zero_metrics : PerformanceMetrics := mkMetrics 0 0 0 0 0 0.

(** [NeuralMemoryManager::NeuralMemoryManager(config)].  When a pool
    cannot be built the exception leaves the constructor; the members
    are destroyed on the way out, so the pools built before give their
    slabs back ([~MemoryPool()]), while [~NeuralMemoryManager()] does
    not run. *)
Definition construct (config : MemoryPoolConfig) : M Mem t :=
  fun m =>
    let g0 := mk config [] [] ∅ false zero_metrics
                 (enable_corruption_detection config) in
    match construct_pools config common_sizes (g0, m) with
    | Returns _ (g, m') => Returns g m'
    | Throws (g, m') =>
        Throws (fold_left (fun acc pool => MemoryPool.destroy pool acc)
                          (memory_pools g) m')
    | Deadlocks => Deadlocks
    | Undefined => Undefined
    end.

(** [file ? file : "unknown"]: a null [file] is [None]. *)
Definition track_allocation (ptr size : Z) (file : option string) (line : Z)
    : M St unit :=
  tracking_locked (modify (on_mgr (fun g =>
    let block := MemoryBlock.mk ptr size (default "unknown"%string file)
                                line false in
    set_allocated_blocks (<[ptr := block]> (allocated_blocks g)) g))).

Definition track_deallocation (ptr : Z) : M St unit :=
  tracking_locked (modify (on_mgr (fun g =>
    set_allocated_blocks
      (alter MemoryBlock.mark_freed ptr (allocated_blocks g)) g))).

(** The compare-exchange loop raises the peak to the current usage. *)
Definition update_performance_metrics (bytes : Z) (is_allocation : bool)
    : M St unit :=
  modify (on_mgr (fun g =>
    let x := metrics g in
    if is_allocation then
      let current := wrap64 (current_memory_usage x + bytes) in
      set_metrics
        (mkMetrics (wrap64 (total_allocations x + 1))
                   (total_deallocations x)
                   (wrap64 (total_bytes_allocated x + bytes))
                   (total_bytes_deallocated x)
                   (if current >? peak_memory_usage x then current
                    else peak_memory_usage x)
                   current) g
    else
      set_metrics
        (mkMetrics (total_allocations x)
                   (wrap64 (total_deallocations x + 1))
                   (total_bytes_allocated x)
                   (wrap64 (total_bytes_deallocated x + bytes))
                   (peak_memory_usage x)
                   (wrap64 (current_memory_usage x - bytes))) g)).

Definition allocate (size : Z) (file : option string) (line : Z) : M St Z :=
  call pool <- get_or_create_pool size;
  call ptr <- at_pool pool MemoryPool.allocate;
  call s <- get;
  exec when (enable_leak_detection (default_config (fst s)))
            (track_allocation ptr size file line);
  exec when (enable_performance_monitoring (default_config (fst s)))
            (update_performance_metrics size true);
  ret ptr.

(** The loop over [memory_pools] that looks [ptr] up in the tracker on
    every turn and leaves at the first hit. *)
Fixpoint find_pool (g : t) (ptr : Z) (pools : list MemoryPool.t)
    : option nat :=
  match pools with
  | [] => None
  | _ :: rest =>
      match allocated_blocks g !! ptr with
      | Some it =>
          let original_size := MemoryBlock.size it in
          let pool_idx := get_pool_index original_size g in
          if (pool_idx <? length (memory_pools g))%nat
          then Some pool_idx else None
      | None => find_pool g ptr rest
      end
  end.

Definition deallocate (ptr : Z) : M St unit :=
  if ptr =? nullptr then ret tt
  else
    call s <- get;
    exec match find_pool (fst s) ptr (memory_pools (fst s)) with
         | Some found_pool => at_pool found_pool (MemoryPool.deallocate ptr)
         | None => ret tt
         end;
    exec when (enable_leak_detection (default_config (fst s)))
              (track_deallocation ptr);
    when (enable_performance_monitoring (default_config (fst s)))
         (call s' <- get;
          match allocated_blocks (fst s') !! ptr with
          | Some it => update_performance_metrics (MemoryBlock.size it) false
          | None => ret tt
          end).

(** [std::memcpy(dst, src, n)] in the memory of the process; where
    [memcpy] is [None] the call is not followed any further. *)
Definition copy_block (dst src n : Z) : M St unit :=
  fun s =>
    match memcpy dst src n (snd s) with
    | Some m' => Returns tt (fst s, m')
    | None => Undefined
    end.

Definition reallocate (ptr new_size : Z) (file : option string) (line : Z)
    : M St Z :=
  if ptr =? nullptr then allocate new_size file line
  else if new_size =? 0 then (exec deallocate ptr; ret nullptr)
  else
    call s <- get;
    match allocated_blocks (fst s) !! ptr with
    | None =>
        match realloc ptr new_size (snd s) with
        | None => fun _ => Undefined
        | Some (new_ptr, m') =>
            exec modify (fun s0 => (fst s0, m'));
            exec (if new_ptr =? nullptr then ret tt
                  else track_allocation new_ptr new_size file line);
            ret new_ptr
        end
    | Some it =>
        let old_size := MemoryBlock.size it in
        if new_size <=? old_size then ret ptr
        else
          call new_ptr <- allocate new_size file line;
          exec (if new_ptr =? nullptr then ret tt
                else
                  exec copy_block new_ptr ptr old_size;
                  deallocate ptr);
          ret new_ptr
    end.

Record MemoryStats : Type := mkStats {
  total_allocated : Z;
  total_deallocated : Z;
  current_usage : Z;
  peak_usage : Z;
  active_allocations : Z;
  total_pools : Z
}.

Definition get_memory_stats (g : t) : MemoryStats :=
  mkStats (total_bytes_allocated (metrics g))
          (total_bytes_deallocated (metrics g))
          (current_memory_usage (metrics g))
          (peak_memory_usage (metrics g))
          (Z.of_nat (size (allocated_blocks g)))
          (Z.of_nat (length (memory_pools g))).

Record LeakReport : Type := mkReport {
  leaked_blocks : Z;
  leaked_bytes : Z;
  leaks : list MemoryBlock.t
}.

(** The body of the loop of [detect_leaks]. *)
Definition scan_block (report : LeakReport) (block : MemoryBlock.t)
    : LeakReport :=
  if MemoryBlock.is_freed block then report
  else mkReport (wrap64 (leaked_blocks report + 1))
                (wrap64 (leaked_bytes report + MemoryBlock.size block))
                (leaks report ++ [block]).

Definition detect_leaks : M St LeakReport :=
  tracking_locked (fun s =>
    Returns
      (fold_left scan_block
         (snd <$> map_to_list (allocated_blocks (fst s)))
         (mkReport 0 0 []))
      s).

Definition clear_tracking : M St unit :=
  tracking_locked (modify (on_mgr (set_allocated_blocks ∅))).

Definition set_corruption_detection (enabled : bool) : M St unit :=
  modify (on_mgr (set_corruption_detector_enabled enabled)).

Definition validate_memory_integrity (ptr size : Z) (g : t) : bool :=
  if negb (corruption_detector_enabled g) then true
  else negb (ptr =? nullptr) && (size >? 0).

(** The loop of [validate_all_memory], which leaves with [false] at the
    first unfreed block that fails. *)
Fixpoint validate_blocks (g : t) (blocks : list MemoryBlock.t) : bool :=
  match blocks with
  | [] => true
  | block :: rest =>
      if negb (MemoryBlock.is_freed block) then
        if negb (validate_memory_integrity (MemoryBlock.ptr block)
                   (MemoryBlock.size block) g)
        then false
        else validate_blocks g rest
      else validate_blocks g rest
  end.

Definition validate_all_memory : M St bool :=
  fun s =>
    if negb (corruption_detector_enabled (fst s)) then Returns true s
    else
      tracking_locked (fun s1 =>
        Returns
          (validate_blocks (fst s1)
             (snd <$> map_to_list (allocated_blocks (fst s1))))
          s1) s.

Definition get_allocation_history : M St (list MemoryBlock.t) :=
  tracking_locked (fun s =>
    Returns (snd <$> map_to_list (allocated_blocks (fst s))) s).

(** [warmup_thread_cache(pool_size)].  [thread_cache] is the calling
    thread's cache: [None] while it does not exist, else its
    [cached_blocks]; the function returns the [cached_blocks] it leaves. *)
Fixpoint warmup_loop (turns : nat) (cached_blocks : list Z) : M St (list Z) :=
  match turns with
  | O => ret cached_blocks
  | S turns' =>
      call block <- allocate 64 None 0;
      warmup_loop turns' (cached_blocks ++ [block])
  end.

Definition warmup_thread_cache (pool_size : Z) (thread_cache : option (list Z))
    : M St (list Z) :=
  warmup_loop (Z.to_nat pool_size) (default [] thread_cache).

(** [~NeuralMemoryManager()]: the final leak detection, whose warning on
    [std::cerr] is returned as the pair of numbers it prints, and then
    the destructors of the pools. *)
Definition destroy : M St (option (Z * Z)) :=
  call leaks <- detect_leaks;
  exec modify (fun s =>
         (fst s,
          fold_left (fun m pool => MemoryPool.destroy pool m)
                    (memory_pools (fst s)) (snd s)));
  ret (if leaked_blocks leaks >? 0
       then Some (leaked_blocks leaks, leaked_bytes leaks)
       else None).

End NeuralMemoryManager.

(** ** The process-wide singleton

    [NeuralMemoryManager::instance] and [instance_mutex], with the memory
    of the process. *)

Module Process.

Record t : Type := mk {
  instance : option NeuralMemoryManager.t;
  instance_mutex : bool;
  memory : Mem
}.

Definition set_instance_mutex (b : bool) (w : t) : t :=
  mk (instance w) b (memory w).

(** [get_instance()]: builds the manager with the default configuration
    on first use.  The reference it returns is the [instance] field. *)
Definition get_instance : M t unit :=
  lock_guard instance_mutex set_instance_mutex (fun w =>
    match instance w with
    | Some _ => Returns tt w
    | None =>
        match NeuralMemoryManager.construct default_MemoryPoolConfig
                (memory w) with
        | Returns g m' => Returns tt (mk (Some g) (instance_mutex w) m')
        | Throws m' => Throws (mk None (instance_mutex w) m')
        | Deadlocks => Deadlocks
        | Undefined => Undefined
        end
    end).

(** [get_instance().op(...)] *)
Definition on_instance {A} (op : M NeuralMemoryManager.St A) : M t A :=
  exec get_instance;
  (fun w =>
     match instance w with
     | None => Undefined
     | Some g =>
         match op (g, memory w) with
         | Returns a (g', m') => Returns a (mk (Some g') (instance_mutex w) m')
         | Throws (g', m') => Throws (mk (Some g') (instance_mutex w) m')
         | Deadlocks => Deadlocks
         | Undefined => Undefined
         end
     end).

(** [initialize(config)] *)
Definition initialize (config : MemoryPoolConfig) : M t unit :=
  lock_guard instance_mutex set_instance_mutex (fun w =>
    match instance w with
    | Some _ => Returns tt w
    | None =>
        match NeuralMemoryManager.construct config (memory w) with
        | Returns g m' => Returns tt (mk (Some g) (instance_mutex w) m')
        | Throws m' => Throws (mk None (instance_mutex w) m')
        | Deadlocks => Deadlocks
        | Undefined => Undefined
        end
    end).

(** [shutdown()]: [instance.reset()] runs the destructor of the manager,
    if there is one; the result is the warning it wrote. *)
Definition shutdown : M t (option (Z * Z)) :=
  lock_guard instance_mutex set_instance_mutex (fun w =>
    match instance w with
    | None => Returns None w
    | Some g =>
        match NeuralMemoryManager.destroy (g, memory w) with
        | Returns warning (_, m') =>
            Returns warning (mk None (instance_mutex w) m')
        | Throws (_, m') => Throws (mk None (instance_mutex w) m')
        | Deadlocks => Deadlocks
        | Undefined => Undefined
        end
    end).

(** [thread_safe_allocate] and [thread_safe_deallocate] *)
Definition thread_safe_allocate (size : Z) (file : option string) (line : Z)
    : M t Z :=
  on_instance (NeuralMemoryManager.allocate size file line).
Definition thread_safe_deallocate (ptr : Z) : M t unit :=
  on_instance (NeuralMemoryManager.deallocate ptr).

End Process.

(** ** NeuralUniquePtr<T>: the handle is a value, its member functions
    return the handle they leave behind. *)

Module NeuralUniquePtr.

Record t : Type := mk {
  ptr : Z;
  managed : bool
}.

(** [NeuralUniquePtr(T* p = nullptr, bool auto_manage = true)] *)
Definition construct (p : Z) (auto_manage : bool) : t := mk p auto_manage.

(** [if (ptr && managed) get_instance().deallocate(ptr);] *)
Definition drop_owned (h : t) : M Process.t unit :=
  if negb (ptr h =? nullptr) && managed h
  then Process.on_instance (NeuralMemoryManager.deallocate (ptr h))
  else ret tt.

(** [~NeuralUniquePtr()] *)
Definition destroy (h : t) : M Process.t unit := drop_owned h.

(** The move constructor: the new handle, and what is left of [other]. *)
Definition move_construct (other : t) : t * t :=
  (mk (ptr other) (managed other), mk nullptr false).

(** Move assignment between two distinct handles: [this] afterwards,
    and what is left of [other]. *)
Definition move_assign (this other : t) : M Process.t (t * t) :=
  exec drop_owned this;
  ret (mk (ptr other) (managed other), mk nullptr false).

Definition get (h : t) : Z := ptr h.

Definition reset (p : Z) (h : t) : M Process.t t :=
  exec drop_owned h;
  ret (mk p (managed h)).

(** [release()]: the pointer it returns, and the handle afterwards. *)
Definition release (h : t) : Z * t := (ptr h, mk nullptr false).

(** What a caller can do to a handle it keeps, short of assigning
    another handle to it. *)
Inductive Use : Type :=
| UseReset (p : Z)
| UseRelease
| UseGet.

Fixpoint uses (us : list Use) (h : t) : M Process.t t :=
  match us with
  | [] => ret h
  | UseReset p :: rest => call h' <- reset p h; uses rest h'
  | UseRelease :: rest => uses rest (snd (release h))
  | UseGet :: rest => uses rest h
  end.

End NeuralUniquePtr.

(** * Properties *)

Import NeuralMemoryManager.

(** The manager a program gets from [NeuralMemoryManager manager;] in a
    fresh process, with the memory it leaves. *)
Definition fresh : Outcome Mem NeuralMemoryManager.t :=
  construct default_MemoryPoolConfig boot.

(** Run a program on that manager: what it returned and the state it
    left, when it returned. *)
Definition from_fresh {A} (prog : M St A) : option (A * St) :=
  match fresh with
  | Returns g m =>
      match prog (g, m) with
      | Returns a s => Some (a, s)
      | _ => None
      end
  | _ => None
  end.

(** The same, telling how the program ended when it did not return. *)
Definition hangs_from_fresh {A} (prog : M St A) : bool :=
  match fresh with
  | Returns g m =>
      match prog (g, m) with
      | Deadlocks => true
      | _ => false
      end
  | _ => false
  end.

Definition usage (s : St) : Z := current_usage (get_memory_stats (fst s)).

(** The state a fresh manager starts in. *)
Definition fresh_state : St :=
  match fresh with
  | Returns g m => (g, m)
  | _ => (mk default_MemoryPoolConfig [] [] ∅ false zero_metrics true, boot)
  end.

(** The tracked records that are not freed, in the order the tracker is
    iterated, and the plain sum of their sizes. *)
Definition unfreed (g : NeuralMemoryManager.t) : list MemoryBlock.t :=
  filter (fun b => MemoryBlock.is_freed b = false)
         (snd <$> map_to_list (allocated_blocks g)).

Definition total_size (l : list MemoryBlock.t) : Z :=
  foldr (fun b acc => MemoryBlock.size b + acc) 0 l.

(** The tracker and the counters: everything of the manager but its
    pools and its size-class table. *)
Definition ledger (s : St) :=
  (default_config (fst s), allocated_blocks (fst s), tracking_mutex (fst s),
   metrics (fst s), corruption_detector_enabled (fst s)).

Definition payload (s : St) : gmap Z Z := bytes (snd s).

(** A history of the tracker: the calls of [track_allocation] and
    [track_deallocation], oldest first. *)
Inductive Tracked : Type :=
| TrackedAlloc (ptr size : Z) (file : option string) (line : Z)
| TrackedFree (ptr : Z).

Fixpoint replay (h : list Tracked) : M St unit :=
  match h with
  | [] => ret tt
  | TrackedAlloc ptr size file line :: rest =>
      exec track_allocation ptr size file line; replay rest
  | TrackedFree ptr :: rest =>
      exec track_deallocation ptr; replay rest
  end.

(** Whether [p] is allocated and not deallocated since, after the history
    [h], when [now] says so before it. *)
Fixpoint outstanding (h : list Tracked) (p : Z) (now : bool) : bool :=
  match h with
  | [] => now
  | TrackedAlloc q _ _ _ :: rest =>
      outstanding rest p (if q =? p then true else now)
  | TrackedFree q :: rest =>
      outstanding rest p (if q =? p then false else now)
  end.

(** Whether the tracker holds an unfreed record under the key [p]. *)
Definition unfreed_at (g : NeuralMemoryManager.t) (p : Z) : bool :=
  match allocated_blocks g !! p with
  | Some b => negb (MemoryBlock.is_freed b)
  | None => false
  end.

(** The record [track_allocation] writes. *)
Definition new_record (ptr size : Z) (file : option string) (line : Z)
    : MemoryBlock.t :=
  MemoryBlock.mk ptr size (default "unknown"%string file) line false.

(** Pointers are addresses: the break of the arena and the head of every
    free list are not negative. *)
Definition addresses_unsigned (s : St) : Prop :=
  0 <= sys_brk (snd s) /\
  Forall (fun pool => 0 <= MemoryPool.free_list pool) (memory_pools (fst s)).

(** The state a call left, for writing down concrete runs. *)
Definition state_of {A} (o : Outcome St A) : St :=
  match o with
  | Returns _ s => s
  | _ => fresh_state
  end.

(** The block size of the size class that serves a request of [n]
    bytes. *)
Definition served_block_size (n : Z) (s : St) : option Z :=
  match get_or_create_pool n s with
  | Returns idx s1 =>
      (fun pool => block_size (MemoryPool.config pool))
        <$> memory_pools (fst s1) !! idx
  | _ => None
  end.

(** "A successful [allocate(n)] returns a non-null pointer and raises the
    usage by the block size of the class that served it." *)
Definition usage_grows_by_block_size : Prop :=
  forall s n file line p s',
    allocate n file line s = Returns p s' ->
    p <> nullptr /\
    exists b, served_block_size n s = Some b /\ usage s' = wrap64 (usage s + b).

(** A manager built with leak detection switched off, in a process that
    also holds a 32-byte object of the system allocator the manager knows
    nothing about (at the address 20544). *)
Definition untracking_config : MemoryPoolConfig :=
  mkConfig 4096 1024 65536 false true true.

Definition foreign_state : St :=
  match construct untracking_config boot with
  | Returns g m => (g, snd (malloc 32 m))
  | _ => fresh_state
  end.

(** The fresh manager after [allocate(64)]: the pointer 4104 is tracked
    with the size 64. *)
Definition holding_64 : St := state_of (allocate 64 None 0 fresh_state).

(** A manager with no pool and no size class yet (the state the
    constructor starts from), in a fresh process. *)
Definition empty_state : St :=
  (mk default_MemoryPoolConfig [] [] ∅ false zero_metrics true, boot).

(** The configuration [get_or_create_pool] builds a new pool with. *)
Definition class_config (size : Z) (flags : MemoryPoolConfig)
    : MemoryPoolConfig :=
  mkConfig size 1024 65536 (enable_leak_detection flags)
           (enable_corruption_detection flags)
           (enable_performance_monitoring flags).

(** "When every size class is farther than [tolerance] from the request,
    a new class of exactly the requested size is created." *)
Definition creates_class_beyond (tolerance : Z) : Prop :=
  forall s size idx s1,
    0 <= size < 2 ^ 64 ->
    (forall k v, (k, v) ∈ pool_index_map (fst s) ->
                 tolerance < abs_diff size k) ->
    get_or_create_pool size s = Returns idx s1 ->
    length (memory_pools (fst s1)) = S (length (memory_pools (fst s))) /\
    umap_find size (pool_index_map (fst s1)) = Some idx.

(** The size-class table the constructor leaves. *)
Definition constructed_table : list (Z * nat) :=
  [(64, 0%nat); (128, 1%nat); (256, 2%nat); (512, 3%nat); (1024, 4%nat);
   (2048, 5%nat); (4096, 6%nat); (8192, 7%nat)].

(** [keeps f c]: whenever [c] returns or throws, the part [f] of the
    state is what it was. *)
Definition keeps {S B A} (f : S -> B) (c : M S A) : Prop :=
  forall s,
    match c s with
    | Returns _ s' | Throws s' => f s' = f s
    | _ => True
    end.

(** [preserves P c]: when [c] starts where [P] holds and returns or
    throws, [P] holds where it ends. *)
Definition preserves {S A} (P : S -> Prop) (c : M S A) : Prop :=
  forall s, P s ->
    match c s with
    | Returns _ s' | Throws s' => P s'
    | _ => True
    end.

(** The usage counter is the allocated minus the deallocated bytes, as a
    [uint64_t]. *)
Definition balanced (s : St) : Prop :=
  current_memory_usage (metrics (fst s)) =
  wrap64 (total_bytes_allocated (metrics (fst s))
          - total_bytes_deallocated (metrics (fst s))).

(** The size classes of a state: the table and the configuration of every
    pool, in the order of the vector. *)
Definition classes (s : St) : list (Z * nat) * list MemoryPoolConfig :=
  (pool_index_map (fst s), MemoryPool.config <$> memory_pools (fst s)).

(** Every index of the table is an index of the pool vector. *)
Definition table_in_range (g : NeuralMemoryManager.t) : Prop :=
  memory_pools g <> [] /\
  forall k v, (k, v) ∈ pool_index_map g -> (v < length (memory_pools g))%nat.

(** The pool the constructor of [MemoryPool] leaves when [malloc] gave it
    the slab at [a]. *)
Definition built_pool (cfg : MemoryPoolConfig) (a : Z) : MemoryPool.t :=
  MemoryPool.mk false a [a] cfg 0 0.




(** [k] calls of [allocate(size)] in a row, and the pointers they
    returned. *)
Fixpoint allocations (k : nat) (size : Z) : M St (list Z) :=
  match k with
  | O => ret []
  | S k' =>
      call p <- allocate size None 0;
      call ps <- allocations k' size;
      ret (p :: ps)
  end.

(** The pool after [MemoryPool::allocate] popped its head, whose [next]
    was [next], and after [MemoryPool::deallocate(ptr)] pushed a block. *)
Definition popped (pool : MemoryPool.t) (next : Z) : MemoryPool.t :=
  MemoryPool.mk false next (MemoryPool.allocated_blocks pool)
    (MemoryPool.config pool)
    (wrap64 (MemoryPool.allocated_count pool + 1))
    (wrap64 (MemoryPool.total_allocated pool
             + block_size (MemoryPool.config pool))).

Definition pushed (pool : MemoryPool.t) (ptr : Z) : MemoryPool.t :=
  MemoryPool.mk false (ptr - MemoryPool.offsetof_data)
    (MemoryPool.allocated_blocks pool) (MemoryPool.config pool)
    (wrap64 (MemoryPool.allocated_count pool - 1))
    (MemoryPool.total_allocated pool).

(** The pool that serves requests of [n] bytes is there, unlocked, and
    the head of its free list is the block [head] whose [next] is
    [next]; the tracker is unlocked too. *)
Definition serves (s : St) (n : Z) (head next : Z) : Prop :=
  exists pool,
    memory_pools (fst s) !! get_pool_index n (fst s) = Some pool /\
    MemoryPool.pool_mutex pool = false /\
    MemoryPool.free_list pool = head /\
    head <> nullptr /\
    load_next head (snd s) = Some next /\
    tracking_mutex (fst s) = false.

(** A process in which nothing has used the singleton yet. *)
Definition unstarted : Process.t := Process.mk None false boot.

(** The process whose singleton is the manager of [s]. *)
Definition process_of (s : St) : Process.t :=
  Process.mk (Some (fst s)) false (snd s).

(** What the destructors of the pools in [pools] leave of the memory. *)
Definition destroy_pools (pools : list MemoryPool.t) (m : Mem) : Mem :=
  fold_left (fun m pool => MemoryPool.destroy pool m) pools m.

(** [a] is a slab one of the pools in [pools] took from the system. *)
Definition slab_of (pools : list MemoryPool.t) (a : Z) : Prop :=
  Exists (fun pool => a ∈ MemoryPool.allocated_blocks pool) pools.

(** ** Locks *)

Lemma lock_guard_held {S A} (held : S -> bool) set_held (body : M S A) s :
  held s = true -> lock_guard held set_held body s = Deadlocks.
Proof. intros H. unfold lock_guard. now rewrite H. Qed.

Lemma expand_pool_under_lock p m :
  MemoryPool.pool_mutex p = true -> MemoryPool.expand_pool (p, m) = Deadlocks.
Proof. intros H. unfold MemoryPool.expand_pool, MemoryPool.locked.
  now apply lock_guard_held. Qed.

Lemma allocate_on_empty_free_list p m :
  MemoryPool.free_list p = nullptr ->
  MemoryPool.allocate (p, m) = Deadlocks.
Proof.
  intros Hempty.
  unfold MemoryPool.allocate, MemoryPool.locked, lock_guard. cbn [fst snd].
  destruct (MemoryPool.pool_mutex p) eqn:Hm; [reflexivity|].
  unfold bind, MemoryPool.set_pool_mutex.
  cbn [fst snd MemoryPool.free_list].
  rewrite Hempty. change (nullptr =? nullptr) with true. cbv iota.
  rewrite expand_pool_under_lock; reflexivity.
Qed.

(** C8.  [MemoryPool::allocate] on a pool whose free list is empty never
    comes back: it holds [pool_mutex] when it calls [expand_pool], and
    [expand_pool] locks [pool_mutex] again.  No expansion happens and no
    block is popped. *)
Theorem pool_allocate_empty_free_list_deadlocks (p : MemoryPool.t) (m : Mem) :
  MemoryPool.free_list p = nullptr ->
  MemoryPool.allocate (p, m) = Deadlocks.
Proof. apply allocate_on_empty_free_list. Qed.

Lemma pool_allocate_empty_free_list_deadlocks_witness :
  MemoryPool.allocate
    (MemoryPool.mk false nullptr [4096] default_MemoryPoolConfig 1 4096, boot)
  = Deadlocks.
Proof. apply pool_allocate_empty_free_list_deadlocks. reflexivity. Defined.

(** The same through the manager: the second of two allocations of one
    size class, with no deallocation in between, hangs. *)
Example second_allocate_of_a_class_deadlocks :
  hangs_from_fresh (exec allocate 1024 None 0; allocate 1024 None 0) = true.
Proof. vm_compute. reflexivity. Qed.

(** C1.  A pointer from [allocate] freed once gives the usage back; freed
    a second time it is not ignored.  The record is still in the tracker
    (only its [is_freed] flag was set), so the second [deallocate] finds
    the pool again, pushes the block onto a free list that already holds
    it (the block's [next] now points at the block itself), lets the
    pool's [allocated_count] wrap and subtracts the size from the usage
    once more. *)
Theorem second_deallocate_is_not_a_no_op :
  let header := fun p : Z => p - MemoryPool.offsetof_data in
  let pool0 := fun s : St => memory_pools (fst s) !! 0%nat in
  let once :=
    from_fresh (call p <- allocate 64 None 0; exec deallocate p; ret p) in
  let twice :=
    from_fresh (call p <- allocate 64 None 0;
                exec deallocate p; exec deallocate p; ret p) in
  (usage <$> (snd <$> from_fresh (ret tt)) = Some 0) /\
  (usage <$> (snd <$> from_fresh (allocate 64 None 0)) = Some 64) /\
  (usage <$> (snd <$> once) = Some 0) /\
  (usage <$> (snd <$> twice) = Some (2 ^ 64 - 64)) /\
  ((fun r => load_next (header (fst r)) (snd (snd r))) <$> once
     = Some (Some nullptr)) /\
  ((fun r => (header (fst r), load_next (header (fst r)) (snd (snd r))))
     <$> twice = Some (4096, Some 4096)) /\
  ((fun r => MemoryPool.allocated_count <$> pool0 (snd r)) <$> once
     = Some (Some 0)) /\
  ((fun r => MemoryPool.allocated_count <$> pool0 (snd r)) <$> twice
     = Some (Some (2 ^ 64 - 1))).
Proof. repeat split; vm_compute; reflexivity. Qed.

(** C2.  After [allocate(64)] and two [deallocate] calls on the pointer
    it returned, the metrics record more bytes deallocated than
    allocated, and the unsigned usage counter has wrapped below zero. *)
Theorem deallocated_bytes_exceed_allocated_bytes :
  let stats :=
    (fun r : unit * St => get_memory_stats (fst (snd r))) <$>
    from_fresh (call p <- allocate 64 None 0;
                exec deallocate p;
                deallocate p) in
  total_allocated <$> stats = Some 64 /\
  total_deallocated <$> stats = Some 128 /\
  current_usage <$> stats = Some (wrap64 (64 - 128)) /\
  current_usage <$> stats = Some (2 ^ 64 - 64).
Proof. repeat split; vm_compute; reflexivity. Qed.

(** ** Deallocating what the tracker does not know *)

Lemma find_pool_untracked g ptr pools :
  allocated_blocks g !! ptr = None -> find_pool g ptr pools = None.
Proof.
  intros Hnone. induction pools as [|p pools IH]; cbn; [reflexivity|].
  now rewrite Hnone.
Qed.

Lemma alter_absent {A} (f : A -> A) (k : Z) (m : gmap Z A) :
  m !! k = None -> alter f k m = m.
Proof.
  intros Hnone. apply map_eq. intros j. rewrite lookup_alter.
  case_decide; [subst; now rewrite Hnone|reflexivity].
Qed.

Lemma track_deallocation_untracked ptr (s : St) :
  allocated_blocks (fst s) !! ptr = None ->
  tracking_mutex (fst s) = false ->
  track_deallocation ptr s = Returns tt s.
Proof.
  destruct s as [[cfg pools idx blocks mtx mt cd] m].
  cbn [fst snd allocated_blocks tracking_mutex].
  intros Hnone ->.
  unfold track_deallocation, tracking_locked, lock_guard, modify, on_mgr,
    set_allocated_blocks, set_tracking_mutex.
  cbn [fst snd allocated_blocks tracking_mutex default_config memory_pools
       pool_index_map metrics corruption_detector_enabled].
  now rewrite alter_absent.
Qed.

(** C4.  [deallocate] of the null pointer, or of a pointer the tracker has
    no record of, returns with the whole state as it was: pools, free
    lists and block headers, tracker and metrics.  For such a pointer the
    search for the owning pool comes back empty, so
    [MemoryPool::deallocate] (the only place that computes a header
    address from the pointer) is not called. *)
Theorem deallocate_untracked_is_no_op (ptr : Z) (s : St) :
  ptr = nullptr \/ allocated_blocks (fst s) !! ptr = None ->
  tracking_mutex (fst s) = false ->
  deallocate ptr s = Returns tt s /\
  (ptr <> nullptr -> find_pool (fst s) ptr (memory_pools (fst s)) = None).
Proof.
  intros Hptr Hfree. split.
  - unfold deallocate. destruct (Z.eqb_spec ptr nullptr) as [->|Hnz];
      [reflexivity|].
    destruct Hptr as [?|Hnone]; [contradiction|].
    unfold bind, get. rewrite (find_pool_untracked _ _ _ Hnone).
    unfold ret at 1.
    unfold when.
    destruct (enable_leak_detection (default_config (fst s)));
      [rewrite (track_deallocation_untracked _ _ Hnone Hfree)|unfold ret at 1];
      (destruct (enable_performance_monitoring (default_config (fst s)));
       [now rewrite Hnone|reflexivity]).
  - intros Hnz. destruct Hptr as [?|Hnone]; [contradiction|].
    now apply find_pool_untracked.
Qed.

Lemma deallocate_untracked_is_no_op_witness :
  deallocate 12345 fresh_state = Returns tt fresh_state /\
  (12345 <> nullptr ->
   find_pool (fst fresh_state) 12345 (memory_pools (fst fresh_state)) = None).
Proof.
  apply (deallocate_untracked_is_no_op 12345 fresh_state).
  - right. vm_compute. reflexivity.
  - vm_compute. reflexivity.
Defined.

(** ** Leak detection *)

Lemma wrap64_idem z : wrap64 (wrap64 z) = wrap64 z.
Proof. unfold wrap64. apply Z.mod_mod. lia. Qed.

Lemma wrap64_add_l a b : wrap64 (wrap64 a + b) = wrap64 (a + b).
Proof. unfold wrap64. apply Zplus_mod_idemp_l. Qed.

Lemma wrap64_small z : 0 <= z < 2 ^ 64 -> wrap64 z = z.
Proof. intros H. unfold wrap64. now apply Z.mod_small. Qed.

Lemma scan_blocks l r :
  fold_left scan_block l r =
  match filter (fun b => MemoryBlock.is_freed b = false) l with
  | [] => r
  | found => mkReport (wrap64 (leaked_blocks r + Z.of_nat (length found)))
                      (wrap64 (leaked_bytes r + total_size found))
                      (leaks r ++ found)
  end.
Proof.
  revert r. induction l as [|b l IH]; intros r; [reflexivity|].
  cbn [fold_left]. rewrite IH. rewrite filter_cons.
  unfold scan_block.
  destruct (MemoryBlock.is_freed b) eqn:Hb.
  - rewrite decide_False by discriminate. reflexivity.
  - rewrite decide_True by reflexivity.
    cbn [leaked_blocks leaked_bytes leaks].
    destruct (filter _ l) as [|c found] eqn:Hf.
    + cbn [length total_size foldr]. do 2 f_equal; f_equal; lia.
    + rewrite !wrap64_add_l. rewrite <- app_assoc.
      cbn [length total_size foldr app].
      f_equal; f_equal; lia.
Qed.

(** ** Running the monad *)

Lemma bind_returns {S A B} (c : M S A) (k : A -> M S B) s b s' :
  bind c k s = Returns b s' ->
  exists a s1, c s = Returns a s1 /\ k a s1 = Returns b s'.
Proof.
  unfold bind. destruct (c s) as [a s1| | |]; try discriminate.
  intros H. now exists a, s1.
Qed.

Lemma when_returns {S} (b : bool) (c : M S unit) s s' :
  when b c s = Returns tt s' ->
  (b = true /\ c s = Returns tt s') \/ (b = false /\ s' = s).
Proof.
  destruct b; cbn; [now left|].
  unfold ret. intros [= <-]. now right.
Qed.

Lemma lock_guard_returns {S A} held set_held (body : M S A) s a s' :
  lock_guard held set_held body s = Returns a s' ->
  held s = false /\
  exists s1, body (set_held true s) = Returns a s1 /\ s' = set_held false s1.
Proof.
  unfold lock_guard. destruct (held s); [discriminate|].
  destruct (body (set_held true s)) as [a1 s1| | |]; try discriminate.
  intros [= <- <-]. split; [reflexivity|]. now exists s1.
Qed.

(** ** Frames: what a call leaves alone *)

Section Frames.

Context {S B : Type} (f : S -> B).

Lemma keeps_ret {A} (a : A) : keeps f (ret (S:=S) a).
Proof. intros s. reflexivity. Qed.

Lemma keeps_get : keeps f (get (S:=S)).
Proof. intros s. reflexivity. Qed.

Lemma keeps_bind {A C} (c : M S A) (k : A -> M S C) :
  keeps f c -> (forall a, keeps f (k a)) -> keeps f (bind c k).
Proof.
  intros Hc Hk s. unfold bind. specialize (Hc s).
  destruct (c s) as [a s1|s1| |]; auto.
  specialize (Hk a s1). destruct (k a s1); auto; congruence.
Qed.

Lemma keeps_when (b : bool) (c : M S unit) :
  keeps f c -> keeps f (when b c).
Proof. destruct b; [auto|intros _; apply keeps_ret]. Qed.

Lemma keeps_modify (h : S -> S) :
  (forall s, f (h s) = f s) -> keeps f (modify h).
Proof. intros H s. apply H. Qed.

Lemma keeps_lock_guard {A} held set_held (body : M S A) :
  (forall b s, f (set_held b s) = f s) ->
  keeps f body -> keeps f (lock_guard held set_held body).
Proof.
  intros Hset Hbody s. unfold lock_guard. destruct (held s); [exact I|].
  specialize (Hbody (set_held true s)).
  destruct (body (set_held true s)); auto; rewrite !Hset in *; congruence.
Qed.

Lemma keeps_returns {A} (c : M S A) s a s' :
  keeps f c -> c s = Returns a s' -> f s' = f s.
Proof. intros H E. specialize (H s). now rewrite E in H. Qed.

End Frames.

Lemma keeps_copy_block {B} (f : St -> B) dst src n :
  (forall s m', f (fst s, m') = f s) -> keeps f (copy_block dst src n).
Proof.
  intros H s. unfold copy_block.
  destruct (memcpy dst src n (snd s)); [apply H|exact I].
Qed.

Lemma copy_block_returns dst src n s s' :
  copy_block dst src n s = Returns tt s' ->
  memcpy dst src n (snd s) = Some (snd s') /\ fst s' = fst s.
Proof.
  unfold copy_block. destruct (memcpy dst src n (snd s)); [|discriminate].
  intros [= <-]. split; reflexivity.
Qed.

Lemma memcpy_Some dst src n m m' :
  memcpy dst src n m = Some m' ->
  m' = copy_bytes dst src n m /\
  (dst + n <= src \/ src + n <= dst) /\
  in_object dst n m = true /\ in_object src n m = true.
Proof.
  unfold memcpy.
  destruct (Z.leb_spec (dst + n) src), (Z.leb_spec (src + n) dst);
    cbn [orb andb];
    destruct (in_object dst n m), (in_object src n m); cbn [andb];
    try discriminate;
    (destruct (off_headers dst n m && off_headers src n m);
     [|discriminate]);
    intros [= <-]; repeat split; auto.
Qed.

Lemma memcpy_undefined dst src n m :
  ((dst + n <=? src) || (src + n <=? dst))
    && in_object dst n m && in_object src n m = false ->
  memcpy dst src n m = None.
Proof. unfold memcpy. now intros ->. Qed.

Create HintDb frames.
#[local] Hint Resolve keeps_ret keeps_get keeps_when : frames.

(** ** The pool *)

Lemma pool_allocate_returns p m a s' :
  MemoryPool.allocate (p, m) = Returns a s' ->
  MemoryPool.pool_mutex p = false /\
  MemoryPool.free_list p <> nullptr /\
  a = MemoryPool.free_list p + MemoryPool.offsetof_data /\
  exists next,
    load_next (MemoryPool.free_list p) m = Some next /\
    s' = (MemoryPool.mk false next (MemoryPool.allocated_blocks p)
            (MemoryPool.config p)
            (wrap64 (MemoryPool.allocated_count p + 1))
            (wrap64 (MemoryPool.total_allocated p
                     + block_size (MemoryPool.config p))),
          m).
Proof.
  intros H.
  destruct (Z.eq_dec (MemoryPool.free_list p) nullptr) as [He|Hne].
  { rewrite allocate_on_empty_free_list in H by exact He.
    discriminate. }
  unfold MemoryPool.allocate, MemoryPool.locked in H.
  apply lock_guard_returns in H as (Hm & s1 & H & ->).
  cbn [fst] in Hm. split; [exact Hm|]. split; [exact Hne|].
  apply bind_returns in H as ([] & s2 & H1 & H2).
  unfold MemoryPool.set_pool_mutex in H1. cbn [fst snd MemoryPool.free_list] in H1.
  destruct (Z.eqb_spec (MemoryPool.free_list p) nullptr); [contradiction|].
  injection H1 as <-.
  cbn [fst snd MemoryPool.free_list MemoryPool.allocated_blocks
       MemoryPool.config MemoryPool.allocated_count MemoryPool.total_allocated
       MemoryPool.pool_mutex] in H2.
  destruct (load_next (MemoryPool.free_list p) m) as [next|] eqn:Hn;
    [|discriminate].
  injection H2 as <- <-. split; [reflexivity|].
  exists next. split; reflexivity.
Qed.

Lemma pool_deallocate_returns ptr p m :
  ptr <> nullptr ->
  MemoryPool.pool_mutex p = false ->
  MemoryPool.deallocate ptr (p, m) =
  Returns tt
    (MemoryPool.mk false (ptr - MemoryPool.offsetof_data)
       (MemoryPool.allocated_blocks p) (MemoryPool.config p)
       (wrap64 (MemoryPool.allocated_count p - 1))
       (MemoryPool.total_allocated p),
     store_next (ptr - MemoryPool.offsetof_data) (MemoryPool.free_list p) m).
Proof.
  intros Hnz Hm. unfold MemoryPool.deallocate.
  destruct (Z.eqb_spec ptr nullptr); [contradiction|].
  unfold MemoryPool.locked, lock_guard. cbn [fst snd]. rewrite Hm.
  reflexivity.
Qed.

(** ** The manager: how each step changes the state *)

Lemma at_pool_returns {A} idx (op : M MemoryPool.St A) s a s' :
  at_pool idx op s = Returns a s' ->
  exists pool p' m',
    memory_pools (fst s) !! idx = Some pool /\
    op (pool, snd s) = Returns a (p', m') /\
    s' = (set_memory_pools (<[idx := p']> (memory_pools (fst s))) (fst s), m').
Proof.
  unfold at_pool.
  destruct (memory_pools (fst s) !! idx) as [pool|]; [|discriminate].
  destruct (op (pool, snd s)) as [a1 [p' m']|[p' m']| |] eqn:E;
    try discriminate.
  intros [= <- <-]. now exists pool, p', m'.
Qed.

Lemma keeps_ledger_at_pool {A} idx (op : M MemoryPool.St A) :
  keeps ledger (at_pool idx op).
Proof.
  intros s. unfold at_pool.
  destruct (memory_pools (fst s) !! idx) as [pool|]; [|exact I].
  destruct (op (pool, snd s)) as [a1 [p' m']|[p' m']| |]; try exact I;
    reflexivity.
Qed.

Lemma keeps_payload_at_pool {A} idx (op : M MemoryPool.St A) :
  keeps (fun ps : MemoryPool.St => bytes (snd ps)) op ->
  keeps payload (at_pool idx op).
Proof.
  intros Hop s. unfold at_pool.
  destruct (memory_pools (fst s) !! idx) as [pool|]; [|exact I].
  specialize (Hop (pool, snd s)).
  destruct (op (pool, snd s)) as [a1 [p' m']|[p' m']| |]; try exact I;
    exact Hop.
Qed.

Lemma malloc_bytes n m : bytes (snd (malloc n m)) = bytes m.
Proof. unfold malloc. destruct (_ <=? _); reflexivity. Qed.

Lemma keeps_bytes_expand_pool :
  keeps (fun ps : MemoryPool.St => bytes (snd ps)) MemoryPool.expand_pool.
Proof.
  unfold MemoryPool.expand_pool, MemoryPool.locked.
  apply keeps_lock_guard; [intros b s; reflexivity|].
  intros [p m]. cbn [fst snd].
  pose proof (malloc_bytes
    (wrap64 (block_size (MemoryPool.config p) + MemoryPool.sizeof_PoolBlock)) m)
    as Hb.
  destruct (malloc _ m) as [a m1]. cbn [snd] in Hb.
  destruct (a =? nullptr); cbn [snd]; [exact Hb|].
  unfold store_next, set_links. cbn [bytes]. exact Hb.
Qed.

Lemma keeps_bytes_pool_allocate :
  keeps (fun ps : MemoryPool.St => bytes (snd ps)) MemoryPool.allocate.
Proof.
  unfold MemoryPool.allocate, MemoryPool.locked.
  apply keeps_lock_guard; [intros b s; reflexivity|].
  apply keeps_bind.
  - intros s. destruct (_ =? _); [apply keeps_bytes_expand_pool|reflexivity].
  - intros _ s. destruct (load_next _ _); [reflexivity|exact I].
Qed.

Lemma keeps_bytes_pool_deallocate ptr :
  keeps (fun ps : MemoryPool.St => bytes (snd ps)) (MemoryPool.deallocate ptr).
Proof.
  unfold MemoryPool.deallocate. destruct (ptr =? nullptr);
    [apply keeps_ret|].
  unfold MemoryPool.locked. apply keeps_lock_guard; [intros b s; reflexivity|].
  intros s. reflexivity.
Qed.

Lemma keeps_bytes_pool_construct cfg :
  keeps bytes (MemoryPool.construct cfg).
Proof.
  intros m. unfold MemoryPool.construct.
  pose proof (keeps_bytes_expand_pool
                (MemoryPool.mk false nullptr [] cfg 0 0, m)) as H.
  destruct (MemoryPool.expand_pool _) as [[] [p m']|[p m']| |]; auto.
Qed.

Lemma create_pool_frames size flags :
  keeps ledger (create_pool size flags) /\
  keeps payload (create_pool size flags).
Proof.
  split; intros s; unfold create_pool;
    pose proof (keeps_bytes_pool_construct
      (mkConfig size 1024 65536 (enable_leak_detection flags)
         (enable_corruption_detection flags)
         (enable_performance_monitoring flags)) (snd s)) as H;
    destruct (MemoryPool.construct _ _); auto.
Qed.

Lemma get_or_create_pool_frames size :
  keeps ledger (get_or_create_pool size) /\
  keeps payload (get_or_create_pool size).
Proof.
  split; intros s; unfold get_or_create_pool;
    (destruct (_ <? _)%nat; [reflexivity|]);
    apply create_pool_frames.
Qed.

Lemma track_allocation_returns ptr size file line s s' :
  track_allocation ptr size file line s = Returns tt s' ->
  tracking_mutex (fst s) = false /\
  s' = (set_allocated_blocks
          (<[ptr := new_record ptr size file line]> (allocated_blocks (fst s)))
          (fst s), snd s).
Proof.
  unfold track_allocation, tracking_locked. intros H.
  apply lock_guard_returns in H as (Hm & s1 & H & ->).
  split; [exact Hm|].
  unfold modify in H. injection H as <-.
  destruct s as [[cfg pools idx blocks mtx mt cd] m].
  cbn [fst tracking_mutex] in Hm. subst mtx. reflexivity.
Qed.

Lemma track_allocation_runs ptr size file line s :
  tracking_mutex (fst s) = false ->
  track_allocation ptr size file line s =
  Returns tt
    (set_allocated_blocks
       (<[ptr := new_record ptr size file line]> (allocated_blocks (fst s)))
       (fst s), snd s).
Proof.
  destruct s as [[cfg pools idx blocks mtx mt cd] m].
  cbn [fst tracking_mutex]. intros ->. reflexivity.
Qed.

Lemma track_deallocation_runs ptr s :
  tracking_mutex (fst s) = false ->
  track_deallocation ptr s =
  Returns tt
    (set_allocated_blocks
       (alter MemoryBlock.mark_freed ptr (allocated_blocks (fst s)))
       (fst s), snd s).
Proof.
  destruct s as [[cfg pools idx blocks mtx mt cd] m].
  cbn [fst tracking_mutex]. intros ->. reflexivity.
Qed.

Lemma track_deallocation_returns ptr s s' :
  track_deallocation ptr s = Returns tt s' ->
  tracking_mutex (fst s) = false /\
  s' = (set_allocated_blocks
          (alter MemoryBlock.mark_freed ptr (allocated_blocks (fst s)))
          (fst s), snd s).
Proof.
  intros H.
  assert (Hm : tracking_mutex (fst s) = false).
  { unfold track_deallocation, tracking_locked in H.
    now apply lock_guard_returns in H as (Hm & _). }
  split; [exact Hm|]. rewrite track_deallocation_runs in H by exact Hm.
  now injection H as <-.
Qed.

Lemma unfreed_at_insert g ptr size file line q :
  unfreed_at
    (set_allocated_blocks
       (<[ptr := new_record ptr size file line]> (allocated_blocks g)) g) q
  = if ptr =? q then true else unfreed_at g q.
Proof.
  unfold unfreed_at. cbn [allocated_blocks set_allocated_blocks].
  destruct (Z.eqb_spec ptr q) as [->|Hne].
  - now rewrite lookup_insert_eq.
  - now rewrite lookup_insert_ne.
Qed.

Lemma unfreed_at_alter g ptr q :
  unfreed_at
    (set_allocated_blocks
       (alter MemoryBlock.mark_freed ptr (allocated_blocks g)) g) q
  = if ptr =? q then false else unfreed_at g q.
Proof.
  unfold unfreed_at. cbn [allocated_blocks set_allocated_blocks].
  rewrite lookup_alter.
  destruct (Z.eqb_spec ptr q) as [->|Hne].
  - rewrite decide_True by reflexivity.
    now destruct (allocated_blocks g !! q).
  - now rewrite decide_False.
Qed.

Lemma replay_returns h : forall s,
  tracking_mutex (fst s) = false ->
  exists s',
    replay h s = Returns tt s' /\
    tracking_mutex (fst s') = false /\
    forall p, unfreed_at (fst s') p = outstanding h p (unfreed_at (fst s) p).
Proof.
  induction h as [|[ptr size file line|ptr] h IH]; intros s Hm.
  - exists s. repeat split; auto.
  - cbn [replay outstanding]. unfold bind.
    rewrite track_allocation_runs by exact Hm.
    destruct (IH (set_allocated_blocks
                    (<[ptr := new_record ptr size file line]>
                       (allocated_blocks (fst s))) (fst s), snd s))
      as (s' & Hs' & Hm' & Hout).
    { destruct s as [[] ?]. exact Hm. }
    exists s'. split; [exact Hs'|]. split; [exact Hm'|].
    intros p. rewrite Hout. cbn [fst]. now rewrite unfreed_at_insert.
  - cbn [replay outstanding]. unfold bind.
    rewrite track_deallocation_runs by exact Hm.
    destruct (IH (set_allocated_blocks
                    (alter MemoryBlock.mark_freed ptr
                       (allocated_blocks (fst s))) (fst s), snd s))
      as (s' & Hs' & Hm' & Hout).
    { destruct s as [[] ?]. exact Hm. }
    exists s'. split; [exact Hs'|]. split; [exact Hm'|].
    intros p. rewrite Hout. cbn [fst]. now rewrite unfreed_at_alter.
Qed.

Lemma detect_leaks_runs s :
  tracking_mutex (fst s) = false ->
  detect_leaks s =
  Returns (fold_left scan_block
             (snd <$> map_to_list (allocated_blocks (fst s)))
             (mkReport 0 0 [])) s.
Proof.
  destruct s as [[cfg pools idx blocks mtx mt cd] m].
  cbn [fst tracking_mutex]. intros ->. reflexivity.
Qed.

Lemma scan_from_nothing l :
  let found := filter (fun b => MemoryBlock.is_freed b = false) l in
  fold_left scan_block l (mkReport 0 0 []) =
  mkReport (wrap64 (Z.of_nat (length found))) (wrap64 (total_size found)) found.
Proof.
  cbv zeta. rewrite scan_blocks. destruct (filter _ l); reflexivity.
Qed.

Lemma elem_of_unfreed g b :
  b ∈ unfreed g <->
  exists p, allocated_blocks g !! p = Some b /\ MemoryBlock.is_freed b = false.
Proof.
  unfold unfreed. rewrite list_elem_of_filter, list_elem_of_fmap. split.
  - intros (Hf & [p b'] & -> & Hin). apply elem_of_map_to_list in Hin.
    now exists p.
  - intros (p & Hp & Hf). split; [exact Hf|].
    exists (p, b). split; [reflexivity|]. now apply elem_of_map_to_list.
Qed.

(** C6.  After any history of tracked allocations and deallocations,
    [detect_leaks] returns the records of the tracker whose [is_freed]
    flag is false, each once and nothing else: a pointer has such a
    record exactly when it was allocated and not deallocated since.
    [leaked_blocks] is their number and [leaked_bytes] the sum of their
    sizes, both as [size_t] values. *)
Theorem detect_leaks_reports_unfreed (s : St) (h : list Tracked) :
  tracking_mutex (fst s) = false ->
  exists s' report,
    replay h s = Returns tt s' /\
    detect_leaks s' = Returns report s' /\
    leaks report = unfreed (fst s') /\
    (forall b, b ∈ leaks report <->
       exists p, allocated_blocks (fst s') !! p = Some b /\
                 MemoryBlock.is_freed b = false) /\
    (forall p, unfreed_at (fst s') p = outstanding h p (unfreed_at (fst s) p)) /\
    leaked_blocks report = wrap64 (Z.of_nat (length (unfreed (fst s')))) /\
    leaked_bytes report = wrap64 (total_size (unfreed (fst s'))) /\
    (Z.of_nat (length (unfreed (fst s'))) < 2 ^ 64 ->
     leaked_blocks report = Z.of_nat (length (unfreed (fst s')))) /\
    (0 <= total_size (unfreed (fst s')) < 2 ^ 64 ->
     leaked_bytes report = total_size (unfreed (fst s'))).
Proof.
  intros Hm.
  destruct (replay_returns h s Hm) as (s' & Hs' & Hm' & Hout).
  exists s'. eexists. split; [exact Hs'|].
  split; [apply detect_leaks_runs; exact Hm'|].
  rewrite scan_from_nothing. cbn [leaks leaked_blocks leaked_bytes].
  fold (unfreed (fst s')).
  split; [reflexivity|]. split; [intros b; apply elem_of_unfreed|].
  split; [exact Hout|]. split; [reflexivity|]. split; [reflexivity|].
  split; intros Hfit; apply wrap64_small; lia.
Qed.

Lemma detect_leaks_reports_unfreed_witness :
  exists s' report,
    replay [TrackedAlloc 4104 512 None 0; TrackedAlloc 4184 100 None 0;
            TrackedFree 4184] fresh_state = Returns tt s' /\
    detect_leaks s' = Returns report s' /\
    leaks report = unfreed (fst s') /\
    (forall b, b ∈ leaks report <->
       exists p, allocated_blocks (fst s') !! p = Some b /\
                 MemoryBlock.is_freed b = false) /\
    (forall p, unfreed_at (fst s') p =
       outstanding [TrackedAlloc 4104 512 None 0; TrackedAlloc 4184 100 None 0;
                    TrackedFree 4184] p (unfreed_at (fst fresh_state) p)) /\
    leaked_blocks report = wrap64 (Z.of_nat (length (unfreed (fst s')))) /\
    leaked_bytes report = wrap64 (total_size (unfreed (fst s'))) /\
    (Z.of_nat (length (unfreed (fst s'))) < 2 ^ 64 ->
     leaked_blocks report = Z.of_nat (length (unfreed (fst s')))) /\
    (0 <= total_size (unfreed (fst s')) < 2 ^ 64 ->
     leaked_bytes report = total_size (unfreed (fst s'))).
Proof.
  apply (detect_leaks_reports_unfreed fresh_state).
  vm_compute. reflexivity.
Defined.

(** The scenario of the test suite: one allocation of 512 bytes that is
    not given back is reported as one block of 512 bytes, and as nothing
    once it is given back. *)
Example leak_of_512 :
  (fun r : LeakReport * St => (leaked_blocks (fst r), leaked_bytes (fst r)))
    <$> from_fresh (exec allocate 512 None 0; detect_leaks) = Some (1, 512) /\
  (fun r : LeakReport * St => (leaked_blocks (fst r), leaked_bytes (fst r)))
    <$> from_fresh (call p <- allocate 512 None 0;
                    exec deallocate p; detect_leaks) = Some (0, 0).
Proof. split; vm_compute; reflexivity. Qed.

(** ** What [allocate] does when it returns *)

Lemma update_performance_metrics_allocation bytes s :
  exists s',
    update_performance_metrics bytes true s = Returns tt s' /\
    usage s' = wrap64 (usage s + bytes) /\
    snd s' = snd s /\
    allocated_blocks (fst s') = allocated_blocks (fst s) /\
    memory_pools (fst s') = memory_pools (fst s) /\
    pool_index_map (fst s') = pool_index_map (fst s) /\
    default_config (fst s') = default_config (fst s) /\
    tracking_mutex (fst s') = tracking_mutex (fst s).
Proof. eexists. split; [reflexivity|]. repeat split. Qed.

Lemma update_performance_metrics_deallocation bytes s :
  exists s',
    update_performance_metrics bytes false s = Returns tt s' /\
    usage s' = wrap64 (usage s - bytes) /\
    snd s' = snd s /\
    allocated_blocks (fst s') = allocated_blocks (fst s) /\
    memory_pools (fst s') = memory_pools (fst s) /\
    pool_index_map (fst s') = pool_index_map (fst s) /\
    default_config (fst s') = default_config (fst s) /\
    tracking_mutex (fst s') = tracking_mutex (fst s).
Proof. eexists. split; [reflexivity|]. repeat split. Qed.

Lemma pool_construct_returns cfg m p m' :
  MemoryPool.construct cfg m = Returns p m' ->
  MemoryPool.free_list p = sys_brk m /\ sys_brk m <> nullptr /\
  sys_brk m <= sys_brk m'.
Proof.
  unfold MemoryPool.construct, MemoryPool.expand_pool, MemoryPool.locked,
    lock_guard, malloc.
  cbn [fst snd MemoryPool.pool_mutex MemoryPool.set_pool_mutex
       MemoryPool.config MemoryPool.free_list MemoryPool.allocated_blocks
       MemoryPool.allocated_count MemoryPool.total_allocated].
  destruct (_ <=? _).
  - destruct (Z.eqb_spec (sys_brk m) nullptr); [discriminate|].
    intros [= <- <-]. cbn. split; [reflexivity|]. split; [assumption|].
    unfold align16.
    pose proof (Z.div_pos
      (Z.max (wrap64 (block_size cfg + MemoryPool.sizeof_PoolBlock)) 1 + 15)
      16). lia.
  - cbn. discriminate.
Qed.

Lemma ledger_eq s1 s2 :
  ledger s1 = ledger s2 ->
  default_config (fst s1) = default_config (fst s2) /\
  allocated_blocks (fst s1) = allocated_blocks (fst s2) /\
  tracking_mutex (fst s1) = tracking_mutex (fst s2) /\
  metrics (fst s1) = metrics (fst s2).
Proof. unfold ledger. intros [= -> -> -> -> _]. repeat split. Qed.

Lemma allocate_returns size file line s p s' :
  allocate size file line s = Returns p s' ->
  exists idx s1 pool next,
    get_or_create_pool size s = Returns idx s1 /\
    memory_pools (fst s1) !! idx = Some pool /\
    MemoryPool.free_list pool <> nullptr /\
    load_next (MemoryPool.free_list pool) (snd s1) = Some next /\
    p = MemoryPool.free_list pool + MemoryPool.offsetof_data /\
    snd s' = snd s1 /\
    default_config (fst s') = default_config (fst s) /\
    tracking_mutex (fst s') = tracking_mutex (fst s) /\
    allocated_blocks (fst s') =
      (if enable_leak_detection (default_config (fst s))
       then <[p := new_record p size file line]> (allocated_blocks (fst s))
       else allocated_blocks (fst s)) /\
    usage s' =
      (if enable_performance_monitoring (default_config (fst s))
       then wrap64 (usage s + size) else usage s).
Proof.
  unfold allocate. intros H.
  apply bind_returns in H as (idx & s1 & Hpool & H).
  apply bind_returns in H as (ptr & s2 & Hpop & H).
  apply bind_returns in H as (s2' & s2'' & Hget & H).
  unfold get in Hget. injection Hget as <- <-.
  apply bind_returns in H as ([] & s3 & Htrack & H).
  apply bind_returns in H as ([] & s4 & Hcharge & H).
  unfold ret in H. injection H as <- <-.
  pose proof (keeps_returns ledger _ _ _ _
                (proj1 (get_or_create_pool_frames size)) Hpool) as L1.
  pose proof (keeps_returns ledger _ _ _ _
                (keeps_ledger_at_pool idx MemoryPool.allocate) Hpop) as L2.
  apply ledger_eq in L1 as (C1 & B1 & T1 & M1).
  apply ledger_eq in L2 as (C2 & B2 & T2 & M2).
  apply at_pool_returns in Hpop as (pool & p' & m' & Hlook & Hpop & Hs2).
  apply pool_allocate_returns in Hpop as (_ & Hne & -> & next & Hnext & E).
  injection E as _ ->.
  assert (S2 : snd s2 = snd s1) by (rewrite Hs2; reflexivity).
  clear Hs2.
  exists idx, s1, pool, next.
  split; [exact Hpool|]. split; [exact Hlook|]. split; [exact Hne|].
  split; [exact Hnext|]. split; [reflexivity|].
  rewrite C2, C1 in Htrack, Hcharge.
  set (ptr := MemoryPool.free_list pool + MemoryPool.offsetof_data) in *.
  assert (Hs3 : snd s3 = snd s1 /\
                default_config (fst s3) = default_config (fst s) /\
                tracking_mutex (fst s3) = tracking_mutex (fst s) /\
                metrics (fst s3) = metrics (fst s) /\
                allocated_blocks (fst s3) =
                  (if enable_leak_detection (default_config (fst s))
                   then <[ptr := new_record ptr size file line]>
                          (allocated_blocks (fst s))
                   else allocated_blocks (fst s))).
  { apply when_returns in Htrack as [[-> Htrack]|[-> ->]].
    - apply track_allocation_returns in Htrack as (Hm & ->).
      cbn [fst snd set_allocated_blocks default_config
           tracking_mutex metrics allocated_blocks].
      rewrite B2, B1, C2, C1, M2, M1, S2, <- T1, <- T2, Hm.
      repeat split.
    - repeat split; congruence. }
  destruct Hs3 as (S3 & C3 & T3 & M3 & B3).
  apply when_returns in Hcharge as [[-> Hcharge]|[-> ->]].
  - destruct (update_performance_metrics_allocation size s3)
      as (s4' & E4 & U4 & S4 & B4 & _ & _ & C4 & T4).
    rewrite Hcharge in E4. injection E4 as <-.
    rewrite S4, C4, T4, B4, U4.
    repeat split; try congruence.
    unfold usage, get_memory_stats. cbn [current_usage]. now rewrite M3.
  - repeat split; try congruence.
    unfold usage, get_memory_stats. cbn [current_usage]. now rewrite M3.
Qed.

Lemma get_or_create_pool_addresses size s idx s1 :
  addresses_unsigned s ->
  get_or_create_pool size s = Returns idx s1 ->
  addresses_unsigned s1.
Proof.
  intros [Hbrk Hheads]. unfold get_or_create_pool.
  destruct (_ <? _)%nat; [now intros [= <- <-]|].
  unfold create_pool.
  destruct (MemoryPool.construct _ _) as [pnew m'| | |] eqn:E; try discriminate.
  intros [= <- <-].
  apply pool_construct_returns in E as (Hfl & _ & Hmono).
  split; cbn [fst snd]; [lia|].
  unfold push_pool. cbn [memory_pools set_pool_index_map set_memory_pools].
  apply Forall_app. split; [exact Hheads|].
  constructor; [lia|constructor].
Qed.

Lemma allocate_charges_nonnull s n file line p s' :
  addresses_unsigned s ->
  allocate n file line s = Returns p s' ->
  p <> nullptr /\
  usage s' =
    if enable_performance_monitoring (default_config (fst s))
    then wrap64 (usage s + n) else usage s.
Proof.
  intros Haddr H.
  apply allocate_returns in H
    as (idx & s1 & pool & next & Hpool & Hlook & Hne & _ & -> & _ & _ & _ & _ & U).
  split; [|exact U].
  apply (get_or_create_pool_addresses _ _ _ _ Haddr) in Hpool as [_ Hheads].
  rewrite Forall_lookup in Hheads. specialize (Hheads _ _ Hlook). cbn in Hheads.
  unfold nullptr, MemoryPool.offsetof_data in *. lia.
Qed.

(** C3, as the code has it.  A successful [allocate(n)] returns a
    non-null pointer and, with performance monitoring enabled, raises
    [current_usage] by the requested size [n] (as a [uint64_t]), whatever
    the block size of the class that served the request; with monitoring
    disabled [current_usage] stays as it is. *)
Theorem allocate_charges_requested_size
    (s : St) (n : Z) (file : option string) (line : Z) (p : Z) (s' : St) :
  addresses_unsigned s ->
  allocate n file line s = Returns p s' ->
  p <> nullptr /\
  usage s' =
    if enable_performance_monitoring (default_config (fst s))
    then wrap64 (usage s + n) else usage s.
Proof. apply allocate_charges_nonnull. Qed.

Lemma fresh_state_addresses : addresses_unsigned fresh_state.
Proof.
  split; [vm_compute; discriminate|].
  vm_compute. repeat constructor; discriminate.
Qed.

Lemma allocate_charges_requested_size_witness :
  4184 <> nullptr /\
  usage (state_of (allocate 100 None 0 fresh_state)) =
    if enable_performance_monitoring (default_config (fst fresh_state))
    then wrap64 (usage fresh_state + 100) else usage fresh_state.
Proof.
  apply (allocate_charges_requested_size fresh_state 100 None 0).
  - exact fresh_state_addresses.
  - vm_compute. reflexivity.
Defined.

(** A request of 100 bytes is served by the 128-byte class and raises the
    usage by 100. *)
Lemma usage_does_not_grow_by_block_size : ~ usage_grows_by_block_size.
Proof.
  intros Hsaid.
  assert (Hrun : match allocate 100 None 0 fresh_state with
                 | Returns _ s' => usage s' = 100
                 | _ => False
                 end) by (vm_compute; reflexivity).
  assert (Hserved : served_block_size 100 fresh_state = Some 128)
    by (vm_compute; reflexivity).
  destruct (allocate 100 None 0 fresh_state) as [p s'| | |] eqn:E;
    try contradiction.
  destruct (Hsaid _ _ _ _ _ _ E) as (_ & b & Hb & Hu).
  rewrite Hserved in Hb. injection Hb as <-.
  rewrite Hrun in Hu. vm_compute in Hu. discriminate.
Qed.

(** ** Memory contents *)

Lemma store_bytes_lookup data : forall dst bm (i : nat),
  (i < length data)%nat ->
  store_bytes dst data bm !! (dst + Z.of_nat i) = data !! i.
Proof.
  induction data as [|b data IH]; intros dst bm i Hi; cbn in Hi; [lia|].
  cbn [store_bytes]. destruct i as [|i].
  - replace (dst + Z.of_nat 0) with dst by lia. now rewrite lookup_insert_eq.
  - rewrite lookup_insert_ne by lia.
    replace (dst + Z.of_nat (S i)) with (dst + 1 + Z.of_nat i) by lia.
    rewrite IH by lia. reflexivity.
Qed.

Lemma copy_bytes_copies dst src n m i :
  0 <= i < n ->
  load_byte (copy_bytes dst src n m) (dst + i) = load_byte m (src + i).
Proof.
  intros Hi. unfold load_byte at 1, copy_bytes, set_bytes. cbn [bytes].
  replace (dst + i) with (dst + Z.of_nat (Z.to_nat i)) by lia.
  rewrite store_bytes_lookup
    by (unfold load_bytes; rewrite length_fmap, length_seq; lia).
  unfold load_bytes. rewrite list_lookup_fmap, lookup_seq_lt by lia.
  cbn. f_equal. lia.
Qed.

Lemma load_byte_payload m m' a :
  bytes m' = bytes m -> load_byte m' a = load_byte m a.
Proof. unfold load_byte. now intros ->. Qed.

Lemma keeps_payload_track_allocation ptr size file line :
  keeps payload (track_allocation ptr size file line).
Proof.
  unfold track_allocation, tracking_locked.
  apply keeps_lock_guard; [intros b s; reflexivity|].
  apply keeps_modify. intros s. reflexivity.
Qed.

Lemma keeps_payload_track_deallocation ptr :
  keeps payload (track_deallocation ptr).
Proof.
  unfold track_deallocation, tracking_locked.
  apply keeps_lock_guard; [intros b s; reflexivity|].
  apply keeps_modify. intros s. reflexivity.
Qed.

Lemma keeps_payload_update_performance_metrics bytes b :
  keeps payload (update_performance_metrics bytes b).
Proof. apply keeps_modify. intros s. reflexivity. Qed.

#[local] Hint Resolve keeps_payload_track_allocation
  keeps_payload_track_deallocation keeps_payload_update_performance_metrics
  : frames.

Lemma keeps_payload_allocate size file line :
  keeps payload (allocate size file line).
Proof.
  unfold allocate.
  apply keeps_bind; [apply get_or_create_pool_frames|]. intros idx.
  apply keeps_bind;
    [apply keeps_payload_at_pool, keeps_bytes_pool_allocate|]. intros ptr.
  apply keeps_bind; [apply keeps_get|]. intros s0.
  repeat (apply keeps_bind; [auto with frames|intros _]).
  apply keeps_ret.
Qed.

Lemma keeps_payload_deallocate ptr :
  keeps payload (deallocate ptr).
Proof.
  unfold deallocate. destruct (ptr =? nullptr); [apply keeps_ret|].
  apply keeps_bind; [apply keeps_get|]. intros s0.
  apply keeps_bind.
  { destruct (find_pool _ _ _); [|apply keeps_ret].
    apply keeps_payload_at_pool, keeps_bytes_pool_deallocate. }
  intros _. apply keeps_bind; [auto with frames|]. intros _.
  apply keeps_when. apply keeps_bind; [apply keeps_get|]. intros s1.
  destruct (_ !! _); auto with frames.
Qed.

(** ** Reallocation *)

Lemma reallocate_untracked ptr new_size file line s :
  ptr <> nullptr -> new_size <> 0 ->
  allocated_blocks (fst s) !! ptr = None ->
  tracking_mutex (fst s) = false ->
  reallocate ptr new_size file line s =
  match realloc ptr new_size (snd s) with
  | None => Undefined
  | Some (new_ptr, m') =>
      Returns new_ptr
        (if new_ptr =? nullptr then fst s
         else set_allocated_blocks
                (<[new_ptr := new_record new_ptr new_size file line]>
                   (allocated_blocks (fst s))) (fst s),
         m')
  end.
Proof.
  intros Hptr Hsize Hnone Hm. unfold reallocate.
  destruct (Z.eqb_spec ptr nullptr); [contradiction|].
  destruct (Z.eqb_spec new_size 0); [contradiction|].
  unfold bind at 1, get. rewrite Hnone.
  destruct (realloc ptr new_size (snd s)) as [[new_ptr m']|]; [|reflexivity].
  unfold bind, modify. cbn [fst snd].
  destruct (new_ptr =? nullptr); [reflexivity|].
  rewrite track_allocation_runs by exact Hm. reflexivity.
Qed.

Lemma realloc_links p n m q m' :
  realloc p n m = Some (q, m') -> links m' = links m.
Proof.
  unfold realloc, malloc.
  destruct (p =? nullptr).
  - destruct (_ <=? _); intros [= <- <-]; reflexivity.
  - destruct (sys_blocks m !! p); [|discriminate].
    destruct (_ <=? _); [|intros [= <- <-]; reflexivity].
    destruct (sys_brk m =? nullptr); intros [= <- <-]; reflexivity.
Qed.

(** C9.  [reallocate] of a non-null pointer the tracker has no record of,
    to a size that is not zero, is the system [realloc] on that pointer:
    the memory afterwards is what [realloc] leaves, no pool, no free-list
    header, no size class and no counter is touched, and when [realloc]
    succeeds the new pointer gets an unfreed record of the new size in
    the tracker, whether leak detection is enabled or not. *)
Theorem reallocate_untracked_is_system_realloc
    (ptr new_size : Z) (file : option string) (line : Z) (s : St) :
  ptr <> nullptr -> new_size <> 0 ->
  allocated_blocks (fst s) !! ptr = None ->
  tracking_mutex (fst s) = false ->
  match realloc ptr new_size (snd s) with
  | None => reallocate ptr new_size file line s = Undefined
  | Some (new_ptr, m') =>
      exists s',
        reallocate ptr new_size file line s = Returns new_ptr s' /\
        snd s' = m' /\
        links (snd s') = links (snd s) /\
        memory_pools (fst s') = memory_pools (fst s) /\
        pool_index_map (fst s') = pool_index_map (fst s) /\
        metrics (fst s') = metrics (fst s) /\
        default_config (fst s') = default_config (fst s) /\
        (new_ptr = nullptr -> fst s' = fst s) /\
        (new_ptr <> nullptr ->
         allocated_blocks (fst s') =
           <[new_ptr := new_record new_ptr new_size file line]>
             (allocated_blocks (fst s)))
  end.
Proof.
  intros Hptr Hsize Hnone Hm.
  rewrite (reallocate_untracked _ _ file line _ Hptr Hsize Hnone Hm).
  destruct (realloc ptr new_size (snd s)) as [[new_ptr m']|] eqn:E;
    [|reflexivity].
  eexists. split; [reflexivity|]. cbn [fst snd].
  split; [reflexivity|]. split; [exact (realloc_links _ _ _ _ _ E)|].
  destruct (Z.eqb_spec new_ptr nullptr) as [->|Hne];
    repeat split; try reflexivity; intros; congruence.
Qed.

Lemma reallocate_untracked_is_system_realloc_witness :
  enable_leak_detection (default_config (fst foreign_state)) = false /\
  match realloc 20544 100 (snd foreign_state) with
  | None => reallocate 20544 100 None 7 foreign_state = Undefined
  | Some (new_ptr, m') =>
      exists s',
        reallocate 20544 100 None 7 foreign_state = Returns new_ptr s' /\
        snd s' = m' /\
        links (snd s') = links (snd foreign_state) /\
        memory_pools (fst s') = memory_pools (fst foreign_state) /\
        pool_index_map (fst s') = pool_index_map (fst foreign_state) /\
        metrics (fst s') = metrics (fst foreign_state) /\
        default_config (fst s') = default_config (fst foreign_state) /\
        (new_ptr = nullptr -> fst s' = fst foreign_state) /\
        (new_ptr <> nullptr ->
         allocated_blocks (fst s') =
           <[new_ptr := new_record new_ptr 100 None 7]>
             (allocated_blocks (fst foreign_state)))
  end.
Proof.
  split; [vm_compute; reflexivity|].
  apply (reallocate_untracked_is_system_realloc 20544 100 None 7 foreign_state).
  - vm_compute. discriminate.
  - discriminate.
  - vm_compute. reflexivity.
  - vm_compute. reflexivity.
Defined.

(** On that state the system [realloc] does succeed: the call returns
    the new object at 20576 and tracks it although leak detection is
    off. *)
Example reallocate_foreign_pointer :
  match reallocate 20544 100 None 7 foreign_state with
  | Returns q s' =>
      q = 20576 /\
      allocated_blocks (fst s') !! q = Some (new_record 20576 100 None 7)
  | _ => False
  end.
Proof. vm_compute. split; reflexivity. Qed.

Lemma reallocate_tracked ptr new_size file line s it :
  ptr <> nullptr -> new_size <> 0 ->
  allocated_blocks (fst s) !! ptr = Some it ->
  reallocate ptr new_size file line s =
  if new_size <=? MemoryBlock.size it then Returns ptr s
  else
    (call new_ptr <- allocate new_size file line;
     exec (if new_ptr =? nullptr then ret tt
           else
             exec copy_block new_ptr ptr (MemoryBlock.size it);
             deallocate ptr);
     ret new_ptr) s.
Proof.
  intros Hptr Hsize Hit. unfold reallocate.
  destruct (Z.eqb_spec ptr nullptr); [contradiction|].
  destruct (Z.eqb_spec new_size 0); [contradiction|].
  unfold bind at 1, get. rewrite Hit.
  destruct (_ <=? _); reflexivity.
Qed.

Lemma realloc_moves p n m q m' old :
  p <> nullptr ->
  sys_blocks m !! p = Some old ->
  realloc p n m = Some (q, m') ->
  q <> nullptr ->
  (forall i, 0 <= i < Z.min old n ->
     load_byte m' (q + i) = load_byte m (p + i)) /\
  (q <> p -> sys_blocks m' !! q = Some n /\ sys_blocks m' !! p = None).
Proof.
  intros Hp Hold H Hq. unfold realloc in H.
  destruct (Z.eqb_spec p nullptr); [contradiction|].
  rewrite Hold in H. unfold malloc in H.
  destruct (_ <=? _); [|injection H as <- _; contradiction].
  destruct (Z.eqb_spec (sys_brk m) nullptr);
    [injection H as <- _; contradiction|].
  injection H as <- <-. split.
  - intros i Hi.
    set (m1 := set_sys_brk _ _).
    transitivity (load_byte (copy_bytes (sys_brk m) p (Z.min old n) m1)
                            (sys_brk m + i));
      [apply load_byte_payload; reflexivity|].
    rewrite copy_bytes_copies by exact Hi.
    apply load_byte_payload. reflexivity.
  - intros Hne.
    unfold free, copy_bytes, set_bytes, set_sys_blocks, set_sys_brk.
    cbn [sys_blocks]. split.
    + rewrite lookup_delete_ne by congruence. apply lookup_insert_eq.
    + apply lookup_delete_eq.
Qed.

(** ** Size classes *)

Lemma nearest_fold size l : forall acc,
  let r := fold_left (closer size) l acc in
  (forall k v, (k, v) ∈ l -> fst r <= abs_diff size k) /\
  fst r <= fst acc /\
  ((r = acc /\ forall k v, (k, v) ∈ l -> fst acc <= abs_diff size k) \/
   (exists k, (k, snd r) ∈ l /\ fst r = abs_diff size k /\ fst r < fst acc)).
Proof.
  induction l as [|[k0 v0] l IH]; intros acc; cbn zeta.
  - cbn [fold_left]. split; [intros k v Hin; inversion Hin|].
    split; [lia|]. left. split; [reflexivity|].
    intros k v Hin. inversion Hin.
  - cbn [fold_left].
    destruct (IH (closer size acc (k0, v0))) as (Hmin & Hle & Hwhich).
    set (r := fold_left (closer size) l (closer size acc (k0, v0))) in *.
    assert (Hstep : (closer size acc (k0, v0) = acc /\
                     fst acc <= abs_diff size k0) \/
                    (closer size acc (k0, v0) = (abs_diff size k0, v0) /\
                     abs_diff size k0 < fst acc)).
    { unfold closer. cbn [fst snd].
      destruct (Z.ltb_spec (abs_diff size k0) (fst acc)); [right|left];
        split; auto. }
    assert (Hacc' : fst (closer size acc (k0, v0)) <= abs_diff size k0 /\
                    fst (closer size acc (k0, v0)) <= fst acc).
    { destruct Hstep as [[-> ?]|[-> ?]]; cbn [fst]; lia. }
    split; [|split].
    + intros k v Hin. apply elem_of_cons in Hin as [[= -> ->]|Hin];
        [lia|eauto].
    + lia.
    + destruct Hwhich as [[Hr Hall]|(k & Hin & Hk & Hlt)].
      * destruct Hstep as [[Hsame ?]|[Hnew ?]].
        -- left. split; [congruence|].
           intros k v Hin. apply elem_of_cons in Hin as [[= -> ->]|Hin];
             [assumption|]. rewrite Hsame in Hall. eauto.
        -- right. exists k0. rewrite Hr, Hnew. cbn [fst snd].
           split; [apply elem_of_cons; now left|]. split; [reflexivity|lia].
      * right. exists k. split; [apply elem_of_cons; now right|].
        split; [assumption|lia].
Qed.

Lemma umap_find_Some k l v : umap_find k l = Some v -> (k, v) ∈ l.
Proof.
  induction l as [|[k' v'] l IH]; cbn; [discriminate|].
  destruct (Z.eqb_spec k' k) as [->|Hne].
  - intros [= ->]. apply elem_of_cons. now left.
  - intros H. apply elem_of_cons. right. auto.
Qed.

Lemma get_pool_index_in_range size g n :
  (0 < n)%nat ->
  (forall k v, (k, v) ∈ pool_index_map g -> (v < n)%nat) ->
  (get_pool_index size g < n)%nat.
Proof.
  intros Hn Hall. unfold get_pool_index.
  destruct (umap_find size (pool_index_map g)) as [idx|] eqn:E.
  - apply umap_find_Some in E. eauto.
  - destruct (nearest_fold size (pool_index_map g) (SIZE_MAX, 0%nat))
      as (_ & _ & [[-> _]|(k & Hin & _)]); [exact Hn|eauto].
Qed.

Lemma pool_construct_runs cfg m :
  sys_brk m <> nullptr ->
  sys_brk m + wrap64 (block_size cfg + MemoryPool.sizeof_PoolBlock)
    <= sys_limit m ->
  exists p m',
    MemoryPool.construct cfg m = Returns p m' /\
    MemoryPool.config p = cfg /\
    MemoryPool.free_list p = sys_brk m /\
    load_next (sys_brk m) m' = Some nullptr.
Proof.
  intros Hbrk Hfit.
  unfold MemoryPool.construct, MemoryPool.expand_pool, MemoryPool.locked,
    lock_guard, malloc.
  cbn [fst snd MemoryPool.pool_mutex MemoryPool.set_pool_mutex
       MemoryPool.config MemoryPool.free_list MemoryPool.allocated_blocks
       MemoryPool.allocated_count MemoryPool.total_allocated].
  destruct (Z.leb_spec
    (sys_brk m + wrap64 (block_size cfg + MemoryPool.sizeof_PoolBlock))
    (sys_limit m)); [|lia].
  destruct (Z.eqb_spec (sys_brk m) nullptr); [contradiction|].
  do 2 eexists. split; [reflexivity|]. cbn [fst snd MemoryPool.config
    MemoryPool.free_list]. repeat split.
  unfold load_next, store_next, set_links. cbn [links].
  apply lookup_insert_eq.
Qed.

Lemma get_or_create_pool_selects size s :
  (get_pool_index size (fst s) < length (memory_pools (fst s)))%nat ->
  get_or_create_pool size s = Returns (get_pool_index size (fst s)) s.
Proof.
  intros Hlt. unfold get_or_create_pool.
  destruct (Nat.ltb_spec (get_pool_index size (fst s))
                         (length (memory_pools (fst s)))); [reflexivity|lia].
Qed.

Lemma get_pool_index_exact size g idx :
  umap_find size (pool_index_map g) = Some idx -> get_pool_index size g = idx.
Proof. intros H. unfold get_pool_index. now rewrite H. Qed.

Lemma get_pool_index_nearest size g :
  umap_find size (pool_index_map g) = None ->
  (exists k v, (k, v) ∈ pool_index_map g /\ abs_diff size k < SIZE_MAX) ->
  exists k,
    (k, get_pool_index size g) ∈ pool_index_map g /\
    forall k' v', (k', v') ∈ pool_index_map g ->
                  abs_diff size k <= abs_diff size k'.
Proof.
  intros Hnone (k0 & v0 & Hin0 & Hlt0). unfold get_pool_index. rewrite Hnone.
  destruct (nearest_fold size (pool_index_map g) (SIZE_MAX, 0%nat))
    as (Hmin & _ & [[_ Hall]|(k & Hin & Hk & _)]).
  - specialize (Hall _ _ Hin0). cbn [fst] in Hall. lia.
  - exists k. split; [exact Hin|]. intros k' v' Hin'.
    rewrite <- Hk. eauto.
Qed.

(** C7, as the code has it.  A request whose size is the key of a size
    class gets the index of that class.  Any other request gets, among
    the classes of the table, one whose size differs least from the
    request, however large that difference is.  The pool at the selected
    index is returned as it is and nothing is created whenever the
    indices of the table lie inside the pool vector, which holds for the
    manager its constructor builds.  A pool sized exactly to the request
    is created only when the selected index is outside the vector, as
    with a table and a vector that are still empty. *)
Theorem size_class_resolution (size : Z) (s : St) :
  (forall idx,
     umap_find size (pool_index_map (fst s)) = Some idx ->
     get_pool_index size (fst s) = idx /\
     ((idx < length (memory_pools (fst s)))%nat ->
      get_or_create_pool size s = Returns idx s)) /\
  (umap_find size (pool_index_map (fst s)) = None ->
   (exists k v, (k, v) ∈ pool_index_map (fst s) /\
                abs_diff size k < SIZE_MAX) ->
   exists k,
     (k, get_pool_index size (fst s)) ∈ pool_index_map (fst s) /\
     (forall k' v', (k', v') ∈ pool_index_map (fst s) ->
                    abs_diff size k <= abs_diff size k') /\
     ((get_pool_index size (fst s) < length (memory_pools (fst s)))%nat ->
      get_or_create_pool size s
      = Returns (get_pool_index size (fst s)) s)) /\
  (memory_pools (fst s) <> [] ->
   (forall k v, (k, v) ∈ pool_index_map (fst s) ->
                (v < length (memory_pools (fst s)))%nat) ->
   get_or_create_pool size s = Returns (get_pool_index size (fst s)) s) /\
  (pool_index_map (fst s) = [] -> memory_pools (fst s) = [] ->
   sys_brk (snd s) <> nullptr ->
   sys_brk (snd s) + wrap64 (size + MemoryPool.sizeof_PoolBlock)
     <= sys_limit (snd s) ->
   exists p m',
     get_or_create_pool size s = Returns 0%nat (push_pool size p (fst s), m') /\
     block_size (MemoryPool.config p) = size /\
     memory_pools (push_pool size p (fst s)) = [p] /\
     pool_index_map (push_pool size p (fst s)) = [(size, 0%nat)]).
Proof.
  split; [|split; [|split]].
  - intros idx Hidx. pose proof (get_pool_index_exact _ _ _ Hidx) as E.
    split; [exact E|]. intros Hlt. rewrite <- E in *.
    now apply get_or_create_pool_selects.
  - intros Hnone Hsome.
    destruct (get_pool_index_nearest _ _ Hnone Hsome) as (k & Hin & Hmin).
    exists k. split; [exact Hin|]. split; [exact Hmin|].
    apply get_or_create_pool_selects.
  - intros Hpools Hall. apply get_or_create_pool_selects.
    apply get_pool_index_in_range; [|exact Hall].
    destruct (memory_pools (fst s)); [contradiction|cbn; lia].
  - intros Hmap Hpools Hbrk Hfit.
    destruct (pool_construct_runs (class_config size (default_config (fst s)))
                (snd s) Hbrk Hfit) as (p & m' & Hp & Hcfg & _).
    exists p, m'. unfold get_or_create_pool, get_pool_index, create_pool.
    rewrite Hmap, Hpools. cbn [umap_find fold_left snd length Nat.ltb Nat.leb].
    fold (class_config size (default_config (fst s))). rewrite Hp.
    split; [reflexivity|]. split; [now rewrite Hcfg|].
    unfold push_pool. cbn [memory_pools pool_index_map set_memory_pools
                           set_pool_index_map].
    rewrite Hmap, Hpools. split; reflexivity.
Qed.

Lemma size_class_resolution_witness :
  (get_pool_index 64 (fst fresh_state) = 0%nat /\
   ((0 < length (memory_pools (fst fresh_state)))%nat ->
    get_or_create_pool 64 fresh_state = Returns 0%nat fresh_state)) /\
  (exists k,
     (k, get_pool_index 100 (fst fresh_state))
       ∈ pool_index_map (fst fresh_state) /\
     (forall k' v', (k', v') ∈ pool_index_map (fst fresh_state) ->
                    abs_diff 100 k <= abs_diff 100 k') /\
     ((get_pool_index 100 (fst fresh_state)
       < length (memory_pools (fst fresh_state)))%nat ->
      get_or_create_pool 100 fresh_state
      = Returns (get_pool_index 100 (fst fresh_state)) fresh_state)) /\
  get_or_create_pool 1000000 fresh_state
    = Returns (get_pool_index 1000000 (fst fresh_state)) fresh_state /\
  (exists p m',
     get_or_create_pool 100 empty_state
       = Returns 0%nat (push_pool 100 p (fst empty_state), m') /\
     block_size (MemoryPool.config p) = 100 /\
     memory_pools (push_pool 100 p (fst empty_state)) = [p] /\
     pool_index_map (push_pool 100 p (fst empty_state)) = [(100, 0%nat)]).
Proof.
  assert (Hmap : pool_index_map (fst fresh_state) =
                 constructed_table)
    by (vm_compute; reflexivity).
  split; [|split; [|split]].
  - apply (proj1 (size_class_resolution 64 fresh_state)).
    vm_compute. reflexivity.
  - apply (proj1 (proj2 (size_class_resolution 100 fresh_state))).
    + vm_compute. reflexivity.
    + exists 128, 1%nat. split; [|vm_compute; reflexivity].
      rewrite Hmap. unfold constructed_table. apply elem_of_cons. right.
      apply elem_of_cons. now left.
  - apply (proj1 (proj2 (proj2 (size_class_resolution 1000000 fresh_state)))).
    + vm_compute. discriminate.
    + rewrite Hmap. unfold constructed_table. intros k v Hin.
      replace (length (memory_pools (fst fresh_state))) with 8%nat
        by (vm_compute; reflexivity).
      repeat (apply elem_of_cons in Hin as [[= -> ->]|Hin]; [lia|]).
      inversion Hin.
  - apply (proj2 (proj2 (proj2 (size_class_resolution 100 empty_state))));
      try reflexivity; vm_compute; discriminate.
Defined.

(** On the manager its constructor builds, a request of a million bytes
    is served by the 8192-byte class and the vector keeps its eight
    pools. *)
Example far_request_is_served_by_the_nearest_class :
  served_block_size 1000000 fresh_state = Some 8192 /\
  (fun r : nat * St => (fst r, length (memory_pools (fst (snd r)))))
    <$> from_fresh (get_or_create_pool 1000000) = Some (7%nat, 8%nat).
Proof. split; vm_compute; reflexivity. Qed.

(** However wide "close" is taken to be, a request farther than that
    from every class creates nothing: on the manager its constructor
    builds, the request of [tolerance + 8193] bytes is answered with the
    8192-byte class. *)
Lemma no_class_is_created_on_demand :
  ~ exists tolerance,
      0 <= tolerance < 2 ^ 63 /\ creates_class_beyond tolerance.
Proof.
  intros (tolerance & Hrange & Hsaid).
  change (2 ^ 63) with 9223372036854775808 in Hrange.
  assert (Hmap : pool_index_map (fst fresh_state) =
                 constructed_table)
    by (vm_compute; reflexivity).
  assert (Hlen : length (memory_pools (fst fresh_state)) = 8%nat)
    by (vm_compute; reflexivity).
  assert (Hsel : get_or_create_pool (tolerance + 8193) fresh_state
                 = Returns (get_pool_index (tolerance + 8193) (fst fresh_state))
                           fresh_state).
  { apply get_or_create_pool_selects. rewrite Hlen.
    apply get_pool_index_in_range; [lia|].
    rewrite Hmap. unfold constructed_table. intros k v Hin.
    repeat (apply elem_of_cons in Hin as [[= -> ->]|Hin]; [lia|]).
    inversion Hin. }
  destruct (Hsaid fresh_state (tolerance + 8193)
              (get_pool_index (tolerance + 8193) (fst fresh_state))
              fresh_state) as [Hgrow _].
  - change (2 ^ 64) with 18446744073709551616. lia.
  - rewrite Hmap. unfold constructed_table. intros k v Hin. unfold abs_diff.
    repeat (apply elem_of_cons in Hin as [[= -> ->]|Hin];
            [match goal with
             | |- context [?a >? ?b] => destruct (Z.gtb_spec a b)
             end; lia|]).
    inversion Hin.
  - exact Hsel.
  - lia.
Qed.

(** ** The owning handle *)

Lemma drop_owned_unmanaged h w :
  NeuralUniquePtr.managed h = false ->
  NeuralUniquePtr.drop_owned h w = Returns tt w.
Proof.
  intros Hm. unfold NeuralUniquePtr.drop_owned. rewrite Hm.
  now rewrite andb_false_r.
Qed.

Lemma reset_unmanaged p h w :
  NeuralUniquePtr.managed h = false ->
  NeuralUniquePtr.reset p h w = Returns (NeuralUniquePtr.mk p false) w.
Proof.
  intros Hm. unfold NeuralUniquePtr.reset, bind.
  rewrite drop_owned_unmanaged by exact Hm. now rewrite Hm.
Qed.

Lemma uses_unmanaged us : forall h w,
  NeuralUniquePtr.managed h = false ->
  exists h',
    NeuralUniquePtr.uses us h w = Returns h' w /\
    NeuralUniquePtr.managed h' = false.
Proof.
  induction us as [|[p| |] us IH]; intros h w Hm; cbn [NeuralUniquePtr.uses].
  - now exists h.
  - unfold bind. rewrite reset_unmanaged by exact Hm. now apply IH.
  - now apply IH.
  - now apply IH.
Qed.

(** C10.  Once [release()] has been called on a handle, or the handle
    has been moved from, its [managed] flag is false and neither
    [reset], [release] nor [get] sets it again: [reset(p)] stores [p],
    deallocates nothing and leaves the handle non-owning, and after any
    number of such calls the destructor returns without touching the
    manager, which is not even created if it did not exist.  The one
    member that gives the handle ownership again is move assignment: it
    frees nothing of the non-owning target and hands it the pointer and
    the [managed] flag of its source. *)
Theorem released_handle_owns_again_only_by_move_assignment
    (h : NeuralUniquePtr.t) (us : list NeuralUniquePtr.Use) (p : Z)
    (w : Process.t) :
  let released := snd (NeuralUniquePtr.release h) in
  let moved_from := snd (NeuralUniquePtr.move_construct h) in
  NeuralUniquePtr.reset p released w
    = Returns (NeuralUniquePtr.mk p false) w /\
  NeuralUniquePtr.reset p moved_from w
    = Returns (NeuralUniquePtr.mk p false) w /\
  NeuralUniquePtr.destroy (NeuralUniquePtr.mk p false) w = Returns tt w /\
  (exists h',
     NeuralUniquePtr.uses us released w = Returns h' w /\
     NeuralUniquePtr.managed h' = false /\
     NeuralUniquePtr.destroy h' w = Returns tt w /\
     forall other,
       NeuralUniquePtr.move_assign h' other w
       = Returns (NeuralUniquePtr.mk (NeuralUniquePtr.ptr other)
                    (NeuralUniquePtr.managed other),
                  NeuralUniquePtr.mk nullptr false) w) /\
  (exists h',
     NeuralUniquePtr.uses us moved_from w = Returns h' w /\
     NeuralUniquePtr.managed h' = false /\
     NeuralUniquePtr.destroy h' w = Returns tt w /\
     forall other,
       NeuralUniquePtr.move_assign h' other w
       = Returns (NeuralUniquePtr.mk (NeuralUniquePtr.ptr other)
                    (NeuralUniquePtr.managed other),
                  NeuralUniquePtr.mk nullptr false) w).
Proof.
  cbn zeta. cbn [NeuralUniquePtr.release NeuralUniquePtr.move_construct snd].
  split; [now apply reset_unmanaged|].
  split; [now apply reset_unmanaged|].
  split; [now apply drop_owned_unmanaged|].
  split;
    (destruct (uses_unmanaged us (NeuralUniquePtr.mk nullptr false) w
                 eq_refl) as (h' & Hrun & Hm);
     exists h'; split; [exact Hrun|]; split; [exact Hm|];
     split; [now apply drop_owned_unmanaged|];
     intros other; unfold NeuralUniquePtr.move_assign, bind;
     now rewrite drop_owned_unmanaged by exact Hm).
Qed.

(** A released handle that another handle is move-assigned to owns
    again: in a process whose singleton tracks the 64-byte block 4104,
    the handle takes over 4104 with [managed] set, and its destructor
    gives the block back ([current_usage] falls from 64 to 0). *)
Lemma move_assignment_restores_ownership :
  NeuralUniquePtr.move_assign
      (snd (NeuralUniquePtr.release (NeuralUniquePtr.construct 4184 true)))
      (NeuralUniquePtr.construct 4104 true) (process_of holding_64)
    = Returns (NeuralUniquePtr.mk 4104 true, NeuralUniquePtr.mk nullptr false)
        (process_of holding_64) /\
  NeuralUniquePtr.destroy (NeuralUniquePtr.mk 4104 true)
      (process_of holding_64)
    = Returns tt (process_of (state_of (deallocate 4104 holding_64))) /\
  usage holding_64 = 64 /\
  usage (state_of (deallocate 4104 holding_64)) = 0 /\
  NeuralUniquePtr.destroy (NeuralUniquePtr.mk 4104 true)
      (process_of holding_64)
    <> Returns tt (process_of holding_64).
Proof.
  split; [vm_compute; reflexivity|].
  split; [vm_compute; reflexivity|].
  split; [vm_compute; reflexivity|].
  split; [vm_compute; reflexivity|].
  intros H.
  assert (D : match NeuralUniquePtr.destroy (NeuralUniquePtr.mk 4104 true)
                      (process_of holding_64) with
              | Returns _ w' =>
                  match Process.instance w' with
                  | Some g => current_memory_usage (metrics g)
                  | None => -1
                  end
              | _ => -1
              end = 0) by (vm_compute; reflexivity).
  rewrite H in D. vm_compute in D. discriminate.
Qed.

(** A handle that still owns its block gives it back in its destructor;
    after [release] and [reset] to the same block the destructor leaves
    the block tracked as unfreed. *)
Example destructor_after_release_and_reset :
  let w := Process.mk (Some (fst holding_64)) false (snd holding_64) in
  let unfreed_after := fun (o : Outcome Process.t unit) =>
    match o with
    | Returns _ w' =>
        match Process.instance w' with
        | Some g => Some (unfreed_at g 4104)
        | None => None
        end
    | _ => None
    end in
  unfreed_after
    (NeuralUniquePtr.destroy (NeuralUniquePtr.construct 4104 true) w)
    = Some false /\
  unfreed_after
    ((call h <- NeuralUniquePtr.reset 4104
                  (snd (NeuralUniquePtr.release
                          (NeuralUniquePtr.construct 4104 true)));
      NeuralUniquePtr.destroy h) w)
    = Some true.
Proof. split; vm_compute; reflexivity. Qed.

(** ** What [deallocate] does when it returns *)

Lemma deallocate_returns ptr s s' :
  ptr <> nullptr ->
  deallocate ptr s = Returns tt s' ->
  default_config (fst s') = default_config (fst s) /\
  allocated_blocks (fst s') =
    (if enable_leak_detection (default_config (fst s))
     then alter MemoryBlock.mark_freed ptr (allocated_blocks (fst s))
     else allocated_blocks (fst s)) /\
  usage s' =
    match allocated_blocks (fst s) !! ptr with
    | Some it =>
        if enable_performance_monitoring (default_config (fst s))
        then wrap64 (usage s - MemoryBlock.size it) else usage s
    | None => usage s
    end.
Proof.
  intros Hptr H. unfold deallocate in H.
  destruct (Z.eqb_spec ptr nullptr); [contradiction|].
  apply bind_returns in H as (s0 & s0' & Hget & H).
  unfold get in Hget. injection Hget as <- <-.
  apply bind_returns in H as ([] & s2 & Hpool & H).
  apply bind_returns in H as ([] & s3 & Htrack & H).
  assert (L2 : ledger s2 = ledger s).
  { destruct (find_pool _ _ _).
    - exact (keeps_returns ledger _ _ _ _ (keeps_ledger_at_pool _ _) Hpool).
    - unfold ret in Hpool. now injection Hpool as <-. }
  apply ledger_eq in L2 as (C2 & B2 & T2 & M2).
  assert (Hs3 : default_config (fst s3) = default_config (fst s) /\
                metrics (fst s3) = metrics (fst s) /\
                allocated_blocks (fst s3) =
                  (if enable_leak_detection (default_config (fst s))
                   then alter MemoryBlock.mark_freed ptr
                          (allocated_blocks (fst s))
                   else allocated_blocks (fst s))).
  { apply when_returns in Htrack as [[-> Htrack]|[-> ->]].
    - apply track_deallocation_returns in Htrack as (_ & ->).
      cbn [fst set_allocated_blocks default_config metrics allocated_blocks].
      rewrite B2. auto.
    - auto. }
  destruct Hs3 as (C3 & M3 & B3).
  assert (Hsize : MemoryBlock.size <$> allocated_blocks (fst s3) !! ptr
                  = MemoryBlock.size <$> allocated_blocks (fst s) !! ptr).
  { rewrite B3. destruct (enable_leak_detection _); [|reflexivity].
    rewrite lookup_alter, decide_True by reflexivity.
    now destruct (allocated_blocks (fst s) !! ptr). }
  assert (U3 : usage s3 = usage s)
    by (unfold usage, get_memory_stats; cbn [current_usage]; now rewrite M3).
  apply when_returns in H as [[-> H]|[-> ->]].
  - apply bind_returns in H as (s3' & s3'' & Hget & H).
    unfold get in Hget. injection Hget as <- <-.
    destruct (allocated_blocks (fst s3) !! ptr) as [it3|] eqn:E3;
      destruct (allocated_blocks (fst s) !! ptr) as [it|] eqn:E;
      try discriminate.
    + injection Hsize as Hsize.
      destruct (update_performance_metrics_deallocation
                  (MemoryBlock.size it3) s3)
        as (s4 & E4 & U4 & _ & B4 & _ & _ & C4 & _).
      rewrite H in E4. injection E4 as <-.
      rewrite C4, B4, U4, U3, Hsize. auto.
    + unfold ret in H. injection H as <-. auto.
  - destruct (allocated_blocks (fst s) !! ptr); auto.
Qed.

(** With leak detection on, what [allocate] charged is what the one
    [deallocate] of its pointer gives back. *)
Lemma deallocate_once_restores_usage n file line s p s1 s2 :
  enable_leak_detection (default_config (fst s)) = true ->
  0 <= usage s < 2 ^ 64 ->
  addresses_unsigned s ->
  allocate n file line s = Returns p s1 ->
  deallocate p s1 = Returns tt s2 ->
  usage s2 = usage s.
Proof.
  intros Hleak Hrange Haddr Halloc Hfree.
  destruct (allocate_charges_nonnull _ _ _ _ _ _ Haddr Halloc) as [Hp U1].
  apply allocate_returns in Halloc
    as (idx & s0 & pool & next & _ & _ & _ & _ & _ & _ & C1 & _ & B1 & _).
  apply (deallocate_returns _ _ _ Hp) in Hfree as (_ & _ & U2).
  rewrite B1, C1, Hleak, lookup_insert_eq in U2. cbn [new_record
    MemoryBlock.size] in U2.
  rewrite U2, U1.
  destruct (enable_performance_monitoring _); [|reflexivity].
  unfold wrap64. rewrite Zminus_mod_idemp_l.
  replace (usage s + n - n) with (usage s) by lia.
  now apply Z.mod_small.
Qed.

(** * Further properties of the code *)

(** ** Exhausted memory *)




(** ** The constructor *)

Lemma create_pool_runs size flags s :
  sys_brk (snd s) <> nullptr ->
  sys_brk (snd s) + wrap64 (size + MemoryPool.sizeof_PoolBlock)
    <= sys_limit (snd s) ->
  create_pool size flags s =
  Returns (length (memory_pools (fst s)))
    (push_pool size (built_pool (class_config size flags) (sys_brk (snd s)))
       (fst s),
     store_next (sys_brk (snd s)) nullptr
       (set_sys_brk
          (sys_brk (snd s)
           + align16 (Z.max (wrap64 (size + MemoryPool.sizeof_PoolBlock)) 1))
          (set_sys_blocks
             (fun b => <[sys_brk (snd s)
                         := wrap64 (size + MemoryPool.sizeof_PoolBlock)]> b)
             (snd s)))).
Proof.
  intros Hbrk Hfit.
  unfold create_pool, MemoryPool.construct, MemoryPool.expand_pool,
    MemoryPool.locked, lock_guard, malloc.
  fold (class_config size flags).
  cbn [fst snd MemoryPool.pool_mutex MemoryPool.set_pool_mutex
       MemoryPool.config MemoryPool.free_list MemoryPool.allocated_blocks
       MemoryPool.allocated_count MemoryPool.total_allocated class_config
       block_size].
  destruct (Z.leb_spec
    (sys_brk (snd s) + wrap64 (size + MemoryPool.sizeof_PoolBlock))
    (sys_limit (snd s))); [|lia].
  destruct (Z.eqb_spec (sys_brk (snd s)) nullptr); [contradiction|].
  reflexivity.
Qed.

Lemma construct_runs (config : MemoryPoolConfig) (m : Mem) :
  0 < sys_brk m ->
  sys_brk m + 16448 <= sys_limit m ->
  exists g m',
    construct config m = Returns g m' /\
    pool_index_map g = constructed_table /\
    memory_pools g =
      [built_pool (class_config 64 config) (sys_brk m);
       built_pool (class_config 128 config) (sys_brk m + 80);
       built_pool (class_config 256 config) (sys_brk m + 224);
       built_pool (class_config 512 config) (sys_brk m + 496);
       built_pool (class_config 1024 config) (sys_brk m + 1024);
       built_pool (class_config 2048 config) (sys_brk m + 2064);
       built_pool (class_config 4096 config) (sys_brk m + 4128);
       built_pool (class_config 8192 config) (sys_brk m + 8240)] /\
    (forall pool, pool ∈ memory_pools g ->
       load_next (MemoryPool.free_list pool) m' = Some nullptr) /\
    default_config g = config /\
    allocated_blocks g = ∅ /\
    metrics g = zero_metrics /\
    tracking_mutex g = false /\
    corruption_detector_enabled g = enable_corruption_detection config /\
    sys_brk m' = sys_brk m + 16448 /\
    bytes m' = bytes m.
Proof.
  intros Hbrk Hfit.
  assert (Hslab : forall n, In n common_sizes ->
            wrap64 (n + MemoryPool.sizeof_PoolBlock) = n + 16 /\
            align16 (Z.max (n + 16) 1) = n + 16).
  { intros n Hn. cbn in Hn.
    repeat (destruct Hn as [<-|Hn]; [split; reflexivity|]). contradiction. }
  unfold construct, common_sizes. cbn [construct_pools]. unfold bind.
  repeat
    (rewrite create_pool_runs;
     [ repeat match goal with
              | |- context [wrap64 (?n + MemoryPool.sizeof_PoolBlock)] =>
                  rewrite (proj1 (Hslab n ltac:(cbn; tauto)))
              end;
       repeat match goal with
              | |- context [align16 (Z.max (?n + 16) 1)] =>
                  rewrite (proj2 (Hslab n ltac:(cbn; tauto)))
              end;
       unfold push_pool, store_next, set_links, set_sys_brk, set_sys_blocks,
         set_pool_index_map, set_memory_pools;
       cbn [fst snd sys_brk sys_limit sys_blocks links bytes memory_pools
            pool_index_map default_config allocated_blocks metrics
            tracking_mutex corruption_detector_enabled app length
            umap_assign Nat.sub Z.eqb Pos.eqb]
     | cbn [fst snd sys_brk]; unfold nullptr; lia
     | match goal with
       | |- context [wrap64 (?n + MemoryPool.sizeof_PoolBlock)] =>
           rewrite (proj1 (Hslab n ltac:(cbn; tauto)))
       end;
       cbn [fst snd sys_brk sys_limit]; lia ]).
  unfold ret.
  do 2 eexists. split; [reflexivity|].
  cbn [fst snd sys_brk sys_limit memory_pools pool_index_map default_config
       allocated_blocks metrics tracking_mutex corruption_detector_enabled
       links bytes].
  replace (sys_brk m + (64 + 16)) with (sys_brk m + 80) by lia.
  replace (sys_brk m + 80 + (128 + 16)) with (sys_brk m + 224) by lia.
  replace (sys_brk m + 224 + (256 + 16)) with (sys_brk m + 496) by lia.
  replace (sys_brk m + 496 + (512 + 16)) with (sys_brk m + 1024) by lia.
  replace (sys_brk m + 1024 + (1024 + 16)) with (sys_brk m + 2064) by lia.
  replace (sys_brk m + 2064 + (2048 + 16)) with (sys_brk m + 4128) by lia.
  replace (sys_brk m + 4128 + (4096 + 16)) with (sys_brk m + 8240) by lia.
  replace (sys_brk m + 8240 + (8192 + 16)) with (sys_brk m + 16448) by lia.
  split; [reflexivity|].
  split; [reflexivity|].
  split.
  { intros pool Hin. unfold load_next. cbn [links].
    repeat (apply elem_of_cons in Hin as [->|Hin];
            [cbn [built_pool MemoryPool.free_list];
             repeat first [rewrite lookup_insert_eq; reflexivity
                          |rewrite lookup_insert_ne by lia]|]).
    inversion Hin. }
  repeat split.
Qed.

(** X2.  In a process whose arena starts above address zero and has
    16448 bytes left, the constructor returns a manager with exactly the
    eight classes 64, 128, ..., 8192: the table maps each size to the
    index of a pool of that block size carrying the flags of the
    configuration, every pool owns one slab whose only block is free
    (its [next] is null), the tracker is empty, all counters are zero and
    no mutex is held.  The payload bytes are untouched. *)
Theorem constructor_builds_eight_classes
    (config : MemoryPoolConfig) (m : Mem) :
  0 < sys_brk m ->
  sys_brk m + 16448 <= sys_limit m ->
  exists g m',
    construct config m = Returns g m' /\
    pool_index_map g = constructed_table /\
    memory_pools g =
      [built_pool (class_config 64 config) (sys_brk m);
       built_pool (class_config 128 config) (sys_brk m + 80);
       built_pool (class_config 256 config) (sys_brk m + 224);
       built_pool (class_config 512 config) (sys_brk m + 496);
       built_pool (class_config 1024 config) (sys_brk m + 1024);
       built_pool (class_config 2048 config) (sys_brk m + 2064);
       built_pool (class_config 4096 config) (sys_brk m + 4128);
       built_pool (class_config 8192 config) (sys_brk m + 8240)] /\
    (forall pool, pool ∈ memory_pools g ->
       load_next (MemoryPool.free_list pool) m' = Some nullptr) /\
    default_config g = config /\
    allocated_blocks g = ∅ /\
    metrics g = zero_metrics /\
    tracking_mutex g = false /\
    corruption_detector_enabled g = enable_corruption_detection config /\
    sys_brk m' = sys_brk m + 16448 /\
    bytes m' = bytes m.
Proof. apply construct_runs. Qed.

Lemma constructor_builds_eight_classes_witness :
  exists g m',
    construct default_MemoryPoolConfig boot = Returns g m' /\
    pool_index_map g = constructed_table /\
    length (memory_pools g) = 8%nat /\
    sys_brk m' = 20544.
Proof.
  destruct (constructor_builds_eight_classes default_MemoryPoolConfig boot)
    as (g & m' & Hrun & Htable & Hpools & _ & _ & _ & _ & _ & _ & Hbrk & _).
  - vm_compute. reflexivity.
  - vm_compute. discriminate.
  - exists g, m'. split; [exact Hrun|]. split; [exact Htable|].
    split; [now rewrite Hpools|exact Hbrk].
Defined.

(** ** Size classes stay as they are *)

Lemma keeps_compose {S B C A} (f : S -> B) (h : B -> C) (c : M S A) :
  keeps f c -> keeps (fun s => h (f s)) c.
Proof.
  intros H s. specialize (H s). destruct (c s); auto; now rewrite H.
Qed.

Lemma keeps_classes_at_pool {A} idx (op : M MemoryPool.St A) :
  (forall p m,
     match op (p, m) with
     | Returns _ ps | Throws ps => MemoryPool.config (fst ps) = MemoryPool.config p
     | _ => True
     end) ->
  keeps classes (at_pool idx op).
Proof.
  intros Hop s. unfold at_pool.
  destruct (memory_pools (fst s) !! idx) as [pool|] eqn:E; [|exact I].
  specialize (Hop pool (snd s)).
  destruct (op (pool, snd s)) as [a1 [p' m']|[p' m']| |]; try exact I;
    cbn [fst] in Hop; unfold classes;
    cbn [fst pool_index_map memory_pools set_memory_pools];
    rewrite list_fmap_insert, Hop, list_insert_id;
    try reflexivity; now rewrite list_lookup_fmap, E.
Qed.

Lemma pool_allocate_config p m :
  match MemoryPool.allocate (p, m) with
  | Returns _ ps | Throws ps => MemoryPool.config (fst ps) = MemoryPool.config p
  | _ => True
  end.
Proof.
  destruct (MemoryPool.allocate (p, m)) as [a [p' m']|[p' m']| |] eqn:E;
    try exact I.
  - apply pool_allocate_returns in E as (_ & _ & _ & next & _ & [= -> _]).
    reflexivity.
  - unfold MemoryPool.allocate, MemoryPool.locked, lock_guard in E.
    cbn [fst] in E. destruct (MemoryPool.pool_mutex p) eqn:Hm;
      [discriminate|].
    unfold bind, MemoryPool.set_pool_mutex in E.
    cbn [fst snd MemoryPool.free_list] in E.
    destruct (MemoryPool.free_list p =? nullptr).
    + rewrite expand_pool_under_lock in E by reflexivity. discriminate.
    + cbn [fst snd MemoryPool.free_list] in E.
      destruct (load_next _ _); discriminate.
Qed.

Lemma pool_deallocate_config ptr p m :
  match MemoryPool.deallocate ptr (p, m) with
  | Returns _ ps | Throws ps => MemoryPool.config (fst ps) = MemoryPool.config p
  | _ => True
  end.
Proof.
  unfold MemoryPool.deallocate. destruct (ptr =? nullptr); [reflexivity|].
  unfold MemoryPool.locked, lock_guard. cbn [fst].
  destruct (MemoryPool.pool_mutex p); [exact I|reflexivity].
Qed.

Lemma keeps_classes_track_allocation ptr size file line :
  keeps classes (track_allocation ptr size file line).
Proof.
  unfold track_allocation, tracking_locked.
  apply keeps_lock_guard; [intros b s; reflexivity|].
  apply keeps_modify. intros s. reflexivity.
Qed.

Lemma keeps_classes_track_deallocation ptr :
  keeps classes (track_deallocation ptr).
Proof.
  unfold track_deallocation, tracking_locked.
  apply keeps_lock_guard; [intros b s; reflexivity|].
  apply keeps_modify. intros s. reflexivity.
Qed.

Lemma keeps_classes_update_performance_metrics bytes b :
  keeps classes (update_performance_metrics bytes b).
Proof. apply keeps_modify. intros s. destruct b; reflexivity. Qed.

#[local] Hint Resolve keeps_classes_track_allocation
  keeps_classes_track_deallocation keeps_classes_update_performance_metrics
  : frames.

Lemma keeps_classes_deallocate ptr : keeps classes (deallocate ptr).
Proof.
  unfold deallocate. destruct (ptr =? nullptr); [apply keeps_ret|].
  apply keeps_bind; [apply keeps_get|]. intros s0.
  apply keeps_bind.
  { destruct (find_pool _ _ _); [|apply keeps_ret].
    apply keeps_classes_at_pool. intros p m. apply pool_deallocate_config. }
  intros _. apply keeps_bind; [auto with frames|]. intros _.
  apply keeps_when. apply keeps_bind; [apply keeps_get|]. intros s1.
  destruct (_ !! _); auto with frames.
Qed.

(** What [allocate] does once the pool is chosen. *)
Lemma keeps_classes_allocate_from idx size file line :
  keeps classes
    (call ptr <- at_pool idx MemoryPool.allocate;
     call s <- get;
     exec when (enable_leak_detection (default_config (fst s)))
               (track_allocation ptr size file line);
     exec when (enable_performance_monitoring (default_config (fst s)))
               (update_performance_metrics size true);
     ret ptr).
Proof.
  apply keeps_bind.
  { apply keeps_classes_at_pool. intros p m. apply pool_allocate_config. }
  intros ptr. apply keeps_bind; [apply keeps_get|]. intros s0.
  repeat (apply keeps_bind; [auto with frames|intros _]).
  apply keeps_ret.
Qed.

Lemma table_in_range_selects size s :
  table_in_range (fst s) ->
  get_or_create_pool size s = Returns (get_pool_index size (fst s)) s.
Proof.
  intros [Hne Hall]. apply get_or_create_pool_selects.
  apply get_pool_index_in_range; [|exact Hall].
  destruct (memory_pools (fst s)); [contradiction|cbn; lia].
Qed.

Lemma allocate_classes size file line s :
  table_in_range (fst s) ->
  match allocate size file line s with
  | Returns _ s' | Throws s' => classes s' = classes s
  | _ => True
  end.
Proof.
  intros Hin. unfold allocate. unfold bind at 1.
  rewrite table_in_range_selects by exact Hin.
  apply (keeps_classes_allocate_from (get_pool_index size (fst s))).
Qed.

Lemma classes_table_in_range s s' :
  classes s' = classes s -> table_in_range (fst s) -> table_in_range (fst s').
Proof.
  unfold classes. intros [= Hmap Hcfg] [Hne Hall].
  assert (Hlen : length (memory_pools (fst s'))
                 = length (memory_pools (fst s)))
    by (rewrite <- (length_fmap MemoryPool.config), Hcfg;
        apply length_fmap).
  split.
  - intros E. rewrite E in Hlen. destruct (memory_pools (fst s));
      [contradiction|discriminate].
  - rewrite Hmap, Hlen. exact Hall.
Qed.

Lemma reallocate_classes ptr new_size file line s :
  table_in_range (fst s) ->
  match reallocate ptr new_size file line s with
  | Returns _ s' | Throws s' => classes s' = classes s
  | _ => True
  end.
Proof.
  intros Hin. unfold reallocate.
  destruct (ptr =? nullptr); [now apply allocate_classes|].
  destruct (new_size =? 0).
  { apply (keeps_bind classes); [apply keeps_classes_deallocate|].
    intros _. apply keeps_ret. }
  unfold bind at 1, get.
  destruct (allocated_blocks (fst s) !! ptr) as [it|].
  - destruct (new_size <=? MemoryBlock.size it); [reflexivity|].
    unfold bind at 1.
    pose proof (allocate_classes new_size file line s Hin) as Ha.
    destruct (allocate new_size file line s) as [q s1|s1| |];
      try exact Ha; try exact I.
    rewrite <- Ha.
    apply (keeps_bind classes).
    + destruct (q =? nullptr); [apply keeps_ret|].
      apply keeps_bind; [apply keeps_copy_block; reflexivity|].
      intros _. apply keeps_classes_deallocate.
    + intros _. apply keeps_ret.
  - destruct (realloc ptr new_size (snd s)) as [[q m']|]; [|exact I].
    assert (Hk : keeps classes
              (exec modify (fun s0 : St => (fst s0, m'));
               exec (if q =? nullptr then ret tt
                     else track_allocation q new_size file line);
               ret q)).
    { apply keeps_bind; [apply keeps_modify; intros s0; reflexivity|].
      intros _. apply keeps_bind;
        [destruct (q =? nullptr); auto with frames|].
      intros _. apply keeps_ret. }
    apply Hk.
Qed.

(** X3.  In a manager whose table only holds indices of existing pools
    (as its constructor leaves it), [allocate], [deallocate] and
    [reallocate] never add, remove or re-size a size class: the table and
    the configuration of every pool are the same afterwards, so every
    request keeps being routed to the same pool. *)
Theorem size_classes_are_fixed (s : St) :
  table_in_range (fst s) ->
  (forall n file line p s',
     allocate n file line s = Returns p s' ->
     classes s' = classes s /\ table_in_range (fst s')) /\
  (forall ptr s',
     deallocate ptr s = Returns tt s' ->
     classes s' = classes s /\ table_in_range (fst s')) /\
  (forall ptr n file line q s',
     reallocate ptr n file line s = Returns q s' ->
     classes s' = classes s /\ table_in_range (fst s')).
Proof.
  intros Hin. split; [|split].
  - intros n file line p s' H.
    pose proof (allocate_classes n file line s Hin) as Hc. rewrite H in Hc.
    split; [exact Hc|]. exact (classes_table_in_range _ _ Hc Hin).
  - intros ptr s' H.
    pose proof (keeps_classes_deallocate ptr s) as Hc. rewrite H in Hc.
    split; [exact Hc|]. exact (classes_table_in_range _ _ Hc Hin).
  - intros ptr n file line q s' H.
    pose proof (reallocate_classes ptr n file line s Hin) as Hc.
    rewrite H in Hc.
    split; [exact Hc|]. exact (classes_table_in_range _ _ Hc Hin).
Qed.

Lemma fresh_table_in_range : table_in_range (fst fresh_state).
Proof.
  split; [vm_compute; discriminate|].
  replace (pool_index_map (fst fresh_state)) with constructed_table
    by (vm_compute; reflexivity).
  replace (length (memory_pools (fst fresh_state))) with 8%nat
    by (vm_compute; reflexivity).
  unfold constructed_table. intros k v Hin.
  repeat (apply elem_of_cons in Hin as [[= -> ->]|Hin]; [lia|]).
  inversion Hin.
Qed.

Lemma size_classes_are_fixed_witness :
  classes (state_of (allocate 1000000 None 0 fresh_state))
    = classes fresh_state /\
  classes (state_of (deallocate 4104 holding_64)) = classes holding_64 /\
  classes (state_of (reallocate 4104 200 None 0 holding_64))
    = classes holding_64.
Proof.
  split; [|split].
  - apply (proj1 (size_classes_are_fixed fresh_state fresh_table_in_range)
             1000000 None 0 12344).
    vm_compute. reflexivity.
  - assert (Hin : table_in_range (fst holding_64)).
    { apply (classes_table_in_range fresh_state);
        [vm_compute; reflexivity|exact fresh_table_in_range]. }
    apply (proj1 (proj2 (size_classes_are_fixed holding_64 Hin)) 4104).
    vm_compute. reflexivity.
  - assert (Hin : table_in_range (fst holding_64)).
    { apply (classes_table_in_range fresh_state);
        [vm_compute; reflexivity|exact fresh_table_in_range]. }
    apply (proj2 (proj2 (size_classes_are_fixed holding_64 Hin))
             4104 200 None 0 4328).
    vm_compute. reflexivity.
Defined.

(** ** Invariants through calls *)

Section Preservation.

Context {S : Type} (P : S -> Prop).

Lemma preserves_ret {A} (a : A) : preserves P (ret (S:=S) a).
Proof. intros s H. exact H. Qed.

Lemma preserves_get : preserves P (get (S:=S)).
Proof. intros s H. exact H. Qed.

Lemma preserves_bind {A C} (c : M S A) (k : A -> M S C) :
  preserves P c -> (forall a, preserves P (k a)) -> preserves P (bind c k).
Proof.
  intros Hc Hk s H. unfold bind. specialize (Hc s H).
  destruct (c s) as [a s1|s1| |]; auto. exact (Hk a s1 Hc).
Qed.

Lemma preserves_when (b : bool) (c : M S unit) :
  preserves P c -> preserves P (when b c).
Proof. destruct b; [auto|intros _; apply preserves_ret]. Qed.

Lemma preserves_modify (h : S -> S) :
  (forall s, P s -> P (h s)) -> preserves P (modify h).
Proof. intros H s Hs. now apply H. Qed.

Lemma preserves_lock_guard {A} held set_held (body : M S A) :
  (forall b s, P s -> P (set_held b s)) ->
  preserves P body -> preserves P (lock_guard held set_held body).
Proof.
  intros Hset Hbody s H. unfold lock_guard. destruct (held s); [exact I|].
  specialize (Hbody (set_held true s) (Hset true s H)).
  destruct (body (set_held true s)); auto.
Qed.

Lemma keeps_preserves {A B} (f : S -> B) (c : M S A) :
  (forall s s', f s' = f s -> P s -> P s') ->
  keeps f c -> preserves P c.
Proof.
  intros Hf Hk s H. specialize (Hk s). destruct (c s); eauto.
Qed.

End Preservation.

Lemma preserves_copy_block (P : St -> Prop) dst src n :
  (forall s m', P s -> P (fst s, m')) -> preserves P (copy_block dst src n).
Proof.
  intros H s Hs. unfold copy_block.
  destruct (memcpy dst src n (snd s)); [now apply H|exact I].
Qed.

Lemma balanced_ledger s s' : ledger s' = ledger s -> balanced s -> balanced s'.
Proof.
  intros L. apply ledger_eq in L as (_ & _ & _ & M). unfold balanced.
  now rewrite M.
Qed.

Lemma preserves_balanced_update bytes b :
  preserves balanced (update_performance_metrics bytes b).
Proof.
  apply preserves_modify. intros [g m]. unfold balanced, on_mgr.
  cbn [fst]. intros H.
  destruct b; cbn [metrics set_metrics current_memory_usage
    total_bytes_allocated total_bytes_deallocated]; rewrite H;
    unfold wrap64.
  - rewrite Zplus_mod_idemp_l, Zminus_mod_idemp_l. f_equal. lia.
  - rewrite Zminus_mod_idemp_l, Zminus_mod_idemp_r. f_equal. lia.
Qed.

Lemma preserves_balanced_track_allocation ptr size file line :
  preserves balanced (track_allocation ptr size file line).
Proof.
  unfold track_allocation, tracking_locked.
  apply preserves_lock_guard; [intros b [g m] H; exact H|].
  apply preserves_modify. intros [g m] H. exact H.
Qed.

Lemma preserves_balanced_track_deallocation ptr :
  preserves balanced (track_deallocation ptr).
Proof.
  unfold track_deallocation, tracking_locked.
  apply preserves_lock_guard; [intros b [g m] H; exact H|].
  apply preserves_modify. intros [g m] H. exact H.
Qed.

Lemma preserves_balanced_at_pool {A} idx (op : M MemoryPool.St A) :
  preserves balanced (at_pool idx op).
Proof.
  apply (keeps_preserves balanced ledger); [apply balanced_ledger|].
  apply keeps_ledger_at_pool.
Qed.

Lemma preserves_balanced_allocate size file line :
  preserves balanced (allocate size file line).
Proof.
  unfold allocate. apply preserves_bind.
  { apply (keeps_preserves balanced ledger); [apply balanced_ledger|].
    apply get_or_create_pool_frames. }
  intros idx. apply preserves_bind; [apply preserves_balanced_at_pool|].
  intros ptr. apply preserves_bind; [apply preserves_get|]. intros s0.
  apply preserves_bind;
    [apply preserves_when, preserves_balanced_track_allocation|]. intros _.
  apply preserves_bind;
    [apply preserves_when, preserves_balanced_update|]. intros _.
  apply preserves_ret.
Qed.

Lemma preserves_balanced_deallocate ptr :
  preserves balanced (deallocate ptr).
Proof.
  unfold deallocate. destruct (ptr =? nullptr); [apply preserves_ret|].
  apply preserves_bind; [apply preserves_get|]. intros s0.
  apply preserves_bind.
  { destruct (find_pool _ _ _);
      [apply preserves_balanced_at_pool|apply preserves_ret]. }
  intros _. apply preserves_bind;
    [apply preserves_when, preserves_balanced_track_deallocation|]. intros _.
  apply preserves_when. apply preserves_bind; [apply preserves_get|].
  intros s1. destruct (_ !! _);
    [apply preserves_balanced_update|apply preserves_ret].
Qed.

Lemma preserves_balanced_reallocate ptr new_size file line :
  preserves balanced (reallocate ptr new_size file line).
Proof.
  unfold reallocate.
  destruct (ptr =? nullptr); [apply preserves_balanced_allocate|].
  destruct (new_size =? 0).
  { apply preserves_bind; [apply preserves_balanced_deallocate|].
    intros _. apply preserves_ret. }
  apply preserves_bind; [apply preserves_get|]. intros s0.
  destruct (allocated_blocks (fst s0) !! ptr) as [it|].
  - destruct (new_size <=? MemoryBlock.size it); [apply preserves_ret|].
    apply preserves_bind; [apply preserves_balanced_allocate|]. intros q.
    apply preserves_bind; [|intros _; apply preserves_ret].
    destruct (q =? nullptr); [apply preserves_ret|].
    apply preserves_bind;
      [apply preserves_copy_block; intros [g m] m' H; exact H|].
    intros _. apply preserves_balanced_deallocate.
  - destruct (realloc ptr new_size (snd s0)) as [[q m']|];
      [|intros s H; exact I].
    apply preserves_bind;
      [apply preserves_modify; intros [g m] H; exact H|]. intros _.
    apply preserves_bind; [|intros _; apply preserves_ret].
    destruct (q =? nullptr);
      [apply preserves_ret|apply preserves_balanced_track_allocation].
Qed.

Lemma construct_ledger config m g m' :
  construct config m = Returns g m' ->
  default_config g = config /\ allocated_blocks g = ∅ /\
  tracking_mutex g = false /\ metrics g = zero_metrics.
Proof.
  unfold construct.
  set (g0 := mk config [] [] ∅ false zero_metrics
               (enable_corruption_detection config)).
  assert (Hk : keeps ledger (construct_pools config common_sizes)).
  { induction common_sizes as [|size sizes IH]; [apply keeps_ret|].
    cbn [construct_pools]. apply keeps_bind; [apply create_pool_frames|].
    intros _. exact IH. }
  specialize (Hk (g0, m)).
  destruct (construct_pools config common_sizes (g0, m))
    as [[] [g1 m1]|[g1 m1]| |]; try discriminate.
  intros [= <- <-]. apply ledger_eq in Hk as (C & B & T & Mt).
  cbn [fst] in *. auto.
Qed.

(** X4.  [current_usage] is at every moment
    [total_allocated - total_deallocated] as a [uint64_t]: this holds for
    the manager the constructor returns and [allocate], [deallocate] and
    [reallocate] keep it, whether they return or throw and whatever
    pointer they are given. *)
Theorem usage_is_allocated_minus_deallocated :
  (forall config m g m',
     construct config m = Returns g m' -> balanced (g, m')) /\
  (forall n file line, preserves balanced (allocate n file line)) /\
  (forall ptr, preserves balanced (deallocate ptr)) /\
  (forall ptr n file line, preserves balanced (reallocate ptr n file line)).
Proof.
  split; [|split; [|split]].
  - intros config m g m' H. apply construct_ledger in H as (_ & _ & _ & Mt).
    unfold balanced. cbn [fst]. rewrite Mt. reflexivity.
  - apply preserves_balanced_allocate.
  - apply preserves_balanced_deallocate.
  - apply preserves_balanced_reallocate.
Qed.

Lemma usage_is_allocated_minus_deallocated_witness :
  balanced fresh_state /\
  balanced (state_of (allocate 100 None 0 fresh_state)) /\
  balanced (state_of ((exec deallocate 4104; deallocate 4104) holding_64)) /\
  balanced (state_of (reallocate 4104 200 None 0 holding_64)).
Proof.
  destruct usage_is_allocated_minus_deallocated as (Hc & Ha & Hd & Hr).
  assert (H0 : balanced fresh_state).
  { rewrite (surjective_pairing fresh_state).
    apply (Hc default_MemoryPoolConfig boot (fst fresh_state)
              (snd fresh_state)).
    vm_compute. reflexivity. }
  assert (E64 : allocate 64 None 0 fresh_state = Returns 4104 holding_64)
    by (vm_compute; reflexivity).
  assert (H64 : balanced holding_64).
  { pose proof (Ha 64 None 0 fresh_state H0) as H. rewrite E64 in H.
    exact H. }
  split; [exact H0|]. split; [|split].
  - assert (E : allocate 100 None 0 fresh_state
                = Returns 4184 (state_of (allocate 100 None 0 fresh_state)))
      by (vm_compute; reflexivity).
    pose proof (Ha 100 None 0 fresh_state H0) as H. rewrite E in H. exact H.
  - assert (E : (exec deallocate 4104; deallocate 4104) holding_64
                = Returns tt (state_of ((exec deallocate 4104;
                                         deallocate 4104) holding_64)))
      by (vm_compute; reflexivity).
    pose proof (preserves_bind balanced (deallocate 4104)
                  (fun _ => deallocate 4104) (Hd 4104) (fun _ => Hd 4104)
                  holding_64 H64) as H.
    rewrite E in H. exact H.
  - assert (E : reallocate 4104 200 None 0 holding_64
                = Returns 4328 (state_of (reallocate 4104 200 None 0
                                            holding_64)))
      by (vm_compute; reflexivity).
    pose proof (Hr 4104 200 None 0 holding_64 H64) as H.
    rewrite E in H. exact H.
Defined.

(** ** Validation *)

Lemma validate_blocks_true g blocks :
  validate_blocks g blocks = true <->
  forall b, b ∈ blocks -> MemoryBlock.is_freed b = false ->
    validate_memory_integrity (MemoryBlock.ptr b) (MemoryBlock.size b) g = true.
Proof.
  induction blocks as [|b blocks IH]; cbn [validate_blocks].
  - split; [intros _ b Hin; inversion Hin|reflexivity].
  - destruct (MemoryBlock.is_freed b) eqn:Hb; cbn [negb].
    + rewrite IH. split.
      * intros H c Hin Hc. apply elem_of_cons in Hin as [->|Hin];
          [congruence|auto].
      * intros H c Hin. apply H, elem_of_cons. now right.
    + destruct (validate_memory_integrity _ _ g) eqn:Hv; cbn [negb].
      * rewrite IH. split.
        -- intros H c Hin Hc. apply elem_of_cons in Hin as [->|Hin]; auto.
        -- intros H c Hin. apply H, elem_of_cons. now right.
      * split; [discriminate|]. intros H.
        rewrite <- Hv. apply H; [apply elem_of_cons; now left|exact Hb].
Qed.

Lemma validate_blocks_detector g g' blocks :
  corruption_detector_enabled g = corruption_detector_enabled g' ->
  validate_blocks g blocks = validate_blocks g' blocks.
Proof.
  intros H. induction blocks as [|b blocks IH]; cbn [validate_blocks];
    [reflexivity|].
  unfold validate_memory_integrity. now rewrite H, IH.
Qed.

Lemma validate_all_memory_runs s :
  tracking_mutex (fst s) = false ->
  validate_all_memory s =
  Returns
    (if negb (corruption_detector_enabled (fst s)) then true
     else validate_blocks (fst s)
            (snd <$> map_to_list (allocated_blocks (fst s))))
    s.
Proof.
  destruct s as [[cfg pools idx blocks mtx mt cd] m].
  cbn [fst tracking_mutex]. intros ->. unfold validate_all_memory.
  cbn [fst corruption_detector_enabled]. destruct cd; [|reflexivity].
  unfold tracking_locked, lock_guard, on_mgr, set_tracking_mutex.
  cbn [fst snd negb tracking_mutex default_config memory_pools pool_index_map
       allocated_blocks metrics corruption_detector_enabled].
  f_equal. now apply validate_blocks_detector.
Qed.

(** X5.  [validate_all_memory] never changes the state.  It answers
    [true] exactly when corruption detection is switched off, or every
    tracked block that is not freed has a non-null pointer and a size
    above zero; freed blocks are not looked at. *)
Theorem validate_all_memory_checks_unfreed_blocks (s : St) :
  tracking_mutex (fst s) = false ->
  exists ok,
    validate_all_memory s = Returns ok s /\
    (ok = true <->
     corruption_detector_enabled (fst s) = false \/
     forall p b, allocated_blocks (fst s) !! p = Some b ->
       MemoryBlock.is_freed b = false ->
       MemoryBlock.ptr b <> nullptr /\ 0 < MemoryBlock.size b).
Proof.
  intros Hm. eexists. split; [apply validate_all_memory_runs; exact Hm|].
  destruct (corruption_detector_enabled (fst s)) eqn:Hcd; cbn [negb].
  - rewrite validate_blocks_true. split.
    + intros H. right. intros p b Hp Hb.
      specialize (H b). unfold validate_memory_integrity in H.
      rewrite Hcd in H. cbn [negb] in H.
      assert (Hin : b ∈ snd <$> map_to_list (allocated_blocks (fst s))).
      { apply list_elem_of_fmap. exists (p, b). split; [reflexivity|].
        now apply elem_of_map_to_list. }
      specialize (H Hin Hb). apply andb_true_iff in H as [H1 H2].
      split; [|lia].
      destruct (Z.eqb_spec (MemoryBlock.ptr b) nullptr); [discriminate|auto].
    + intros [H|H]; [discriminate|]. intros b Hin Hb.
      apply list_elem_of_fmap in Hin as ([p b'] & -> & Hin).
      apply elem_of_map_to_list in Hin. cbn [snd] in *.
      destruct (H p b' Hin Hb) as [Hp Hs].
      unfold validate_memory_integrity. rewrite Hcd. cbn [negb].
      apply andb_true_iff. split; [|lia].
      destruct (Z.eqb_spec (MemoryBlock.ptr b') nullptr);
        [contradiction|reflexivity].
  - split; [intros _; now left|reflexivity].
Qed.

Lemma validate_all_memory_checks_unfreed_blocks_witness :
  exists ok,
    validate_all_memory holding_64 = Returns ok holding_64 /\
    (ok = true <->
     corruption_detector_enabled (fst holding_64) = false \/
     forall p b, allocated_blocks (fst holding_64) !! p = Some b ->
       MemoryBlock.is_freed b = false ->
       MemoryBlock.ptr b <> nullptr /\ 0 < MemoryBlock.size b).
Proof.
  apply (validate_all_memory_checks_unfreed_blocks holding_64).
  vm_compute. reflexivity.
Defined.

Lemma allocate_takes_tracker_lock size file line s p s' :
  enable_leak_detection (default_config (fst s)) = true ->
  allocate size file line s = Returns p s' ->
  tracking_mutex (fst s) = false.
Proof.
  intros Hleak H. unfold allocate in H.
  apply bind_returns in H as (idx & s1 & Hpool & H).
  apply bind_returns in H as (ptr & s2 & Hpop & H).
  apply bind_returns in H as (s2' & s2'' & Hget & H).
  unfold get in Hget. injection Hget as <- <-.
  apply bind_returns in H as ([] & s3 & Htrack & _).
  pose proof (keeps_returns ledger _ _ _ _
                (proj1 (get_or_create_pool_frames size)) Hpool) as L1.
  pose proof (keeps_returns ledger _ _ _ _
                (keeps_ledger_at_pool idx MemoryPool.allocate) Hpop) as L2.
  apply ledger_eq in L1 as (C1 & _ & T1 & _).
  apply ledger_eq in L2 as (C2 & _ & T2 & _).
  rewrite C2, C1, Hleak in Htrack. cbn [when] in Htrack.
  apply track_allocation_returns in Htrack as [Hm _]. congruence.
Qed.

Lemma keeps_detector_allocate size file line :
  keeps (fun s : St => corruption_detector_enabled (fst s))
        (allocate size file line).
Proof.
  pose (h := fun l : MemoryPoolConfig * gmap Z MemoryBlock.t * bool
                     * PerformanceMetrics * bool => snd l).
  unfold allocate.
  apply keeps_bind.
  { apply (keeps_compose ledger h), get_or_create_pool_frames. }
  intros idx. apply keeps_bind.
  { apply (keeps_compose ledger h), keeps_ledger_at_pool. }
  intros ptr. apply keeps_bind; [apply keeps_get|]. intros s0.
  apply keeps_bind.
  { apply keeps_when. unfold track_allocation, tracking_locked.
    apply keeps_lock_guard; [intros b s; reflexivity|].
    apply keeps_modify. intros s. reflexivity. }
  intros _. apply keeps_bind.
  { apply keeps_when, keeps_modify. intros s. reflexivity. }
  intros _. apply keeps_ret.
Qed.

(** X6.  A request of zero bytes is served like any other (a block of
    the 64-byte class in the constructed manager) and tracked with the
    size 0; with corruption detection on, [validate_all_memory] answers
    [false] from then on, as long as that block is not freed. *)
Theorem zero_size_allocation_fails_validation
    (s : St) (file : option string) (line : Z) (p : Z) (s' : St) :
  enable_leak_detection (default_config (fst s)) = true ->
  corruption_detector_enabled (fst s) = true ->
  allocate 0 file line s = Returns p s' ->
  allocated_blocks (fst s') !! p = Some (new_record p 0 file line) /\
  validate_all_memory s' = Returns false s'.
Proof.
  intros Hleak Hcd H.
  pose proof (allocate_takes_tracker_lock _ _ _ _ _ _ Hleak H) as Hm.
  pose proof (keeps_returns _ _ _ _ _
                (keeps_detector_allocate 0 file line) H) as Hcd'.
  cbn beta in Hcd'. rewrite Hcd in Hcd'.
  apply allocate_returns in H
    as (idx & s1 & pool & next & _ & _ & _ & _ & _ & _ & _ & T & B & _).
  rewrite Hleak in B.
  assert (Hrec : allocated_blocks (fst s') !! p
                 = Some (new_record p 0 file line))
    by (rewrite B; apply lookup_insert_eq).
  split; [exact Hrec|].
  rewrite validate_all_memory_runs by congruence.
  rewrite Hcd'. cbn [negb]. f_equal.
  destruct (validate_blocks (fst s') _) eqn:Hv; [|reflexivity].
  rewrite validate_blocks_true in Hv.
  specialize (Hv (new_record p 0 file line)).
  unfold validate_memory_integrity in Hv. rewrite Hcd' in Hv.
  cbn [negb new_record MemoryBlock.ptr MemoryBlock.size MemoryBlock.is_freed]
    in Hv.
  rewrite andb_false_r in Hv. symmetry. apply Hv; [|reflexivity].
  apply list_elem_of_fmap. exists (p, new_record p 0 file line).
  split; [reflexivity|]. now apply elem_of_map_to_list.
Qed.

Lemma zero_size_allocation_fails_validation_witness :
  allocated_blocks (fst (state_of (allocate 0 None 0 fresh_state))) !! 4104
    = Some (new_record 4104 0 None 0) /\
  validate_all_memory (state_of (allocate 0 None 0 fresh_state))
    = Returns false (state_of (allocate 0 None 0 fresh_state)).
Proof.
  apply (zero_size_allocation_fails_validation fresh_state None 0 4104);
    vm_compute; reflexivity.
Defined.

(** ** The tracker never forgets *)

Lemma size_alter {A} (f : A -> A) (k : Z) (m : gmap Z A) :
  size (alter f k m) = size m.
Proof.
  rewrite <- !(size_dom (D:=gset Z)). now rewrite dom_alter_L.
Qed.

Lemma deallocate_null s : deallocate nullptr s = Returns tt s.
Proof. reflexivity. Qed.

(** X7.  [active_allocations] of [get_memory_stats] is the number of
    records in the tracker, freed ones included.  [deallocate] never
    lowers it and never removes a record; [allocate] with leak detection
    raises it by one when the returned pointer had no record and leaves
    it alone when the pointer is one the tracker already knows. *)
Theorem active_allocations_counts_freed_records (s : St) :
  (forall ptr s',
     deallocate ptr s = Returns tt s' ->
     active_allocations (get_memory_stats (fst s'))
       = active_allocations (get_memory_stats (fst s)) /\
     dom (allocated_blocks (fst s')) = dom (allocated_blocks (fst s))) /\
  (forall n file line p s',
     enable_leak_detection (default_config (fst s)) = true ->
     allocate n file line s = Returns p s' ->
     active_allocations (get_memory_stats (fst s'))
       = match allocated_blocks (fst s) !! p with
         | Some _ => active_allocations (get_memory_stats (fst s))
         | None => active_allocations (get_memory_stats (fst s)) + 1
         end).
Proof.
  split.
  - intros ptr s' H.
    destruct (Z.eq_dec ptr nullptr) as [->|Hptr].
    { rewrite deallocate_null in H. injection H as <-. auto. }
    apply (deallocate_returns _ _ _ Hptr) in H as (_ & B & _).
    unfold get_memory_stats. cbn [active_allocations]. rewrite B.
    destruct (enable_leak_detection _); [|auto].
    rewrite size_alter, dom_alter_L. auto.
  - intros n file line p s' Hleak H.
    apply allocate_returns in H
      as (idx & s1 & pool & next & _ & _ & _ & _ & _ & _ & _ & _ & B & _).
    rewrite Hleak in B.
    unfold get_memory_stats. cbn [active_allocations]. rewrite B.
    destruct (allocated_blocks (fst s) !! p) as [it|] eqn:E.
    + rewrite map_size_insert_Some by (now exists it). reflexivity.
    + rewrite map_size_insert_None by exact E. lia.
Qed.

Lemma active_allocations_counts_freed_records_witness :
  active_allocations
    (get_memory_stats (fst (state_of (deallocate 4104 holding_64)))) = 1 /\
  active_allocations
    (get_memory_stats (fst (state_of (allocate 64 None 0 fresh_state)))) = 1.
Proof.
  destruct (active_allocations_counts_freed_records holding_64)
    as [Hfree _].
  destruct (active_allocations_counts_freed_records fresh_state)
    as [_ Halloc].
  split.
  - rewrite (proj1 (Hfree 4104 (state_of (deallocate 4104 holding_64))
                      ltac:(vm_compute; reflexivity))).
    vm_compute. reflexivity.
  - rewrite (Halloc 64 None 0 4104 (state_of (allocate 64 None 0 fresh_state))
               ltac:(vm_compute; reflexivity)
               ltac:(vm_compute; reflexivity)).
    vm_compute. reflexivity.
Defined.

Lemma get_allocation_history_runs s :
  tracking_mutex (fst s) = false ->
  get_allocation_history s =
  Returns (snd <$> map_to_list (allocated_blocks (fst s))) s.
Proof.
  destruct s as [[cfg pools idx blocks mtx mt cd] m].
  cbn [fst tracking_mutex]. intros ->. reflexivity.
Qed.

(** X8.  [get_allocation_history] returns every record of the tracker,
    freed or not, without changing the state; there are
    [active_allocations] of them, and the leaks [detect_leaks] reports
    are exactly the records of the history whose [is_freed] flag is
    false, in the same order. *)
Theorem allocation_history_holds_every_record (s : St) :
  tracking_mutex (fst s) = false ->
  exists history report,
    get_allocation_history s = Returns history s /\
    detect_leaks s = Returns report s /\
    Z.of_nat (length history)
      = active_allocations (get_memory_stats (fst s)) /\
    (forall b, b ∈ history <->
               exists p, allocated_blocks (fst s) !! p = Some b) /\
    leaks report
      = filter (fun b => MemoryBlock.is_freed b = false) history.
Proof.
  intros Hm. do 2 eexists.
  split; [apply get_allocation_history_runs; exact Hm|].
  split; [apply detect_leaks_runs; exact Hm|].
  split; [|split].
  - rewrite length_fmap, length_map_to_list. reflexivity.
  - intros b. rewrite list_elem_of_fmap. split.
    + intros ([p b'] & -> & Hin). apply elem_of_map_to_list in Hin.
      now exists p.
    + intros (p & Hp). exists (p, b). split; [reflexivity|].
      now apply elem_of_map_to_list.
  - rewrite scan_from_nothing. reflexivity.
Qed.

Lemma allocation_history_holds_every_record_witness :
  exists history report,
    get_allocation_history holding_64 = Returns history holding_64 /\
    detect_leaks holding_64 = Returns report holding_64 /\
    Z.of_nat (length history)
      = active_allocations (get_memory_stats (fst holding_64)) /\
    (forall b, b ∈ history <->
               exists p, allocated_blocks (fst holding_64) !! p = Some b) /\
    leaks report
      = filter (fun b => MemoryBlock.is_freed b = false) history.
Proof.
  apply (allocation_history_holds_every_record holding_64).
  vm_compute. reflexivity.
Defined.

Lemma deallocate_untracked ptr s :
  allocated_blocks (fst s) !! ptr = None ->
  tracking_mutex (fst s) = false ->
  deallocate ptr s = Returns tt s.
Proof.
  intros Hnone Hfree. unfold deallocate.
  destruct (Z.eqb_spec ptr nullptr); [reflexivity|].
  unfold bind, get. rewrite (find_pool_untracked _ _ _ Hnone).
  unfold ret at 1. unfold when.
  destruct (enable_leak_detection (default_config (fst s)));
    [rewrite (track_deallocation_untracked _ _ Hnone Hfree)|unfold ret at 1];
    (destruct (enable_performance_monitoring (default_config (fst s)));
     [now rewrite Hnone|reflexivity]).
Qed.

Lemma clear_tracking_runs s :
  tracking_mutex (fst s) = false ->
  clear_tracking s = Returns tt (set_allocated_blocks ∅ (fst s), snd s).
Proof.
  destruct s as [[cfg pools idx blocks mtx mt cd] m].
  cbn [fst tracking_mutex]. intros ->. reflexivity.
Qed.

(** X9.  [clear_tracking] empties the tracker and touches nothing else:
    no pool gets a block back and the usage counters stay.  Afterwards
    [detect_leaks] reports nothing, [active_allocations] is zero, and
    [deallocate] of any pointer, also of one handed out before and never
    given back, is a no-op. *)
Theorem clear_tracking_forgets_live_blocks (s : St) :
  tracking_mutex (fst s) = false ->
  exists s1,
    clear_tracking s = Returns tt s1 /\
    allocated_blocks (fst s1) = ∅ /\
    memory_pools (fst s1) = memory_pools (fst s) /\
    metrics (fst s1) = metrics (fst s) /\
    snd s1 = snd s /\
    active_allocations (get_memory_stats (fst s1)) = 0 /\
    detect_leaks s1 = Returns (mkReport 0 0 []) s1 /\
    forall ptr, deallocate ptr s1 = Returns tt s1.
Proof.
  intros Hm. eexists. split; [apply clear_tracking_runs; exact Hm|].
  cbn [fst snd allocated_blocks set_allocated_blocks memory_pools metrics].
  assert (Hm1 : tracking_mutex
                  (fst (set_allocated_blocks ∅ (fst s), snd s)) = false)
    by (destruct s as [[] ?]; exact Hm).
  repeat split.
  - rewrite detect_leaks_runs by exact Hm1. cbn [fst allocated_blocks
      set_allocated_blocks]. now rewrite map_to_list_empty.
  - intros ptr. apply deallocate_untracked; [apply lookup_empty|exact Hm1].
Qed.

Lemma clear_tracking_forgets_live_blocks_witness :
  exists s1,
    clear_tracking holding_64 = Returns tt s1 /\
    allocated_blocks (fst s1) = ∅ /\
    memory_pools (fst s1) = memory_pools (fst holding_64) /\
    metrics (fst s1) = metrics (fst holding_64) /\
    snd s1 = snd holding_64 /\
    active_allocations (get_memory_stats (fst s1)) = 0 /\
    detect_leaks s1 = Returns (mkReport 0 0 []) s1 /\
    forall ptr, deallocate ptr s1 = Returns tt s1.
Proof.
  apply (clear_tracking_forgets_live_blocks holding_64).
  vm_compute. reflexivity.
Defined.

(** ** When [allocate] and [deallocate] return *)

Lemma get_pool_index_table n g g' :
  pool_index_map g' = pool_index_map g ->
  get_pool_index n g' = get_pool_index n g.
Proof. intros H. unfold get_pool_index. now rewrite H. Qed.

Lemma pool_allocate_runs pool m next :
  MemoryPool.pool_mutex pool = false ->
  MemoryPool.free_list pool <> nullptr ->
  load_next (MemoryPool.free_list pool) m = Some next ->
  MemoryPool.allocate (pool, m) =
  Returns (MemoryPool.free_list pool + MemoryPool.offsetof_data)
          (popped pool next, m).
Proof.
  intros Hm Hne Hnext.
  unfold MemoryPool.allocate, MemoryPool.locked, lock_guard. cbn [fst snd].
  rewrite Hm. unfold bind, MemoryPool.set_pool_mutex.
  cbn [fst snd MemoryPool.free_list].
  destruct (Z.eqb_spec (MemoryPool.free_list pool) nullptr); [contradiction|].
  cbn [fst snd MemoryPool.free_list MemoryPool.allocated_blocks
       MemoryPool.config MemoryPool.allocated_count MemoryPool.total_allocated
       MemoryPool.pool_mutex].
  rewrite Hnext. reflexivity.
Qed.

Lemma allocate_runs n file line s head next :
  serves s n head next ->
  (get_pool_index n (fst s) < length (memory_pools (fst s)))%nat /\
  exists pool s',
    memory_pools (fst s) !! get_pool_index n (fst s) = Some pool /\
    allocate n file line s = Returns (head + MemoryPool.offsetof_data) s' /\
    memory_pools (fst s')
      = <[get_pool_index n (fst s) := popped pool next]>
          (memory_pools (fst s)) /\
    pool_index_map (fst s') = pool_index_map (fst s) /\
    tracking_mutex (fst s') = false /\
    snd s' = snd s.
Proof.
  intros (pool & Hlook & Hm & Hhead & Hne & Hnext & Ht).
  assert (Hlt : (get_pool_index n (fst s)
                 < length (memory_pools (fst s)))%nat)
    by (apply lookup_lt_is_Some; now exists pool).
  split; [exact Hlt|]. exists pool. subst head.
  unfold allocate. unfold bind at 1.
  rewrite get_or_create_pool_selects by exact Hlt.
  unfold bind at 1, at_pool. rewrite Hlook.
  rewrite (pool_allocate_runs _ _ _ Hm Hne Hnext).
  unfold bind at 1, get.
  cbn [fst snd default_config set_memory_pools].
  destruct s as [[cfg pools idx blocks mtx mt cd] m].
  cbn [fst snd tracking_mutex memory_pools pool_index_map default_config
       allocated_blocks metrics corruption_detector_enabled] in *.
  subst mtx.
  destruct (enable_leak_detection cfg), (enable_performance_monitoring cfg);
    eexists; (split; [reflexivity|]); (split; [reflexivity|]);
    repeat split.
Qed.

Lemma find_pool_tracked g ptr pools it :
  pools <> [] ->
  allocated_blocks g !! ptr = Some it ->
  find_pool g ptr pools =
  if (get_pool_index (MemoryBlock.size it) g <? length (memory_pools g))%nat
  then Some (get_pool_index (MemoryBlock.size it) g) else None.
Proof.
  intros Hne Hit. destruct pools as [|p pools]; [contradiction|].
  cbn [find_pool]. now rewrite Hit.
Qed.

Lemma deallocate_runs ptr s it pool :
  ptr <> nullptr ->
  allocated_blocks (fst s) !! ptr = Some it ->
  memory_pools (fst s) !! get_pool_index (MemoryBlock.size it) (fst s)
    = Some pool ->
  MemoryPool.pool_mutex pool = false ->
  tracking_mutex (fst s) = false ->
  exists s',
    deallocate ptr s = Returns tt s' /\
    memory_pools (fst s')
      = <[get_pool_index (MemoryBlock.size it) (fst s) := pushed pool ptr]>
          (memory_pools (fst s)) /\
    pool_index_map (fst s') = pool_index_map (fst s) /\
    tracking_mutex (fst s') = false /\
    snd s' = store_next (ptr - MemoryPool.offsetof_data)
               (MemoryPool.free_list pool) (snd s) /\
    exists it',
      allocated_blocks (fst s') !! ptr = Some it' /\
      MemoryBlock.size it' = MemoryBlock.size it.
Proof.
  intros Hptr Hit Hlook Hm Ht.
  assert (Hlt : (get_pool_index (MemoryBlock.size it) (fst s)
                 < length (memory_pools (fst s)))%nat)
    by (apply lookup_lt_is_Some; now exists pool).
  unfold deallocate. destruct (Z.eqb_spec ptr nullptr); [contradiction|].
  unfold bind at 1, get.
  assert (Hne : memory_pools (fst s) <> [])
    by (intros E; rewrite E in Hlt; cbn in Hlt; lia).
  rewrite (find_pool_tracked _ _ _ it Hne Hit).
  destruct (Nat.ltb_spec (get_pool_index (MemoryBlock.size it) (fst s))
              (length (memory_pools (fst s)))); [|lia].
  unfold bind at 1, at_pool. rewrite Hlook.
  rewrite (pool_deallocate_returns _ _ _ Hptr Hm).
  fold (pushed pool ptr).
  set (i := get_pool_index (MemoryBlock.size it) (fst s)) in *.
  clearbody i.
  destruct s as [[cfg pools idx blocks mtx mt cd] m].
  cbn [fst snd tracking_mutex memory_pools pool_index_map default_config
       allocated_blocks metrics corruption_detector_enabled] in *.
  subst mtx.
  destruct (enable_leak_detection cfg) eqn:Hleak,
           (enable_performance_monitoring cfg) eqn:Hperf;
    unfold bind, when, track_deallocation, tracking_locked, lock_guard,
      modify, on_mgr, get, ret, update_performance_metrics,
      set_memory_pools, set_allocated_blocks, set_tracking_mutex, set_metrics;
    cbn [fst snd tracking_mutex memory_pools pool_index_map default_config
         allocated_blocks metrics corruption_detector_enabled];
    rewrite ?lookup_alter, ?decide_True by reflexivity;
    rewrite ?Hit; cbn [fmap option_fmap option_map];
    eexists; (split; [reflexivity|]);
    cbn [fst snd tracking_mutex memory_pools pool_index_map default_config
         allocated_blocks metrics corruption_detector_enabled];
    repeat split;
    unfold on_mgr;
    cbn [fst snd tracking_mutex memory_pools pool_index_map default_config
         allocated_blocks metrics corruption_detector_enabled];
    first [ exists it; split; [exact Hit|reflexivity]
          | exists (MemoryBlock.mark_freed it);
            split; [|reflexivity];
            rewrite lookup_alter, decide_True by reflexivity;
            now rewrite Hit ].
Qed.

Lemma allocate_hangs n file line s pool :
  memory_pools (fst s) !! get_pool_index n (fst s) = Some pool ->
  MemoryPool.free_list pool = nullptr ->
  allocate n file line s = Deadlocks.
Proof.
  intros Hlook Hempty.
  assert (Hlt : (get_pool_index n (fst s)
                 < length (memory_pools (fst s)))%nat)
    by (apply lookup_lt_is_Some; now exists pool).
  unfold allocate. unfold bind at 1.
  rewrite get_or_create_pool_selects by exact Hlt.
  unfold bind at 1, at_pool. rewrite Hlook.
  now rewrite allocate_on_empty_free_list.
Qed.

(** X10.  Whether [allocate(n)] returns is decided by the free list of
    the one pool its size is routed to: if that list is empty the call
    hangs (also when other pools have free blocks), otherwise it returns
    the payload address of the head block, makes the head's [next] the
    new head, and leaves the memory and the size classes untouched. *)
Theorem allocate_pops_the_head_or_hangs
    (s : St) (n : Z) (file : option string) (line : Z) :
  (forall pool,
     memory_pools (fst s) !! get_pool_index n (fst s) = Some pool ->
     MemoryPool.free_list pool = nullptr ->
     allocate n file line s = Deadlocks) /\
  (forall head next,
     serves s n head next ->
     exists pool s',
       memory_pools (fst s) !! get_pool_index n (fst s) = Some pool /\
       allocate n file line s
         = Returns (head + MemoryPool.offsetof_data) s' /\
       memory_pools (fst s')
         = <[get_pool_index n (fst s) := popped pool next]>
             (memory_pools (fst s)) /\
       pool_index_map (fst s') = pool_index_map (fst s) /\
       tracking_mutex (fst s') = false /\
       snd s' = snd s).
Proof.
  split.
  - intros pool. apply allocate_hangs.
  - intros head next H. now apply allocate_runs.
Qed.

Lemma fresh_state_serves_100 : serves fresh_state 100 4176 nullptr.
Proof.
  exists (built_pool (class_config 128 default_MemoryPoolConfig) 4176).
  repeat split; try (vm_compute; reflexivity). vm_compute. discriminate.
Qed.

Lemma allocate_pops_the_head_or_hangs_witness :
  allocate 64 None 0 holding_64 = Deadlocks /\
  exists pool s',
    memory_pools (fst fresh_state) !! get_pool_index 100 (fst fresh_state)
      = Some pool /\
    allocate 100 None 0 fresh_state
      = Returns (4176 + MemoryPool.offsetof_data) s' /\
    memory_pools (fst s')
      = <[get_pool_index 100 (fst fresh_state) := popped pool nullptr]>
          (memory_pools (fst fresh_state)) /\
    pool_index_map (fst s') = pool_index_map (fst fresh_state) /\
    tracking_mutex (fst s') = false /\
    snd s' = snd fresh_state.
Proof.
  split.
  - apply (proj1 (allocate_pops_the_head_or_hangs holding_64 64 None 0)
             (popped (built_pool (class_config 64 default_MemoryPoolConfig)
                        4096) nullptr));
      vm_compute; reflexivity.
  - apply (proj2 (allocate_pops_the_head_or_hangs fresh_state 100 None 0)).
    exact fresh_state_serves_100.
Defined.

(** ** The free list is a stack *)

Lemma store_next_same block v m :
  load_next block m = Some v -> store_next block v m = m.
Proof.
  unfold load_next, store_next, set_links. intros H. destruct m.
  cbn [links] in *. f_equal. now apply insert_id.
Qed.

(** X11.  A pool's free list is a stack.  Giving back the pointer
    [MemoryPool::allocate] just returned restores the head of the free
    list, every block header and [allocated_count]; only
    [total_allocated] keeps the bytes of the allocation.  And the pointer
    given to [MemoryPool::deallocate] is the one the next
    [MemoryPool::allocate] returns, which puts the old head back. *)
Theorem pool_free_list_is_a_stack (pool : MemoryPool.t) (m : Mem) :
  (forall a s1,
     0 <= MemoryPool.free_list pool ->
     MemoryPool.allocate (pool, m) = Returns a s1 ->
     exists pool2,
       MemoryPool.deallocate a s1 = Returns tt (pool2, m) /\
       MemoryPool.free_list pool2 = MemoryPool.free_list pool /\
       MemoryPool.allocated_count pool2
         = wrap64 (MemoryPool.allocated_count pool) /\
       MemoryPool.total_allocated pool2
         = wrap64 (MemoryPool.total_allocated pool
                   + block_size (MemoryPool.config pool)) /\
       MemoryPool.allocated_blocks pool2 = MemoryPool.allocated_blocks pool /\
       MemoryPool.config pool2 = MemoryPool.config pool) /\
  (forall ptr,
     ptr <> nullptr -> ptr <> MemoryPool.offsetof_data ->
     MemoryPool.pool_mutex pool = false ->
     exists s1 pool2,
       MemoryPool.deallocate ptr (pool, m) = Returns tt s1 /\
       MemoryPool.allocate s1
         = Returns ptr
             (pool2,
              store_next (ptr - MemoryPool.offsetof_data)
                (MemoryPool.free_list pool) m) /\
       MemoryPool.free_list pool2 = MemoryPool.free_list pool /\
       MemoryPool.allocated_count pool2
         = wrap64 (MemoryPool.allocated_count pool)).
Proof.
  split.
  - intros a s1 Hfl H.
    apply pool_allocate_returns in H as (Hm & Hne & -> & next & Hnext & ->).
    eexists. split.
    + rewrite pool_deallocate_returns;
        [|unfold nullptr, MemoryPool.offsetof_data in *; lia|reflexivity].
      cbn [MemoryPool.free_list MemoryPool.allocated_blocks MemoryPool.config
           MemoryPool.allocated_count MemoryPool.total_allocated].
      replace (MemoryPool.free_list pool + MemoryPool.offsetof_data
               - MemoryPool.offsetof_data)
        with (MemoryPool.free_list pool) by lia.
      rewrite (store_next_same _ _ _ Hnext). reflexivity.
    + cbn [MemoryPool.free_list MemoryPool.allocated_blocks MemoryPool.config
           MemoryPool.allocated_count MemoryPool.total_allocated].
      repeat split. unfold wrap64. rewrite Zminus_mod_idemp_l.
      f_equal. lia.
  - intros ptr Hptr Hptr8 Hm. do 2 eexists.
    split; [apply pool_deallocate_returns; assumption|].
    split; [|split].
    + rewrite (pool_allocate_runs _ _ (MemoryPool.free_list pool)).
      * cbn [MemoryPool.free_list]. f_equal. lia.
      * reflexivity.
      * cbn [MemoryPool.free_list]. unfold nullptr. lia.
      * cbn [MemoryPool.free_list]. unfold load_next, store_next, set_links.
        cbn [links]. apply lookup_insert_eq.
    + reflexivity.
    + cbn [popped MemoryPool.allocated_count]. unfold wrap64.
      rewrite Zplus_mod_idemp_l. f_equal. lia.
Qed.

Lemma pool_free_list_is_a_stack_witness :
  (exists pool2,
     MemoryPool.deallocate 4104
       (popped (built_pool default_MemoryPoolConfig 4096) nullptr,
        store_next 4096 nullptr boot)
     = Returns tt (pool2, store_next 4096 nullptr boot) /\
     MemoryPool.free_list pool2 = 4096 /\
     MemoryPool.allocated_count pool2 = wrap64 0 /\
     MemoryPool.total_allocated pool2 = wrap64 (0 + 4096) /\
     MemoryPool.allocated_blocks pool2 = [4096] /\
     MemoryPool.config pool2 = default_MemoryPoolConfig) /\
  (exists s1 pool2,
     MemoryPool.deallocate 4104
       (popped (built_pool default_MemoryPoolConfig 4096) nullptr,
        store_next 4096 nullptr boot) = Returns tt s1 /\
     MemoryPool.allocate s1
       = Returns 4104
           (pool2,
            store_next (4104 - MemoryPool.offsetof_data) nullptr
              (store_next 4096 nullptr boot)) /\
     MemoryPool.free_list pool2 = nullptr /\
     MemoryPool.allocated_count pool2 = wrap64 (wrap64 (0 + 1))).
Proof.
  split.
  - apply (proj1 (pool_free_list_is_a_stack
                    (built_pool default_MemoryPoolConfig 4096)
                    (store_next 4096 nullptr boot)) 4104
             (popped (built_pool default_MemoryPoolConfig 4096) nullptr,
              store_next 4096 nullptr boot)).
    + vm_compute. discriminate.
    + vm_compute. reflexivity.
  - apply (proj2 (pool_free_list_is_a_stack
                    (popped (built_pool default_MemoryPoolConfig 4096) nullptr)
                    (store_next 4096 nullptr boot)) 4104);
      [discriminate|discriminate|reflexivity].
Defined.

(** ** Reuse of freed blocks *)

Lemma deallocate_then_serves ptr s it pool :
  ptr <> nullptr -> ptr <> MemoryPool.offsetof_data ->
  allocated_blocks (fst s) !! ptr = Some it ->
  memory_pools (fst s) !! get_pool_index (MemoryBlock.size it) (fst s)
    = Some pool ->
  MemoryPool.pool_mutex pool = false ->
  tracking_mutex (fst s) = false ->
  exists s1 it1,
    deallocate ptr s = Returns tt s1 /\
    serves s1 (MemoryBlock.size it) (ptr - MemoryPool.offsetof_data)
           (MemoryPool.free_list pool) /\
    allocated_blocks (fst s1) !! ptr = Some it1 /\
    MemoryBlock.size it1 = MemoryBlock.size it /\
    memory_pools (fst s1) !! get_pool_index (MemoryBlock.size it) (fst s1)
      = Some (pushed pool ptr).
Proof.
  intros Hptr Hptr8 Hit Hlook Hm Ht.
  destruct (deallocate_runs _ _ _ _ Hptr Hit Hlook Hm Ht)
    as (s1 & Hrun & Hpools & Htable & Ht1 & Hmem & it1 & Hit1 & Hsize).
  assert (Hlt : (get_pool_index (MemoryBlock.size it) (fst s)
                 < length (memory_pools (fst s)))%nat)
    by (apply lookup_lt_is_Some; now exists pool).
  assert (Hlook1 : memory_pools (fst s1)
                     !! get_pool_index (MemoryBlock.size it) (fst s1)
                   = Some (pushed pool ptr)).
  { rewrite (get_pool_index_table _ _ _ Htable), Hpools.
    now apply list_lookup_insert_eq. }
  exists s1, it1. split; [exact Hrun|]. split; [|auto].
  exists (pushed pool ptr). split; [exact Hlook1|].
  split; [reflexivity|]. split; [reflexivity|].
  split; [unfold nullptr, MemoryPool.offsetof_data in *; lia|].
  split; [|exact Ht1].
  rewrite Hmem. unfold load_next, store_next, set_links. cbn [links].
  apply lookup_insert_eq.
Qed.

(** X12.  A block that is given back is the next one handed out: after
    [deallocate(ptr)] of a tracked pointer, [allocate] of the size the
    pointer was tracked with returns, and returns [ptr] again. *)
Theorem freed_block_is_reused_first
    (ptr : Z) (s : St) (it : MemoryBlock.t) (pool : MemoryPool.t)
    (file : option string) (line : Z) :
  ptr <> nullptr -> ptr <> MemoryPool.offsetof_data ->
  allocated_blocks (fst s) !! ptr = Some it ->
  memory_pools (fst s) !! get_pool_index (MemoryBlock.size it) (fst s)
    = Some pool ->
  MemoryPool.pool_mutex pool = false ->
  tracking_mutex (fst s) = false ->
  exists s1 s2,
    deallocate ptr s = Returns tt s1 /\
    allocate (MemoryBlock.size it) file line s1 = Returns ptr s2.
Proof.
  intros Hptr Hptr8 Hit Hlook Hm Ht.
  destruct (deallocate_then_serves _ _ _ _ Hptr Hptr8 Hit Hlook Hm Ht)
    as (s1 & it1 & Hrun & Hserves & _).
  destruct (allocate_runs (MemoryBlock.size it) file line _ _ _ Hserves)
    as (_ & pool1 & s2 & _ & Halloc & _).
  exists s1, s2. split; [exact Hrun|].
  rewrite Halloc. f_equal. lia.
Qed.

Lemma freed_block_is_reused_first_witness :
  exists s1 s2,
    deallocate 4104 holding_64 = Returns tt s1 /\
    allocate (MemoryBlock.size (new_record 4104 64 None 0)) None 0 s1
      = Returns 4104 s2.
Proof.
  apply (freed_block_is_reused_first 4104 holding_64
           (new_record 4104 64 None 0)
           (popped (built_pool (class_config 64 default_MemoryPoolConfig)
                      4096) nullptr));
    try discriminate; vm_compute; reflexivity.
Defined.

Lemma allocate_from_a_loop n file line s h :
  serves s n h h ->
  exists s',
    allocate n file line s = Returns (h + MemoryPool.offsetof_data) s' /\
    serves s' n h h.
Proof.
  intros Hs.
  destruct (allocate_runs n file line _ _ _ Hs)
    as (Hlt & pool & s' & Hlook & Halloc & Hpools & Htable & Ht & Hmem).
  exists s'. split; [exact Halloc|].
  destruct Hs as (pool0 & Hlook0 & Hm0 & Hh0 & Hne & Hnext & _).
  exists (popped pool h). split.
  { rewrite (get_pool_index_table _ _ _ Htable), Hpools.
    now apply list_lookup_insert_eq. }
  split; [reflexivity|]. split; [reflexivity|]. split; [exact Hne|].
  split; [now rewrite Hmem|exact Ht].
Qed.

Lemma allocations_from_a_loop k n s h :
  serves s n h h ->
  exists s',
    allocations k n s
      = Returns (replicate k (h + MemoryPool.offsetof_data)) s' /\
    serves s' n h h.
Proof.
  revert s. induction k as [|k IH]; intros s Hs.
  - exists s. split; [reflexivity|exact Hs].
  - destruct (allocate_from_a_loop n None 0 s h Hs) as (s1 & Ha & Hs1).
    destruct (IH s1 Hs1) as (s2 & Hk & Hs2).
    exists s2. split; [|exact Hs2].
    cbn [allocations replicate]. unfold bind. rewrite Ha, Hk. reflexivity.
Qed.

(** X13.  After a pointer has been deallocated twice, the free list of
    its pool is a cycle of one block: every later [allocate] of that
    size returns, and returns that same pointer, however many are made
    and although none of them is given back. *)
Theorem double_free_hands_one_block_to_everyone
    (ptr : Z) (s : St) (it : MemoryBlock.t) (pool : MemoryPool.t) (k : nat) :
  ptr <> nullptr -> ptr <> MemoryPool.offsetof_data ->
  allocated_blocks (fst s) !! ptr = Some it ->
  memory_pools (fst s) !! get_pool_index (MemoryBlock.size it) (fst s)
    = Some pool ->
  MemoryPool.pool_mutex pool = false ->
  tracking_mutex (fst s) = false ->
  exists s2 s3,
    (exec deallocate ptr; deallocate ptr) s = Returns tt s2 /\
    load_next (ptr - MemoryPool.offsetof_data) (snd s2)
      = Some (ptr - MemoryPool.offsetof_data) /\
    allocations k (MemoryBlock.size it) s2 = Returns (replicate k ptr) s3.
Proof.
  intros Hptr Hptr8 Hit Hlook Hm Ht.
  destruct (deallocate_then_serves _ _ _ _ Hptr Hptr8 Hit Hlook Hm Ht)
    as (s1 & it1 & Hrun1 & Hserves1 & Hit1 & Hsize1 & Hlook1).
  destruct Hserves1 as (_ & _ & _ & _ & _ & _ & Ht1).
  rewrite <- Hsize1 in Hlook1.
  destruct (deallocate_then_serves _ _ _ _ Hptr Hptr8 Hit1 Hlook1
              eq_refl Ht1)
    as (s2 & it2 & Hrun2 & Hserves2 & _).
  rewrite Hsize1 in Hserves2. cbn [pushed MemoryPool.free_list] in Hserves2.
  destruct (allocations_from_a_loop k _ _ _ Hserves2) as (s3 & Hk & _).
  exists s2, s3. split; [|split].
  - unfold bind. now rewrite Hrun1.
  - now destruct Hserves2 as (_ & _ & _ & _ & _ & Hloop & _).
  - rewrite Hk. do 2 f_equal. lia.
Qed.

Lemma double_free_hands_one_block_to_everyone_witness :
  exists s2 s3,
    (exec deallocate 4104; deallocate 4104) holding_64 = Returns tt s2 /\
    load_next (4104 - MemoryPool.offsetof_data) (snd s2)
      = Some (4104 - MemoryPool.offsetof_data) /\
    allocations 3 (MemoryBlock.size (new_record 4104 64 None 0)) s2
      = Returns (replicate 3 4104) s3.
Proof.
  apply (double_free_hands_one_block_to_everyone 4104 holding_64
           (new_record 4104 64 None 0)
           (popped (built_pool (class_config 64 default_MemoryPoolConfig)
                      4096) nullptr));
    try discriminate; vm_compute; reflexivity.
Defined.

(** ** Accounting of a growing [reallocate] *)

(** X14.  When [reallocate] moves a tracked block to a larger one (leak
    detection on, the new pointer different from the old), the old
    pointer's record is marked freed, the new pointer gets an unfreed
    record of the new size, and with monitoring on [current_usage]
    changes by [new_size - old_size] as a [uint64_t]. *)
Theorem reallocate_grow_accounts_the_difference
    (ptr new_size : Z) (file : option string) (line : Z) (s : St)
    (it : MemoryBlock.t) (q : Z) (s1 : St) (r : Z) (s2 : St) :
  enable_leak_detection (default_config (fst s)) = true ->
  ptr <> nullptr -> new_size <> 0 ->
  allocated_blocks (fst s) !! ptr = Some it ->
  MemoryBlock.size it < new_size ->
  allocate new_size file line s = Returns q s1 ->
  q <> nullptr -> q <> ptr ->
  reallocate ptr new_size file line s = Returns r s2 ->
  r = q /\
  allocated_blocks (fst s2) !! q = Some (new_record q new_size file line) /\
  allocated_blocks (fst s2) !! ptr = Some (MemoryBlock.mark_freed it) /\
  usage s2 =
    if enable_performance_monitoring (default_config (fst s))
    then wrap64 (usage s + new_size - MemoryBlock.size it) else usage s.
Proof.
  intros Hleak Hptr Hsize Hit Hlt Halloc Hq Hqp Hrun.
  rewrite (reallocate_tracked _ _ _ _ _ _ Hptr Hsize Hit) in Hrun.
  destruct (Z.leb_spec new_size (MemoryBlock.size it)); [lia|].
  unfold bind at 1 in Hrun. rewrite Halloc in Hrun.
  destruct (Z.eqb_spec q nullptr); [contradiction|].
  apply bind_returns in Hrun as ([] & s2' & Hfree & Hret).
  unfold ret in Hret. injection Hret as <- <-.
  split; [reflexivity|].
  apply bind_returns in Hfree as ([] & sm & Hcopy & Hfree).
  apply copy_block_returns in Hcopy as [_ Hsm].
  apply allocate_returns in Halloc
    as (idx & s0 & pool & next & _ & _ & _ & _ & _ & _ & C1 & _ & B1 & U1).
  rewrite Hleak in B1.
  apply (deallocate_returns _ _ _ Hptr) in Hfree as (_ & B2 & U2).
  assert (Hum : usage sm = usage s1) by (unfold usage; now rewrite Hsm).
  rewrite Hsm in B2, U2. rewrite Hum in U2.
  rewrite C1, Hleak, B1 in B2.
  rewrite C1, B1, lookup_insert_ne, Hit in U2 by exact Hqp.
  split; [|split].
  - rewrite B2, lookup_alter_ne by congruence. apply lookup_insert_eq.
  - rewrite B2, lookup_alter, decide_True by reflexivity.
    rewrite lookup_insert_ne by exact Hqp. now rewrite Hit.
  - rewrite U2, U1.
    destruct (enable_performance_monitoring _); [|reflexivity].
    unfold wrap64. rewrite Zminus_mod_idemp_l. reflexivity.
Qed.

Lemma reallocate_grow_accounts_the_difference_witness :
  4328 = 4328 /\
  allocated_blocks (fst (state_of (reallocate 4104 200 None 0 holding_64)))
    !! 4328 = Some (new_record 4328 200 None 0) /\
  allocated_blocks (fst (state_of (reallocate 4104 200 None 0 holding_64)))
    !! 4104 = Some (MemoryBlock.mark_freed (new_record 4104 64 None 0)) /\
  usage (state_of (reallocate 4104 200 None 0 holding_64)) =
    if enable_performance_monitoring (default_config (fst holding_64))
    then wrap64 (usage holding_64 + 200
                 - MemoryBlock.size (new_record 4104 64 None 0))
    else usage holding_64.
Proof.
  apply (reallocate_grow_accounts_the_difference 4104 200 None 0 holding_64
           (new_record 4104 64 None 0) 4328
           (state_of (allocate 200 None 0 holding_64)) 4328
           (state_of (reallocate 4104 200 None 0 holding_64)));
    try discriminate; vm_compute; reflexivity.
Defined.

(** ** The peak *)

Lemma allocate_metrics size file line s p s' :
  allocate size file line s = Returns p s' ->
  metrics (fst s') =
  if enable_performance_monitoring (default_config (fst s)) then
    let x := metrics (fst s) in
    let current := wrap64 (current_memory_usage x + size) in
    mkMetrics (wrap64 (total_allocations x + 1)) (total_deallocations x)
      (wrap64 (total_bytes_allocated x + size)) (total_bytes_deallocated x)
      (if current >? peak_memory_usage x then current
       else peak_memory_usage x)
      current
  else metrics (fst s).
Proof.
  unfold allocate. intros H.
  apply bind_returns in H as (idx & s1 & Hpool & H).
  apply bind_returns in H as (ptr & s2 & Hpop & H).
  apply bind_returns in H as (s2' & s2'' & Hget & H).
  unfold get in Hget. injection Hget as <- <-.
  apply bind_returns in H as ([] & s3 & Htrack & H).
  apply bind_returns in H as ([] & s4 & Hcharge & H).
  unfold ret in H. injection H as <- <-.
  pose proof (keeps_returns ledger _ _ _ _
                (proj1 (get_or_create_pool_frames size)) Hpool) as L1.
  pose proof (keeps_returns ledger _ _ _ _
                (keeps_ledger_at_pool idx MemoryPool.allocate) Hpop) as L2.
  apply ledger_eq in L1 as (C1 & _ & _ & M1).
  apply ledger_eq in L2 as (C2 & _ & _ & M2).
  assert (M3 : metrics (fst s3) = metrics (fst s)).
  { apply when_returns in Htrack as [[_ Htrack]|[_ ->]]; [|congruence].
    apply track_allocation_returns in Htrack as (_ & ->).
    cbn [fst set_allocated_blocks metrics]. congruence. }
  rewrite C2, C1 in Hcharge.
  apply when_returns in Hcharge as [[-> Hcharge]|[-> ->]]; [|exact M3].
  unfold update_performance_metrics, modify in Hcharge.
  injection Hcharge as <-. unfold on_mgr. cbn [fst metrics set_metrics].
  now rewrite M3.
Qed.

Lemma keeps_peak_deallocate ptr :
  keeps (fun s : St => peak_memory_usage (metrics (fst s))) (deallocate ptr).
Proof.
  pose (h := fun l : MemoryPoolConfig * gmap Z MemoryBlock.t * bool
                     * PerformanceMetrics * bool =>
               peak_memory_usage (snd (fst l))).
  unfold deallocate. destruct (ptr =? nullptr); [apply keeps_ret|].
  apply keeps_bind; [apply keeps_get|]. intros s0.
  apply keeps_bind.
  { destruct (find_pool _ _ _); [|apply keeps_ret].
    apply (keeps_compose ledger h), keeps_ledger_at_pool. }
  intros _. apply keeps_bind.
  { apply keeps_when. unfold track_deallocation, tracking_locked.
    apply keeps_lock_guard; [intros b s; reflexivity|].
    apply keeps_modify. intros s. reflexivity. }
  intros _. apply keeps_when. apply keeps_bind; [apply keeps_get|].
  intros s1. destruct (_ !! _); [|apply keeps_ret].
  apply keeps_modify. intros s. reflexivity.
Qed.

(** X15.  [peak_usage] only moves in [allocate]: with monitoring on, a
    returning [allocate(n)] makes it the larger of the old peak and the
    new [current_usage] and counts one allocation of [n] bytes, leaving
    the deallocation counters alone; [deallocate] never changes the
    peak. *)
Theorem peak_usage_is_raised_by_allocate_only (s : St) :
  (forall n file line p s',
     enable_performance_monitoring (default_config (fst s)) = true ->
     allocate n file line s = Returns p s' ->
     peak_usage (get_memory_stats (fst s'))
       = Z.max (peak_usage (get_memory_stats (fst s))) (usage s') /\
     usage s' = wrap64 (usage s + n) /\
     total_allocated (get_memory_stats (fst s'))
       = wrap64 (total_allocated (get_memory_stats (fst s)) + n) /\
     total_allocations (metrics (fst s'))
       = wrap64 (total_allocations (metrics (fst s)) + 1) /\
     total_deallocated (get_memory_stats (fst s'))
       = total_deallocated (get_memory_stats (fst s)) /\
     total_deallocations (metrics (fst s'))
       = total_deallocations (metrics (fst s))) /\
  (forall ptr s',
     deallocate ptr s = Returns tt s' ->
     peak_usage (get_memory_stats (fst s'))
       = peak_usage (get_memory_stats (fst s))).
Proof.
  split.
  - intros n file line p s' Hperf H.
    apply allocate_metrics in H. rewrite Hperf in H. cbv zeta in H.
    unfold usage, get_memory_stats.
    cbn [peak_usage current_usage total_allocated total_deallocated].
    rewrite H.
    cbn [peak_memory_usage current_memory_usage total_bytes_allocated
         total_bytes_deallocated total_allocations total_deallocations].
    repeat split.
    destruct (Z.gtb_spec
      (wrap64 (current_memory_usage (metrics (fst s)) + n))
      (peak_memory_usage (metrics (fst s)))); lia.
  - intros ptr s' H.
    exact (keeps_returns _ _ _ _ _ (keeps_peak_deallocate ptr) H).
Qed.

Lemma peak_usage_is_raised_by_allocate_only_witness :
  peak_usage (get_memory_stats
                (fst (state_of (allocate 100 None 0 holding_64))))
    = Z.max (peak_usage (get_memory_stats (fst holding_64)))
            (usage (state_of (allocate 100 None 0 holding_64))) /\
  peak_usage (get_memory_stats (fst (state_of (deallocate 4104 holding_64))))
    = peak_usage (get_memory_stats (fst holding_64)).
Proof.
  destruct (peak_usage_is_raised_by_allocate_only holding_64) as [Ha Hd].
  split.
  - apply (Ha 100 None 0 4184 (state_of (allocate 100 None 0 holding_64)));
      vm_compute; reflexivity.
  - apply (Hd 4104). vm_compute. reflexivity.
Defined.

(** ** Warming the thread cache *)

Lemma allocate_twice_hangs s head file line file' line' :
  serves s 64 head nullptr ->
  exists s',
    allocate 64 file line s = Returns (head + MemoryPool.offsetof_data) s' /\
    allocate 64 file' line' s' = Deadlocks.
Proof.
  intros Hs.
  destruct (allocate_runs 64 file line _ _ _ Hs)
    as (Hlt & pool & s' & Hlook & Halloc & Hpools & Htable & _).
  exists s'. split; [exact Halloc|].
  apply (allocate_hangs _ _ _ _ (popped pool nullptr)); [|reflexivity].
  rewrite (get_pool_index_table _ _ _ Htable), Hpools.
  now apply list_lookup_insert_eq.
Qed.

(** X16.  [warmup_thread_cache(pool_size)] fetches its blocks with
    [allocate(64)].  With [pool_size] zero it returns the cache as it
    was.  When the pool of the 64-byte class holds a single free block,
    as in the manager the constructor builds, [pool_size] one adds that
    block to the cache, and every [pool_size] of two or more hangs in the
    second [allocate]. *)
Theorem warmup_thread_cache_hangs_beyond_one_block
    (s : St) (thread_cache : option (list Z)) (head : Z) :
  warmup_thread_cache 0 thread_cache s
    = Returns (default [] thread_cache) s /\
  (serves s 64 head nullptr ->
   (exists s',
      warmup_thread_cache 1 thread_cache s
      = Returns (default [] thread_cache
                 ++ [head + MemoryPool.offsetof_data]) s') /\
   forall pool_size, 2 <= pool_size ->
     warmup_thread_cache pool_size thread_cache s = Deadlocks).
Proof.
  split; [reflexivity|]. intros Hs.
  destruct (allocate_twice_hangs s head None 0 None 0 Hs)
    as (s' & Hfirst & Hsecond).
  split.
  - exists s'. unfold warmup_thread_cache.
    change (Z.to_nat 1) with 1%nat. cbn [warmup_loop]. unfold bind.
    now rewrite Hfirst.
  - intros pool_size Hsize. unfold warmup_thread_cache.
    destruct (Z.to_nat pool_size) as [|[|k]] eqn:E; [lia|lia|].
    cbn [warmup_loop]. unfold bind. now rewrite Hfirst, Hsecond.
Qed.

Lemma fresh_state_serves_64 : serves fresh_state 64 4096 nullptr.
Proof.
  exists (built_pool (class_config 64 default_MemoryPoolConfig) 4096).
  repeat split; try (vm_compute; reflexivity). vm_compute. discriminate.
Qed.

Lemma warmup_thread_cache_hangs_beyond_one_block_witness :
  (exists s',
     warmup_thread_cache 1 None fresh_state
     = Returns ([] ++ [4096 + MemoryPool.offsetof_data]) s') /\
  warmup_thread_cache 16 None fresh_state = Deadlocks.
Proof.
  destruct (proj2 (warmup_thread_cache_hangs_beyond_one_block
                     fresh_state None 4096) fresh_state_serves_64)
    as [Hone Hmany].
  split; [exact Hone|]. apply Hmany. lia.
Defined.

(** ** Requests between two classes *)

Lemma umap_find_None k l :
  (forall v, (k, v) ∉ l) -> umap_find k l = None.
Proof.
  intros H. destruct (umap_find k l) as [v|] eqn:E; [|reflexivity].
  apply umap_find_Some in E. now apply H in E.
Qed.

Lemma in_constructed_table k v :
  (k, v) ∈ constructed_table ->
  k = 64 /\ v = 0%nat \/ k = 128 /\ v = 1%nat \/ k = 256 /\ v = 2%nat \/
  k = 512 /\ v = 3%nat \/ k = 1024 /\ v = 4%nat \/ k = 2048 /\ v = 5%nat \/
  k = 4096 /\ v = 6%nat \/ k = 8192 /\ v = 7%nat.
Proof.
  unfold constructed_table. intros Hin.
  repeat (apply elem_of_cons in Hin as [[= -> ->]|Hin]; [tauto|]).
  inversion Hin.
Qed.

Lemma nearest_class_of_constructed_table g n c i :
  pool_index_map g ≡ₚ constructed_table ->
  (c, i) ∈ constructed_table ->
  c < n ->
  2 * n < 3 * c \/ c = 8192 /\ n < 2 ^ 64 ->
  get_pool_index n g = i.
Proof.
  intros Hperm Hc Hlow Hhigh.
  change (2 ^ 64) with 18446744073709551616 in Hhigh.
  assert (Hc' : (c, i) ∈ pool_index_map g) by now rewrite Hperm.
  apply in_constructed_table in Hc.
  assert (Hnone : umap_find n (pool_index_map g) = None).
  { apply umap_find_None. intros v Hin. rewrite Hperm in Hin.
    apply in_constructed_table in Hin. clear Hperm Hc'.
    decompose [or and] Hin; clear Hin; subst n v;
      decompose [or and] Hc; clear Hc; subst c i; lia. }
  destruct (get_pool_index_nearest n g Hnone) as (k & Hk & Hmin).
  { exists c, i. split; [exact Hc'|].
    unfold abs_diff, SIZE_MAX.
    change (2 ^ 64) with 18446744073709551616.
    destruct (Z.gtb_spec n c); [|lia]. clear Hperm Hc' Hnone.
    decompose [or and] Hc; clear Hc; subst c i; lia. }
  specialize (Hmin c i Hc'). rewrite Hperm in Hk.
  apply in_constructed_table in Hk.
  unfold abs_diff in Hmin.
  destruct (Z.gtb_spec n c); [|lia].
  clear Hperm Hc' Hnone.
  destruct (Z.gtb_spec n k);
    decompose [or and] Hk; clear Hk; subst k;
    match goal with H : get_pool_index _ _ = _ |- _ => rewrite H; clear H end;
    decompose [or and] Hc; clear Hc; subst c i;
    first [reflexivity|exfalso; lia].
Qed.

(** X17.  With the eight classes of the constructor, in whatever order
    the table is iterated, a request strictly between a class size [c]
    and one and a half times [c] is routed to the class [c], and every
    request above 8192 bytes to the class 8192: the block it gets is
    smaller than the request. *)
Theorem request_between_classes_gets_the_smaller_block
    (s : St) (n c : Z) (i : nat) (pool : MemoryPool.t) :
  pool_index_map (fst s) ≡ₚ constructed_table ->
  (c, i) ∈ constructed_table ->
  memory_pools (fst s) !! i = Some pool ->
  block_size (MemoryPool.config pool) = c ->
  c < n ->
  2 * n < 3 * c \/ c = 8192 /\ n < 2 ^ 64 ->
  get_or_create_pool n s = Returns i s /\
  served_block_size n s = Some c /\
  c < n.
Proof.
  intros Hperm Hc Hlook Hsize Hlow Hhigh.
  pose proof (nearest_class_of_constructed_table _ _ _ _ Hperm Hc Hlow Hhigh)
    as Hidx.
  assert (Hget : get_or_create_pool n s = Returns i s).
  { rewrite <- Hidx. apply get_or_create_pool_selects. rewrite Hidx.
    apply lookup_lt_is_Some. now exists pool. }
  split; [exact Hget|]. split; [|exact Hlow].
  unfold served_block_size. rewrite Hget, Hlook. cbn. now rewrite Hsize.
Qed.

Lemma request_between_classes_gets_the_smaller_block_witness :
  (get_or_create_pool 90 fresh_state = Returns 0%nat fresh_state /\
   served_block_size 90 fresh_state = Some 64 /\ 64 < 90) /\
  (get_or_create_pool 1000000 fresh_state = Returns 7%nat fresh_state /\
   served_block_size 1000000 fresh_state = Some 8192 /\ 8192 < 1000000).
Proof.
  assert (Hperm : pool_index_map (fst fresh_state) ≡ₚ constructed_table).
  { replace (pool_index_map (fst fresh_state)) with constructed_table
      by (vm_compute; reflexivity). reflexivity. }
  split.
  - apply (request_between_classes_gets_the_smaller_block fresh_state 90 64
             0%nat (built_pool (class_config 64 default_MemoryPoolConfig)
                      4096));
      [exact Hperm|apply elem_of_cons; now left|vm_compute; reflexivity
      |reflexivity|lia|left; lia].
  - apply (request_between_classes_gets_the_smaller_block fresh_state
             1000000 8192 7%nat
             (built_pool (class_config 8192 default_MemoryPoolConfig) 12336));
      [exact Hperm
      |unfold constructed_table; do 7 (apply elem_of_cons; right);
       apply elem_of_cons; now left
      |vm_compute; reflexivity|reflexivity|lia|right; split; [reflexivity|]].
    change (2 ^ 64) with 18446744073709551616. lia.
Defined.

(** ** Without leak detection *)






(** ** The singleton *)

Lemma get_instance_started w g :
  Process.instance w = Some g ->
  Process.instance_mutex w = false ->
  Process.get_instance w = Returns tt w.
Proof.
  destruct w as [i mtx m]. cbn [Process.instance Process.instance_mutex].
  intros -> ->. reflexivity.
Qed.

Lemma initialize_started config w g :
  Process.instance w = Some g ->
  Process.instance_mutex w = false ->
  Process.initialize config w = Returns tt w.
Proof.
  destruct w as [i mtx m]. cbn [Process.instance Process.instance_mutex].
  intros -> ->. reflexivity.
Qed.

Lemma initialize_unstarted config w g m' :
  Process.instance w = None ->
  Process.instance_mutex w = false ->
  construct config (Process.memory w) = Returns g m' ->
  Process.initialize config w = Returns tt (Process.mk (Some g) false m').
Proof.
  destruct w as [i mtx m].
  cbn [Process.instance Process.instance_mutex Process.memory].
  intros -> -> H. unfold Process.initialize, lock_guard.
  cbn [Process.instance_mutex Process.set_instance_mutex Process.instance
       Process.memory].
  now rewrite H.
Qed.

Lemma get_instance_unstarted w g m' :
  Process.instance w = None ->
  Process.instance_mutex w = false ->
  construct default_MemoryPoolConfig (Process.memory w) = Returns g m' ->
  Process.get_instance w = Returns tt (Process.mk (Some g) false m').
Proof.
  destruct w as [i mtx m].
  cbn [Process.instance Process.instance_mutex Process.memory].
  intros -> -> H. unfold Process.get_instance, lock_guard.
  cbn [Process.instance_mutex Process.set_instance_mutex Process.instance
       Process.memory].
  now rewrite H.
Qed.

Lemma on_instance_started {A} (op : M St A) w g :
  Process.instance w = Some g ->
  Process.instance_mutex w = false ->
  Process.on_instance op w =
  match op (g, Process.memory w) with
  | Returns a (g', m') => Returns a (Process.mk (Some g') false m')
  | Throws (g', m') => Throws (Process.mk (Some g') false m')
  | Deadlocks => Deadlocks
  | Undefined => Undefined
  end.
Proof.
  intros Hi Hm. unfold Process.on_instance, bind.
  rewrite (get_instance_started _ _ Hi Hm), Hi, Hm. reflexivity.
Qed.

Lemma on_instance_unstarted {A} (op : M St A) w g m' :
  Process.instance w = None ->
  Process.instance_mutex w = false ->
  construct default_MemoryPoolConfig (Process.memory w) = Returns g m' ->
  Process.on_instance op w =
  match op (g, m') with
  | Returns a (g', m'') => Returns a (Process.mk (Some g') false m'')
  | Throws (g', m'') => Throws (Process.mk (Some g') false m'')
  | Deadlocks => Deadlocks
  | Undefined => Undefined
  end.
Proof.
  intros Hi Hm Hc. unfold Process.on_instance, bind.
  rewrite (get_instance_unstarted _ _ _ Hi Hm Hc). reflexivity.
Qed.

(** X19.  The singleton is built once.  [initialize(config)] builds it
    with [config] only while there is none; on a process that has a
    manager both [initialize] and [get_instance] change nothing, so a
    second [initialize] is ignored, and so is a first one that comes after
    [thread_safe_allocate] has built the manager with the default
    configuration. *)
Theorem singleton_is_built_once (w : Process.t) (config : MemoryPoolConfig) :
  Process.instance_mutex w = false ->
  (forall g, Process.instance w = Some g ->
     Process.initialize config w = Returns tt w /\
     Process.get_instance w = Returns tt w) /\
  (Process.instance w = None ->
   0 < sys_brk (Process.memory w) ->
   sys_brk (Process.memory w) + 16448 <= sys_limit (Process.memory w) ->
   (exists g m',
      Process.initialize config w
        = Returns tt (Process.mk (Some g) false m') /\
      default_config g = config /\
      forall config',
        Process.initialize config' (Process.mk (Some g) false m')
          = Returns tt (Process.mk (Some g) false m')) /\
   (forall n file line p w',
      Process.thread_safe_allocate n file line w = Returns p w' ->
      exists g',
        Process.instance w' = Some g' /\
        default_config g' = default_MemoryPoolConfig /\
        Process.initialize config w' = Returns tt w')).
Proof.
  intros Hm. split.
  - intros g Hi. split;
      [now apply (initialize_started _ _ g)
      |now apply (get_instance_started _ g)].
  - intros Hi Hbrk Hfit. split.
    + destruct (construct_runs config _ Hbrk Hfit)
        as (g & m' & Hc & _ & _ & _ & Hcfg & _).
      exists g, m'. split; [now apply initialize_unstarted|].
      split; [exact Hcfg|].
      intros config'. now apply (initialize_started _ _ g).
    + intros n file line p w' H.
      destruct (construct_runs default_MemoryPoolConfig _ Hbrk Hfit)
        as (g & m' & Hc & _ & _ & _ & Hcfg & _).
      unfold Process.thread_safe_allocate in H.
      rewrite (on_instance_unstarted _ _ _ _ Hi Hm Hc) in H.
      destruct (allocate n file line (g, m')) as [q [g' m'']| | |] eqn:Ha;
        try discriminate.
      2: { destruct s; discriminate. }
      injection H as <- <-.
      apply allocate_returns in Ha
        as (idx & s1 & pool & next & _ & _ & _ & _ & _ & _ & C & _).
      cbn [fst] in C. exists g'. split; [reflexivity|].
      split; [now rewrite C|]. reflexivity.
Qed.

Lemma singleton_is_built_once_witness :
  (exists g m',
     Process.initialize untracking_config unstarted
       = Returns tt (Process.mk (Some g) false m') /\
     default_config g = untracking_config /\
     forall config',
       Process.initialize config' (Process.mk (Some g) false m')
         = Returns tt (Process.mk (Some g) false m')) /\
  (forall n file line p w',
     Process.thread_safe_allocate n file line unstarted = Returns p w' ->
     exists g',
       Process.instance w' = Some g' /\
       default_config g' = default_MemoryPoolConfig /\
       Process.initialize untracking_config w' = Returns tt w').
Proof.
  apply (singleton_is_built_once unstarted untracking_config eq_refl);
    [reflexivity|vm_compute; reflexivity|vm_compute; discriminate].
Defined.

(** ** Shutdown *)

Lemma free_blocks_frames l m :
  links (fold_left (fun acc block => free block acc) l m) = links m /\
  bytes (fold_left (fun acc block => free block acc) l m) = bytes m.
Proof.
  revert m. induction l as [|b l IH]; intros m; cbn [fold_left]; [auto|].
  destruct (IH (free b m)) as [-> ->]. split; reflexivity.
Qed.

Lemma free_blocks_lookup l m a :
  sys_blocks (fold_left (fun acc block => free block acc) l m) !! a =
  if decide (a ∈ l) then None else sys_blocks m !! a.
Proof.
  revert m. induction l as [|b l IH]; intros m; cbn [fold_left].
  - destruct (decide (a ∈ [])) as [H|_]; [|reflexivity].
    now apply elem_of_nil in H.
  - rewrite IH. destruct (decide (a ∈ l)) as [Hin|Hout].
    + rewrite decide_True; [reflexivity|]. apply elem_of_cons. now right.
    + unfold free, set_sys_blocks. cbn [sys_blocks].
      destruct (decide (a = b)) as [->|Hne].
      * rewrite lookup_delete_eq. rewrite decide_True; [reflexivity|].
        apply elem_of_cons. now left.
      * rewrite lookup_delete_ne by congruence.
        rewrite decide_False; [reflexivity|].
        rewrite elem_of_cons. intros [?|?]; contradiction.
Qed.

Lemma destroy_pools_frames pools m :
  links (destroy_pools pools m) = links m /\
  bytes (destroy_pools pools m) = bytes m.
Proof.
  unfold destroy_pools. revert m.
  induction pools as [|pool pools IH]; intros m; cbn [fold_left]; [auto|].
  destruct (IH (MemoryPool.destroy pool m)) as [-> ->].
  apply free_blocks_frames.
Qed.

Lemma destroy_pools_lookup pools m a :
  sys_blocks (destroy_pools pools m) !! a =
  if decide (slab_of pools a) then None else sys_blocks m !! a.
Proof.
  unfold destroy_pools, slab_of. revert m.
  induction pools as [|pool pools IH]; intros m; cbn [fold_left].
  - rewrite decide_False; [reflexivity|]. intros H. inversion H.
  - rewrite IH. destruct (decide (Exists _ pools)) as [Hin|Hout].
    + rewrite decide_True; [reflexivity|]. now apply Exists_cons_tl.
    + unfold MemoryPool.destroy. rewrite free_blocks_lookup.
      destruct (decide (a ∈ MemoryPool.allocated_blocks pool)) as [Ha|Ha].
      * rewrite decide_True; [reflexivity|]. now apply Exists_cons_hd.
      * rewrite decide_False; [reflexivity|].
        intros H. inversion H; contradiction.
Qed.

Lemma destroy_runs s :
  tracking_mutex (fst s) = false ->
  NeuralMemoryManager.destroy s =
  Returns
    (if wrap64 (Z.of_nat (length (unfreed (fst s)))) >? 0
     then Some (wrap64 (Z.of_nat (length (unfreed (fst s)))),
                wrap64 (total_size (unfreed (fst s))))
     else None)
    (fst s, destroy_pools (memory_pools (fst s)) (snd s)).
Proof.
  intros H. unfold NeuralMemoryManager.destroy, bind.
  rewrite (detect_leaks_runs _ H).
  pose proof (scan_from_nothing
                (snd <$> map_to_list (allocated_blocks (fst s)))) as Hscan.
  cbv zeta in Hscan. rewrite Hscan. reflexivity.
Qed.

(** X20.  [shutdown()] destroys the singleton: afterwards there is no
    manager, every slab of every pool has been given back to the system
    (so pointers callers still hold dangle) and nothing else of the
    system allocator is touched, blocks the manager got from
    [std::realloc] included.  The warning is written exactly when the
    tracker holds unfreed records, with their number and total size, and
    a second [shutdown()] does nothing. *)
Theorem shutdown_releases_every_slab
    (w : Process.t) (g : NeuralMemoryManager.t) :
  Process.instance w = Some g ->
  Process.instance_mutex w = false ->
  tracking_mutex g = false ->
  exists warning w',
    Process.shutdown w = Returns warning w' /\
    Process.instance w' = None /\
    Process.instance_mutex w' = false /\
    (forall a, slab_of (memory_pools g) a ->
       sys_blocks (Process.memory w') !! a = None) /\
    (forall a, ~ slab_of (memory_pools g) a ->
       sys_blocks (Process.memory w') !! a
         = sys_blocks (Process.memory w) !! a) /\
    links (Process.memory w') = links (Process.memory w) /\
    bytes (Process.memory w') = bytes (Process.memory w) /\
    (unfreed g = [] -> warning = None) /\
    (0 < Z.of_nat (length (unfreed g)) < 2 ^ 64 ->
     warning = Some (Z.of_nat (length (unfreed g)),
                     wrap64 (total_size (unfreed g)))) /\
    Process.shutdown w' = Returns None w'.
Proof.
  intros Hi Hm Ht. destruct w as [i mtx m].
  cbn [Process.instance Process.instance_mutex Process.memory] in *.
  subst i mtx.
  eexists _, (Process.mk None false (destroy_pools (memory_pools g) m)).
  split.
  { unfold Process.shutdown, lock_guard.
    cbn [Process.instance_mutex Process.set_instance_mutex Process.instance
         Process.memory].
    rewrite (destroy_runs (g, m) Ht). reflexivity. }
  cbn [fst snd Process.instance Process.instance_mutex Process.memory].
  split; [reflexivity|]. split; [reflexivity|].
  split.
  { intros a Ha. rewrite destroy_pools_lookup. now rewrite decide_True. }
  split.
  { intros a Ha. rewrite destroy_pools_lookup. now rewrite decide_False. }
  split; [apply destroy_pools_frames|].
  split; [apply destroy_pools_frames|].
  split.
  { intros ->. reflexivity. }
  split.
  { intros Hlen. rewrite (wrap64_small (Z.of_nat _)) by lia.
    destruct (Z.gtb_spec (Z.of_nat (length (unfreed g))) 0);
      [reflexivity|lia]. }
  reflexivity.
Qed.

Lemma shutdown_releases_every_slab_witness :
  exists warning w',
    Process.shutdown (process_of holding_64) = Returns warning w' /\
    Process.instance w' = None /\
    Process.instance_mutex w' = false /\
    (forall a, slab_of (memory_pools (fst holding_64)) a ->
       sys_blocks (Process.memory w') !! a = None) /\
    (forall a, ~ slab_of (memory_pools (fst holding_64)) a ->
       sys_blocks (Process.memory w') !! a
         = sys_blocks (Process.memory (process_of holding_64)) !! a) /\
    links (Process.memory w')
      = links (Process.memory (process_of holding_64)) /\
    bytes (Process.memory w')
      = bytes (Process.memory (process_of holding_64)) /\
    (unfreed (fst holding_64) = [] -> warning = None) /\
    (0 < Z.of_nat (length (unfreed (fst holding_64))) < 2 ^ 64 ->
     warning = Some (Z.of_nat (length (unfreed (fst holding_64))),
                     wrap64 (total_size (unfreed (fst holding_64))))) /\
    Process.shutdown w' = Returns None w'.
Proof.
  apply (shutdown_releases_every_slab (process_of holding_64)
           (fst holding_64));
    [reflexivity|reflexivity|vm_compute; reflexivity].
Defined.

(** ** Handles and the singleton *)

Lemma drop_owned_owning h :
  NeuralUniquePtr.managed h = true ->
  NeuralUniquePtr.ptr h <> nullptr ->
  NeuralUniquePtr.drop_owned h =
  Process.on_instance (deallocate (NeuralUniquePtr.ptr h)).
Proof.
  intros Hm Hp. unfold NeuralUniquePtr.drop_owned. rewrite Hm.
  destruct (Z.eqb_spec (NeuralUniquePtr.ptr h) nullptr); [contradiction|].
  reflexivity.
Qed.

(** X21.  The destructor of an owning handle frees through the
    process-wide singleton, whoever allocated the pointer.  When the
    process has no singleton yet the destructor builds one with the
    default configuration and frees nothing; when the singleton does not
    track the pointer (it came from another manager object) nothing is
    freed either; otherwise the destructor is the singleton's
    [deallocate]. *)
Theorem handle_frees_through_the_singleton
    (h : NeuralUniquePtr.t) (w : Process.t) :
  NeuralUniquePtr.managed h = true ->
  NeuralUniquePtr.ptr h <> nullptr ->
  Process.instance_mutex w = false ->
  (Process.instance w = None ->
   0 < sys_brk (Process.memory w) ->
   sys_brk (Process.memory w) + 16448 <= sys_limit (Process.memory w) ->
   exists g m',
     construct default_MemoryPoolConfig (Process.memory w) = Returns g m' /\
     NeuralUniquePtr.destroy h w
       = Returns tt (Process.mk (Some g) false m')) /\
  (forall g,
     Process.instance w = Some g ->
     allocated_blocks g !! NeuralUniquePtr.ptr h = None ->
     tracking_mutex g = false ->
     NeuralUniquePtr.destroy h w = Returns tt w) /\
  (forall g s',
     Process.instance w = Some g ->
     deallocate (NeuralUniquePtr.ptr h) (g, Process.memory w)
       = Returns tt s' ->
     NeuralUniquePtr.destroy h w
       = Returns tt (Process.mk (Some (fst s')) false (snd s'))).
Proof.
  intros Hmanaged Hptr Hm. unfold NeuralUniquePtr.destroy.
  rewrite (drop_owned_owning _ Hmanaged Hptr).
  split; [|split].
  - intros Hi Hbrk Hfit.
    destruct (construct_runs default_MemoryPoolConfig _ Hbrk Hfit)
      as (g & m' & Hc & _ & _ & _ & _ & Hblocks & _ & Hmtx & _).
    exists g, m'. split; [exact Hc|].
    rewrite (on_instance_unstarted _ _ _ _ Hi Hm Hc).
    rewrite (deallocate_untracked _ (g, m')); [reflexivity| |exact Hmtx].
    cbn [fst]. rewrite Hblocks. apply lookup_empty.
  - intros g Hi Hnone Hmtx.
    rewrite (on_instance_started _ _ _ Hi Hm).
    rewrite (deallocate_untracked _ (g, Process.memory w) Hnone Hmtx).
    destruct w as [i mtx m].
    cbn [Process.instance Process.instance_mutex Process.memory] in *.
    now subst.
  - intros g [g' m'] Hi Hd.
    rewrite (on_instance_started _ _ _ Hi Hm), Hd. reflexivity.
Qed.

Lemma handle_frees_through_the_singleton_witness :
  (exists g m',
     construct default_MemoryPoolConfig (Process.memory unstarted)
       = Returns g m' /\
     NeuralUniquePtr.destroy (NeuralUniquePtr.construct 4104 true) unstarted
       = Returns tt (Process.mk (Some g) false m')) /\
  NeuralUniquePtr.destroy (NeuralUniquePtr.construct 4104 true)
      (process_of fresh_state)
    = Returns tt (process_of fresh_state) /\
  NeuralUniquePtr.destroy (NeuralUniquePtr.construct 4104 true)
      (process_of holding_64)
    = Returns tt
        (Process.mk (Some (fst (state_of (deallocate 4104 holding_64))))
           false (snd (state_of (deallocate 4104 holding_64)))).
Proof.
  split; [|split].
  - apply (handle_frees_through_the_singleton
             (NeuralUniquePtr.construct 4104 true) unstarted eq_refl);
      [discriminate|reflexivity|reflexivity|vm_compute; reflexivity
      |vm_compute; discriminate].
  - apply (proj1 (proj2 (handle_frees_through_the_singleton
             (NeuralUniquePtr.construct 4104 true) (process_of fresh_state)
             eq_refl ltac:(discriminate) eq_refl)) (fst fresh_state));
      [reflexivity|vm_compute; reflexivity|vm_compute; reflexivity].
  - apply (proj2 (proj2 (handle_frees_through_the_singleton
             (NeuralUniquePtr.construct 4104 true) (process_of holding_64)
             eq_refl ltac:(discriminate) eq_refl)) (fst holding_64));
      [reflexivity|vm_compute; reflexivity].
Defined.

(** X22.  Moving a handle moves the ownership: the new handle holds the
    pointer, the old one holds null, destroying the old one does nothing
    and destroying both is destroying the original once.  Move assignment
    first frees what the target owned, exactly as its destructor would. *)
Theorem move_transfers_ownership (h : NeuralUniquePtr.t) (w : Process.t) :
  let moved := NeuralUniquePtr.move_construct h in
  NeuralUniquePtr.get (fst moved) = NeuralUniquePtr.get h /\
  NeuralUniquePtr.get (snd moved) = nullptr /\
  (exec NeuralUniquePtr.destroy (snd moved);
   NeuralUniquePtr.destroy (fst moved)) w = NeuralUniquePtr.destroy h w /\
  (exec NeuralUniquePtr.destroy (fst moved);
   NeuralUniquePtr.destroy (snd moved)) w = NeuralUniquePtr.destroy h w /\
  (forall this w',
     NeuralUniquePtr.destroy this w = Returns tt w' ->
     NeuralUniquePtr.move_assign this h w = Returns moved w' /\
     (exec NeuralUniquePtr.destroy (snd moved);
      NeuralUniquePtr.destroy (fst moved)) w'
       = NeuralUniquePtr.destroy h w').
Proof.
  cbn zeta. unfold NeuralUniquePtr.move_construct. cbn [fst snd].
  assert (Hsame : forall w0,
            NeuralUniquePtr.destroy
              (NeuralUniquePtr.mk (NeuralUniquePtr.ptr h)
                 (NeuralUniquePtr.managed h)) w0
            = NeuralUniquePtr.destroy h w0)
    by (now destruct h).
  assert (Hnone : forall w0,
            NeuralUniquePtr.destroy (NeuralUniquePtr.mk nullptr false) w0
            = Returns tt w0) by reflexivity.
  split; [reflexivity|]. split; [reflexivity|].
  split; [unfold bind; now rewrite Hnone, Hsame|].
  split.
  { unfold bind. rewrite Hsame.
    destruct (NeuralUniquePtr.destroy h w) as [[] w1| | |]; reflexivity. }
  intros this w' Hd. split.
  - unfold NeuralUniquePtr.move_assign, bind.
    unfold NeuralUniquePtr.destroy in Hd. now rewrite Hd.
  - unfold bind. now rewrite Hnone, Hsame.
Qed.

Lemma move_transfers_ownership_witness :
  NeuralUniquePtr.move_assign (NeuralUniquePtr.construct 4104 true)
      (NeuralUniquePtr.construct 4184 true) (process_of fresh_state)
    = Returns (NeuralUniquePtr.move_construct
                 (NeuralUniquePtr.construct 4184 true))
        (process_of fresh_state) /\
  (exec NeuralUniquePtr.destroy
          (snd (NeuralUniquePtr.move_construct
                  (NeuralUniquePtr.construct 4184 true)));
   NeuralUniquePtr.destroy
     (fst (NeuralUniquePtr.move_construct
             (NeuralUniquePtr.construct 4184 true))))
      (process_of fresh_state)
    = NeuralUniquePtr.destroy (NeuralUniquePtr.construct 4184 true)
        (process_of fresh_state).
Proof.
  apply (proj2 (proj2 (proj2 (proj2
           (move_transfers_ownership (NeuralUniquePtr.construct 4184 true)
              (process_of fresh_state)))))
           (NeuralUniquePtr.construct 4104 true) (process_of fresh_state)).
  vm_compute. reflexivity.
Defined.

Lemma allocate_then_deallocate_serves n file line s head next :
  enable_leak_detection (default_config (fst s)) = true ->
  0 < head ->
  serves s n head next ->
  exists s1 s2,
    allocate n file line s = Returns (head + MemoryPool.offsetof_data) s1 /\
    deallocate (head + MemoryPool.offsetof_data) s1 = Returns tt s2 /\
    serves s2 n head next.
Proof.
  intros Hleak Hhead Hs.
  destruct (allocate_runs n file line _ _ _ Hs)
    as (Hlt & pool & s1 & Hlook & Halloc & Hpools & Htable & Ht1 & _).
  pose proof Halloc as Hret.
  apply allocate_returns in Hret
    as (idx & s0 & pool0 & next0 & _ & _ & _ & _ & _ & _ & _ & _ & B & _).
  rewrite Hleak in B.
  set (p := head + MemoryPool.offsetof_data) in *.
  assert (Hit : allocated_blocks (fst s1) !! p = Some (new_record p n file line))
    by (rewrite B; apply lookup_insert_eq).
  assert (Hlook1 : memory_pools (fst s1)
                     !! get_pool_index
                          (MemoryBlock.size (new_record p n file line))
                          (fst s1)
                   = Some (popped pool next)).
  { cbn [new_record MemoryBlock.size].
    rewrite (get_pool_index_table _ _ _ Htable), Hpools.
    now apply list_lookup_insert_eq. }
  assert (Hp0 : p <> nullptr)
    by (unfold p, MemoryPool.offsetof_data, nullptr; lia).
  assert (Hp8 : p <> MemoryPool.offsetof_data)
    by (unfold p, MemoryPool.offsetof_data; lia).
  destruct (deallocate_then_serves p s1 _ _ Hp0 Hp8 Hit Hlook1 eq_refl Ht1)
    as (s2 & it1 & Hrun & Hserves & _).
  exists s1, s2. split; [exact Halloc|]. split; [exact Hrun|].
  cbn [new_record MemoryBlock.size popped MemoryPool.free_list] in Hserves.
  replace (p - MemoryPool.offsetof_data) with head in Hserves
    by (unfold p; lia).
  exact Hserves.
Qed.

(** X23.  A handle gives its block back: when the singleton tracks
    leaks, the pointer [thread_safe_allocate] returned, wrapped in an
    owning handle, is returned to its pool by the handle's destructor,
    and the next [thread_safe_allocate] of that size returns the same
    pointer again. *)
Theorem handle_gives_its_block_back
    (w : Process.t) (g : NeuralMemoryManager.t) (n head next : Z)
    (file : option string) (line : Z) :
  Process.instance w = Some g ->
  Process.instance_mutex w = false ->
  enable_leak_detection (default_config g) = true ->
  0 < head ->
  serves (g, Process.memory w) n head next ->
  exists w1 w2 w3,
    Process.thread_safe_allocate n file line w
      = Returns (head + MemoryPool.offsetof_data) w1 /\
    NeuralUniquePtr.destroy
      (NeuralUniquePtr.construct (head + MemoryPool.offsetof_data) true) w1
      = Returns tt w2 /\
    Process.thread_safe_allocate n file line w2
      = Returns (head + MemoryPool.offsetof_data) w3.
Proof.
  intros Hi Hm Hleak Hhead Hs.
  destruct (allocate_then_deallocate_serves n file line
              (g, Process.memory w) _ _ Hleak Hhead Hs) as ([g1 m1] & [g2 m2] & Ha & Hd & Hs2).
  destruct (allocate_runs n file line _ _ _ Hs2)
    as (_ & _ & [g3 m3] & _ & Ha2 & _).
  exists (Process.mk (Some g1) false m1), (Process.mk (Some g2) false m2),
         (Process.mk (Some g3) false m3).
  split.
  { unfold Process.thread_safe_allocate.
    rewrite (on_instance_started _ _ _ Hi Hm), Ha. reflexivity. }
  split.
  { unfold NeuralUniquePtr.destroy. rewrite drop_owned_owning;
      [|reflexivity
       |cbn [NeuralUniquePtr.construct NeuralUniquePtr.ptr];
        unfold MemoryPool.offsetof_data, nullptr; lia].
    rewrite (on_instance_started _ _ g1) by reflexivity.
    cbn [NeuralUniquePtr.construct NeuralUniquePtr.ptr Process.memory].
    rewrite Hd. reflexivity. }
  unfold Process.thread_safe_allocate.
  rewrite (on_instance_started _ _ g2) by reflexivity.
  cbn [Process.memory]. rewrite Ha2. reflexivity.
Qed.

Lemma handle_gives_its_block_back_witness :
  exists w1 w2 w3,
    Process.thread_safe_allocate 64 None 0 (process_of fresh_state)
      = Returns (4096 + MemoryPool.offsetof_data) w1 /\
    NeuralUniquePtr.destroy
      (NeuralUniquePtr.construct (4096 + MemoryPool.offsetof_data) true) w1
      = Returns tt w2 /\
    Process.thread_safe_allocate 64 None 0 w2
      = Returns (4096 + MemoryPool.offsetof_data) w3.
Proof.
  apply (handle_gives_its_block_back (process_of fresh_state)
           (fst fresh_state) 64 4096 nullptr None 0);
    [reflexivity|reflexivity|vm_compute; reflexivity|reflexivity|].
  unfold process_of. cbn [Process.memory].
  rewrite <- (surjective_pairing fresh_state).
  exact fresh_state_serves_64.
Defined.

(** ** Blocks of the system allocator in the pools *)



(** ** The cases of reallocate *)

Lemma realloc_live p n m old :
  p <> nullptr ->
  sys_blocks m !! p = Some old ->
  exists q m',
    realloc p n m = Some (q, m') /\ (q = nullptr -> m' = m).
Proof.
  intros Hp Hold. unfold realloc.
  destruct (Z.eqb_spec p nullptr); [contradiction|]. rewrite Hold.
  destruct (malloc n m) as [q m1].
  destruct (Z.eqb_spec q nullptr) as [->|Hq].
  - exists nullptr, m. split; [reflexivity|reflexivity].
  - eexists _, _. split; [reflexivity|]. intros; contradiction.
Qed.

Lemma reallocate_grows_into ptr new_size file line s it head next :
  ptr <> nullptr -> new_size <> 0 ->
  allocated_blocks (fst s) !! ptr = Some it ->
  MemoryBlock.size it < new_size ->
  serves s new_size head next ->
  head + MemoryPool.offsetof_data <> nullptr ->
  exists s1,
    allocate new_size file line s
      = Returns (head + MemoryPool.offsetof_data) s1 /\
    snd s1 = snd s /\
    reallocate ptr new_size file line s =
    (exec (exec copy_block (head + MemoryPool.offsetof_data) ptr
                  (MemoryBlock.size it);
           deallocate ptr);
     ret (head + MemoryPool.offsetof_data)) s1.
Proof.
  intros Hptr Hsize Hit Hlt Hs Hnew.
  destruct (allocate_runs new_size file line _ _ _ Hs)
    as (_ & pool & s1 & _ & Halloc & _ & _ & _ & Hmem).
  exists s1. split; [exact Halloc|]. split; [exact Hmem|].
  rewrite (reallocate_tracked _ _ _ _ _ _ Hptr Hsize Hit).
  destruct (Z.leb_spec new_size (MemoryBlock.size it)); [lia|].
  unfold bind at 1. rewrite Halloc.
  destruct (Z.eqb_spec (head + MemoryPool.offsetof_data) nullptr);
    [contradiction|reflexivity].
Qed.

(** C5.  The cases of [reallocate], in the order the code tests them.  A
    null pointer is [allocate(new_size)]; otherwise a size of zero is
    [deallocate(ptr)] and the result is null; otherwise a tracked pointer
    whose recorded size is not exceeded comes back itself with the state
    untouched.  A tracked pointer that has to grow goes through
    [allocate(new_size)]: when the free list of the class of [new_size]
    is empty the call never returns; when the block handed out and the
    old block cannot hold [old_size] bytes each, or the two ranges
    overlap, the [memcpy] of [old_size] bytes is undefined; otherwise the
    new pointer is returned, its first [min(old_size, new_size)] bytes
    are those of the old block, and the old block is the head of the
    free list of its class again, its record marked freed.  A pointer
    the tracker does not know is handed to the system [realloc]:
    undefined when it is no live object, otherwise the result of
    [realloc], null with nothing changed when no memory is left. *)
Theorem reallocate_cases
    (ptr new_size : Z) (file : option string) (line : Z) (s : St) :
  (ptr = nullptr ->
   reallocate ptr new_size file line s = allocate new_size file line s) /\
  (ptr <> nullptr -> new_size = 0 ->
   reallocate ptr new_size file line s
   = (exec deallocate ptr; ret nullptr) s) /\
  (forall it,
     ptr <> nullptr -> new_size <> 0 ->
     allocated_blocks (fst s) !! ptr = Some it ->
     new_size <= MemoryBlock.size it ->
     reallocate ptr new_size file line s = Returns ptr s) /\
  (forall it pool,
     ptr <> nullptr -> new_size <> 0 ->
     allocated_blocks (fst s) !! ptr = Some it ->
     MemoryBlock.size it < new_size ->
     memory_pools (fst s) !! get_pool_index new_size (fst s) = Some pool ->
     MemoryPool.free_list pool = nullptr ->
     reallocate ptr new_size file line s = Deadlocks) /\
  (forall it head next,
     ptr <> nullptr -> new_size <> 0 ->
     allocated_blocks (fst s) !! ptr = Some it ->
     MemoryBlock.size it < new_size ->
     serves s new_size head next ->
     let new_ptr := head + MemoryPool.offsetof_data in
     let old_size := MemoryBlock.size it in
     new_ptr <> nullptr ->
     (((new_ptr + old_size <=? ptr) || (ptr + old_size <=? new_ptr))
        && in_object new_ptr old_size (snd s)
        && in_object ptr old_size (snd s) = false ->
      reallocate ptr new_size file line s = Undefined) /\
     (forall m1 old_pool,
        memcpy new_ptr ptr old_size (snd s) = Some m1 ->
        new_ptr <> ptr ->
        ptr <> MemoryPool.offsetof_data ->
        memory_pools (fst s) !! get_pool_index old_size (fst s)
          = Some old_pool ->
        MemoryPool.pool_mutex old_pool = false ->
        exists s2,
          reallocate ptr new_size file line s = Returns new_ptr s2 /\
          (forall i, 0 <= i < Z.min old_size new_size ->
             load_byte (snd s2) (new_ptr + i) = load_byte (snd s) (ptr + i)) /\
          serves s2 old_size (ptr - MemoryPool.offsetof_data)
            (if decide (get_pool_index old_size (fst s)
                        = get_pool_index new_size (fst s))
             then next else MemoryPool.free_list old_pool) /\
          (enable_leak_detection (default_config (fst s)) = true ->
           allocated_blocks (fst s2) !! ptr
             = Some (MemoryBlock.mark_freed it)))) /\
  (ptr <> nullptr -> new_size <> 0 ->
   allocated_blocks (fst s) !! ptr = None ->
   tracking_mutex (fst s) = false ->
   (sys_blocks (snd s) !! ptr = None ->
    reallocate ptr new_size file line s = Undefined) /\
   (forall old,
      sys_blocks (snd s) !! ptr = Some old ->
      exists new_ptr s2,
        reallocate ptr new_size file line s = Returns new_ptr s2 /\
        (new_ptr = nullptr -> s2 = s) /\
        (new_ptr <> nullptr ->
         (forall i, 0 <= i < Z.min old new_size ->
            load_byte (snd s2) (new_ptr + i) = load_byte (snd s) (ptr + i)) /\
         (new_ptr <> ptr ->
          sys_blocks (snd s2) !! new_ptr = Some new_size /\
          sys_blocks (snd s2) !! ptr = None)))).
Proof.
  split; [|split; [|split; [|split; [|split]]]].
  - intros ->. reflexivity.
  - intros Hptr ->. unfold reallocate.
    destruct (Z.eqb_spec ptr nullptr); [contradiction|]. reflexivity.
  - intros it Hptr Hsize Hit Hle.
    rewrite (reallocate_tracked _ _ _ _ _ _ Hptr Hsize Hit).
    destruct (Z.leb_spec new_size (MemoryBlock.size it)); [reflexivity|lia].
  - intros it pool Hptr Hsize Hit Hlt Hlook Hempty.
    rewrite (reallocate_tracked _ _ _ _ _ _ Hptr Hsize Hit).
    destruct (Z.leb_spec new_size (MemoryBlock.size it)); [lia|].
    unfold bind at 1.
    now rewrite (allocate_hangs _ _ _ _ _ Hlook Hempty).
  - intros it head next Hptr Hsize Hit Hlt Hs new_ptr old_size Hnew.
    destruct (reallocate_grows_into _ _ file line _ _ _ _
                Hptr Hsize Hit Hlt Hs Hnew) as (s1 & Halloc & Hmem & Hrun).
    fold new_ptr old_size in Halloc, Hrun.
    split.
    { intros Hbad. rewrite Hrun. unfold bind, copy_block.
      rewrite Hmem, (memcpy_undefined _ _ _ _ Hbad). reflexivity. }
    intros m1 old_pool Hcopy Hne Hptr8 Hold Hmtx.
    destruct (allocate_runs new_size file line _ _ _ Hs)
      as (Hlt' & pool & s1' & Hlook & Halloc' & Hpools & Htable & Ht1 & _).
    fold new_ptr in Halloc'. rewrite Halloc in Halloc'.
    injection Halloc' as <-.
    pose proof Halloc as Hret.
    apply allocate_returns in Hret
      as (idx & s0 & pool0 & next0 & _ & _ & _ & _ & _ & _ & C1 & _ & B1 & _).
    assert (Hit1 : allocated_blocks (fst (fst s1, m1)) !! ptr = Some it).
    { cbn [fst]. rewrite B1.
      destruct (enable_leak_detection _); [|exact Hit].
      now rewrite lookup_insert_ne. }
    set (old_pool1 :=
           if decide (get_pool_index old_size (fst s)
                      = get_pool_index new_size (fst s))
           then popped pool next else old_pool).
    assert (Hlook1 : memory_pools (fst (fst s1, m1))
                       !! get_pool_index (MemoryBlock.size it)
                            (fst (fst s1, m1))
                     = Some old_pool1).
    { cbn [fst]. rewrite (get_pool_index_table _ _ _ Htable), Hpools.
      unfold old_pool1. fold old_size.
      destruct (decide (get_pool_index old_size (fst s)
                        = get_pool_index new_size (fst s))) as [->|Hidx].
      - now apply list_lookup_insert_eq.
      - rewrite list_lookup_insert_ne by congruence. exact Hold. }
    assert (Hm1 : MemoryPool.pool_mutex old_pool1 = false)
      by (unfold old_pool1; destruct (decide _); [reflexivity|exact Hmtx]).
    destruct (deallocate_then_serves ptr (fst s1, m1) it old_pool1
                Hptr Hptr8 Hit1 Hlook1 Hm1 Ht1)
      as (s2 & it1 & Hfree & Hserves & _).
    exists s2. split.
    { rewrite Hrun. unfold bind, copy_block.
      rewrite Hmem, Hcopy, Hfree. reflexivity. }
    split.
    { intros i Hi.
      pose proof (keeps_returns payload _ _ _ _
                    (keeps_payload_deallocate ptr) Hfree) as P2.
      unfold payload in P2. cbn [snd] in P2.
      rewrite (load_byte_payload _ _ _ P2).
      apply memcpy_Some in Hcopy as (-> & _).
      apply copy_bytes_copies. lia. }
    split.
    { fold old_size in Hserves.
      replace (if decide (get_pool_index old_size (fst s)
                          = get_pool_index new_size (fst s))
               then next else MemoryPool.free_list old_pool)
        with (MemoryPool.free_list old_pool1); [exact Hserves|].
      unfold old_pool1. destruct (decide _); reflexivity. }
    intros Hleak.
    apply (deallocate_returns _ _ _ Hptr) in Hfree as (_ & B2 & _).
    cbn [fst] in B2. rewrite C1, Hleak in B2.
    cbn [fst] in Hit1.
    rewrite B2, lookup_alter, decide_True by reflexivity.
    now rewrite Hit1.
  - intros Hptr Hsize Hnone Hm.
    pose proof (reallocate_untracked _ _ file line _ Hptr Hsize Hnone Hm)
      as Hrun.
    split.
    { intros Hdead. rewrite Hrun. unfold realloc.
      destruct (Z.eqb_spec ptr nullptr); [contradiction|].
      now rewrite Hdead. }
    intros old Hold.
    destruct (realloc_live _ new_size _ _ Hptr Hold)
      as (q & m' & Hre & Hfail).
    rewrite Hre in Hrun. eexists q, _. split; [exact Hrun|].
    destruct (Z.eqb_spec q nullptr) as [Hq|Hq].
    + split; [|intros; contradiction].
      intros _. rewrite (Hfail Hq). now destruct s.
    + split; [intros; contradiction|]. intros _. cbn [snd].
      exact (realloc_moves _ _ _ _ _ _ Hptr Hold Hre Hq).
Qed.

Lemma reallocate_cases_witness :
  reallocate nullptr 256 None 0 fresh_state = allocate 256 None 0 fresh_state /\
  reallocate 4104 0 None 0 holding_64
    = (exec deallocate 4104; ret nullptr) holding_64 /\
  reallocate 4104 32 None 0 holding_64 = Returns 4104 holding_64 /\
  reallocate 4104 70 None 0 holding_64 = Deadlocks /\
  reallocate 8232 7000 None 0 (state_of (allocate 6000 None 0 fresh_state))
    = Undefined /\
  (exists s2,
     reallocate 4104 200 None 0 holding_64
       = Returns (4320 + MemoryPool.offsetof_data) s2 /\
     (forall i,
        0 <= i < Z.min (MemoryBlock.size (new_record 4104 64 None 0)) 200 ->
        load_byte (snd s2) (4320 + MemoryPool.offsetof_data + i)
        = load_byte (snd holding_64) (4104 + i)) /\
     serves s2 (MemoryBlock.size (new_record 4104 64 None 0))
       (4104 - MemoryPool.offsetof_data)
       (if decide (get_pool_index
                     (MemoryBlock.size (new_record 4104 64 None 0))
                     (fst holding_64)
                   = get_pool_index 200 (fst holding_64))
        then nullptr
        else MemoryPool.free_list
               (popped (built_pool (class_config 64 default_MemoryPoolConfig)
                          4096) nullptr)) /\
     (enable_leak_detection (default_config (fst holding_64)) = true ->
      allocated_blocks (fst s2) !! 4104
        = Some (MemoryBlock.mark_freed (new_record 4104 64 None 0)))) /\
  reallocate 12345 100 None 7 foreign_state = Undefined /\
  (exists new_ptr s2,
     reallocate 20544 100 None 7 foreign_state = Returns new_ptr s2 /\
     (new_ptr = nullptr -> s2 = foreign_state) /\
     (new_ptr <> nullptr ->
      (forall i, 0 <= i < Z.min 32 100 ->
         load_byte (snd s2) (new_ptr + i)
         = load_byte (snd foreign_state) (20544 + i)) /\
      (new_ptr <> 20544 ->
       sys_blocks (snd s2) !! new_ptr = Some 100 /\
       sys_blocks (snd s2) !! 20544 = None))).
Proof.
  assert (Hserves200 : serves holding_64 200 4320 nullptr).
  { exists (built_pool (class_config 256 default_MemoryPoolConfig) 4320).
    repeat split; try (vm_compute; reflexivity). vm_compute. discriminate. }
  assert (Hserves7000 :
            serves (state_of (allocate 6000 None 0 fresh_state)) 7000 12336
                   nullptr).
  { exists (built_pool (class_config 8192 default_MemoryPoolConfig) 12336).
    repeat split; try (vm_compute; reflexivity). vm_compute. discriminate. }
  split; [|split; [|split; [|split; [|split; [|split; [|split]]]]]].
  - apply (proj1 (reallocate_cases nullptr 256 None 0 fresh_state)).
    reflexivity.
  - apply (proj1 (proj2 (reallocate_cases 4104 0 None 0 holding_64)));
      [discriminate|reflexivity].
  - apply (proj1 (proj2 (proj2 (reallocate_cases 4104 32 None 0 holding_64)))
             (new_record 4104 64 None 0));
      [discriminate|discriminate|vm_compute; reflexivity
      |vm_compute; discriminate].
  - apply (proj1 (proj2 (proj2 (proj2
             (reallocate_cases 4104 70 None 0 holding_64))))
             (new_record 4104 64 None 0)
             (popped (built_pool (class_config 64 default_MemoryPoolConfig)
                        4096) nullptr));
      [discriminate|discriminate|vm_compute; reflexivity|reflexivity
      |vm_compute; reflexivity|reflexivity].
  - apply (proj1 (proj1 (proj2 (proj2 (proj2 (proj2
             (reallocate_cases 8232 7000 None 0
                (state_of (allocate 6000 None 0 fresh_state)))))))
             (new_record 8232 6000 None 0) 12336 nullptr
             ltac:(discriminate) ltac:(discriminate)
             ltac:(vm_compute; reflexivity) ltac:(reflexivity)
             Hserves7000 ltac:(discriminate))).
    vm_compute. reflexivity.
  - apply (proj2 (proj1 (proj2 (proj2 (proj2 (proj2
             (reallocate_cases 4104 200 None 0 holding_64)))))
             (new_record 4104 64 None 0) 4320 nullptr
             ltac:(discriminate) ltac:(discriminate)
             ltac:(vm_compute; reflexivity) ltac:(reflexivity)
             Hserves200 ltac:(discriminate))
             (copy_bytes 4328 4104 64 (snd holding_64))
             (popped (built_pool (class_config 64 default_MemoryPoolConfig)
                        4096) nullptr));
      [vm_compute; reflexivity|discriminate|discriminate
      |vm_compute; reflexivity|reflexivity].
  - apply (proj1 (proj2 (proj2 (proj2 (proj2 (proj2
             (reallocate_cases 12345 100 None 7 foreign_state)))))
             ltac:(discriminate) ltac:(discriminate)
             ltac:(vm_compute; reflexivity) ltac:(vm_compute; reflexivity))).
    vm_compute. reflexivity.
  - apply (proj2 (proj2 (proj2 (proj2 (proj2 (proj2
             (reallocate_cases 20544 100 None 7 foreign_state)))))
             ltac:(discriminate) ltac:(discriminate)
             ltac:(vm_compute; reflexivity) ltac:(vm_compute; reflexivity))
             32).
    vm_compute. reflexivity.
Defined.

(** ** Exhausted memory in the constructor *)





